(** * UAV failure detection exercise: a shallow embedding and its properties

    The development follows [uav_failure_detection_exercise.py]:

    - Python values, binary64 floats and the comparisons the script uses;
    - record dictionaries as insertion-ordered association lists;
    - a state-and-exception monad for the module globals and [print];
    - the plotting library behind [plot_result] as a parameter, which
      shows the figure or raises;
    - [algorithm_init], [algorithm_update], [algorithm_done],
      [load_data], [run_simulation] and the [__main__] block;
    - the properties of the window filter, the histories, the
      normaliser and the chronological sort. *)

From Stdlib Require Import ZArith List String Bool Lia Permutation Sorted.
From Stdlib Require Import Floats.SpecFloat.
Import ListNotations.
Open Scope string_scope.
Open Scope list_scope.
Open Scope Z_scope.

(** ** Python floats: IEEE 754 binary64 *)

Module PyFloat.

Definition prec : Z := 53.
Definition emax : Z := 1024.

Definition float : Type := spec_float.

(** Correctly rounded conversion of an integer (round half to even);
    an integer beyond the binary64 range comes out as an infinity. *)
Definition of_Z (z : Z) : float := binary_normalize prec emax z 0 false.

Definition div (x y : float) : float := SFdiv prec emax x y.

Definition is_nan (f : float) : bool :=
  match f with S754_nan => true | _ => false end.

Definition is_inf (f : float) : bool :=
  match f with S754_infinity _ => true | _ => false end.

Definition is_zero (f : float) : bool :=
  match f with S754_zero _ => true | _ => false end.

(** Neither NaN nor negative: [+0], a positive finite number or [+inf]. *)
Definition nonneg (f : float) : bool :=
  match f with
  | S754_zero false | S754_infinity false | S754_finite false _ _ => true
  | _ => false
  end.

(** Not a NaN, with sign bit [s]. *)
Definition signed_as (s : bool) (f : float) : Prop :=
  match f with
  | S754_zero s' | S754_infinity s' | S754_finite s' _ _ => s' = s
  | S754_nan => False
  end.

(** Truncation towards zero of a finite float, as [int(x)] does. *)
Definition trunc (f : float) : option Z :=
  match f with
  | S754_zero _ => Some 0
  | S754_finite s m e =>
      let a := if 0 <=? e then Z.pos m * 2 ^ e else Z.pos m / 2 ^ (- e) in
      Some (cond_Zopp s a)
  | _ => None
  end.

(** Exact comparison of an integer with a float: Python compares the
    mathematical values, it does not round the integer first. *)
Definition compare_Z (a : Z) (f : float) : option comparison :=
  match f with
  | S754_nan => None
  | S754_infinity s => Some (if s then Gt else Lt)
  | S754_zero _ => Some (a ?= 0)
  | S754_finite s m e =>
      if 0 <=? e then Some (a ?= cond_Zopp s (Z.pos m * 2 ^ e))
      else Some (a * 2 ^ (- e) ?= cond_Zopp s (Z.pos m))
  end.

End PyFloat.

Definition float : Type := PyFloat.float.

(** ** Python values and exceptions *)

Inductive value : Type :=
| VInt (z : Z)
| VFloat (f : float)
| VStr (s : string).

(** An exception is its class name and its arguments. *)
Record exn : Type := Exn { exc_class : string; exc_args : list value }.

Definition KeyError (k : string) : exn := Exn "KeyError" [VStr k].
Definition TypeError : exn := Exn "TypeError" [].
Definition ValueError : exn := Exn "ValueError" [].
Definition OverflowError : exn := Exn "OverflowError" [].
Definition ZeroDivisionError : exn := Exn "ZeroDivisionError" [].
Definition IndexError : exn := Exn "IndexError" [].

Inductive outcome (A : Type) : Type :=
| Returns (a : A)
| Raises (e : exn).
Arguments Returns {A} a.
Arguments Raises {A} e.

(** *** Comparisons *)

Definition opt_CompOpp (c : option comparison) : option comparison :=
  option_map CompOpp c.

(** Three-way comparison of two numbers; [None] when a NaN is involved. *)
Definition num_compare (x y : value) : option (option comparison) :=
  match x, y with
  | VInt a, VInt b => Some (Some (a ?= b))
  | VInt a, VFloat g => Some (PyFloat.compare_Z a g)
  | VFloat f, VInt b => Some (opt_CompOpp (PyFloat.compare_Z b f))
  | VFloat f, VFloat g => Some (SFcompare f g)
  | _, _ => None
  end.

(** [x < y] *)
Definition py_lt (x y : value) : outcome bool :=
  match x, y with
  | VStr s, VStr t => Returns (String.ltb s t)
  | _, _ =>
      match num_compare x y with
      | Some (Some Lt) => Returns true
      | Some _ => Returns false
      | None => Raises TypeError
      end
  end.

(** [x > y] *)
Definition py_gt (x y : value) : outcome bool :=
  match x, y with
  | VStr s, VStr t => Returns (String.ltb t s)
  | _, _ =>
      match num_compare x y with
      | Some (Some Gt) => Returns true
      | Some _ => Returns false
      | None => Raises TypeError
      end
  end.

(** [x <= y], used in statements only: the script never evaluates it. *)
Definition py_le (x y : value) : bool :=
  match x, y with
  | VStr s, VStr t => String.leb s t
  | _, _ =>
      match num_compare x y with
      | Some (Some (Lt | Eq)) => true
      | _ => false
      end
  end.

(** [x == y]; never raises. *)
Definition py_eq (x y : value) : bool :=
  match x, y with
  | VStr s, VStr t => String.eqb s t
  | _, _ =>
      match num_compare x y with
      | Some (Some Eq) => true
      | _ => false
      end
  end.

(** ** Dictionaries

    A record is a [dict] built by a literal; iteration follows insertion
    order, so it is kept as an association list. *)

Definition dict : Type := list (string * value).

Fixpoint lookup {V : Type} (k : string) (d : list (string * V)) : option V :=
  match d with
  | [] => None
  | (k', v) :: d' => if String.eqb k k' then Some v else lookup k d'
  end.

(** [d[k]] *)
Definition getitem {V : Type} (d : list (string * V)) (k : string) : outcome V :=
  match lookup k d with
  | Some v => Returns v
  | None => Raises (KeyError k)
  end.

(** [list(d.values())] *)
Definition values (d : dict) : list value := map snd d.

(** ** Module globals, the sink and the monad *)

(** What the script hands to the outside: a [print] call with its
    arguments, the list of field names printed by [load_data], and a
    figure shown by [plot_result], with the data it was given to
    draw. *)
Inductive output : Type :=
| Print (args : list value)
| PrintKeys (keys : list string)
| PlotResult (start_s end_s : value)
             (p_time p_log k_time k_log : list value).

(** The six globals of lines 71-76 and, in [sink], what the script has
    printed and plotted so far, oldest first. *)
Record state : Type := State {
  start_seconds : value;
  end_seconds : value;
  pressure_time : list value;
  pressure_log : list value;
  kill_sw_time : list value;
  kill_sw_log : list value;
  sink : list output
}.

(** The globals as the module defines them (lines 71-76). *)
Definition module_globals : state :=
  State (VInt 100) (VInt 900) [] [] [] [] [].

(** A computation returns a value or raises, and leaves a state either
    way: what was appended or printed before an exception stays. *)
Definition M (A : Type) : Type := state -> outcome A * state.

Definition ret {A} (a : A) : M A := fun s => (Returns a, s).

Definition bind {A B} (m : M A) (k : A -> M B) : M B :=
  fun s =>
    match m s with
    | (Returns a, s') => k a s'
    | (Raises e, s') => (Raises e, s')
    end.

Definition raise {A} (e : exn) : M A := fun s => (Raises e, s).

Definition lift {A} (o : outcome A) : M A := fun s => (o, s).

Definition gets {A} (f : state -> A) : M A := fun s => (Returns (f s), s).

Definition modify (f : state -> state) : M unit := fun s => (Returns tt, f s).

Declare Scope py_scope.
Delimit Scope py_scope with py.
Notation "x <- m ;; k" := (bind m (fun x => k))
  (at level 61, m at next level, right associativity) : py_scope.
Notation "m ;;; k" := (bind m (fun _ => k))
  (at level 61, right associativity) : py_scope.
Open Scope py_scope.

(** [for x in l: body(x)] *)
Fixpoint for_each {A} (l : list A) (body : A -> M unit) : M unit :=
  match l with
  | [] => ret tt
  | a :: l' => body a ;;; for_each l' body
  end.

(** [for x in l: acc = body(acc, x)], for a loop that grows a local. *)
Fixpoint foldM {A B} (body : B -> A -> M B) (acc : B) (l : list A) : M B :=
  match l with
  | [] => ret acc
  | a :: l' => acc' <- body acc a ;; foldM body acc' l'
  end.

Definition print (args : list value) : M unit :=
  modify (fun s =>
    State (start_seconds s) (end_seconds s) (pressure_time s) (pressure_log s)
          (kill_sw_time s) (kill_sw_log s) (sink s ++ [Print args])).

Definition print_keys (keys : list string) : M unit :=
  modify (fun s =>
    State (start_seconds s) (end_seconds s) (pressure_time s) (pressure_log s)
          (kill_sw_time s) (kill_sw_log s) (sink s ++ [PrintKeys keys])).

(** The plotting library is not part of the script.  What it does with
    the six arguments of [plot_result] (bounds for the axes, two pairs
    of series) is a parameter of the model: [None] when the figure is
    drawn and shown, [Some e] when one of the calls of lines 41-51
    raises [e], as the library does for series of unequal lengths or
    for bounds it cannot use. *)
Definition matplotlib : Type :=
  value -> value -> list value -> list value -> list value -> list value ->
  option exn.

(** [plot_result] (lines 40-51) changes none of its arguments; a figure
    that was shown is recorded in the sink, a call that raised is not. *)
Definition plot_result (plt : matplotlib) (start_s end_s : value)
    (p_time p_log k_time k_log : list value) : M unit :=
  match plt start_s end_s p_time p_log k_time k_log with
  | None =>
      modify (fun s =>
        State (start_seconds s) (end_seconds s) (pressure_time s)
              (pressure_log s) (kill_sw_time s) (kill_sw_log s)
              (sink s ++ [PlotResult start_s end_s p_time p_log k_time k_log]))
  | Some e => raise e
  end.

Definition pressure_time_append (v : value) : M unit :=
  modify (fun s =>
    State (start_seconds s) (end_seconds s) (pressure_time s ++ [v])
          (pressure_log s) (kill_sw_time s) (kill_sw_log s) (sink s)).

Definition pressure_log_append (v : value) : M unit :=
  modify (fun s =>
    State (start_seconds s) (end_seconds s) (pressure_time s)
          (pressure_log s ++ [v]) (kill_sw_time s) (kill_sw_log s) (sink s)).

Definition kill_sw_time_append (v : value) : M unit :=
  modify (fun s =>
    State (start_seconds s) (end_seconds s) (pressure_time s) (pressure_log s)
          (kill_sw_time s ++ [v]) (kill_sw_log s) (sink s)).

Definition kill_sw_log_append (v : value) : M unit :=
  modify (fun s =>
    State (start_seconds s) (end_seconds s) (pressure_time s) (pressure_log s)
          (kill_sw_time s) (kill_sw_log s ++ [v]) (sink s)).

(** ** The algorithm section (lines 78-103) *)

Definition algorithm_init : M unit :=
  print [VStr "Algorithm init"].

(** The condition of line 83; [and] evaluates its right operand only
    when the left one is true. *)
Definition in_window (new_data : dict) : M bool :=
  t <- lift (getitem new_data "timestamp") ;;
  lo <- gets start_seconds ;;
  c <- lift (py_gt t lo) ;;
  if c then
    t' <- lift (getitem new_data "timestamp") ;;
    hi <- gets end_seconds ;;
    lift (py_lt t' hi)
  else ret false.

Definition field_is (new_data : dict) (kind : string) : M bool :=
  f <- lift (getitem new_data "field") ;;
  ret (py_eq f (VStr kind)).

Definition update_imu (new_data : dict) : M unit :=
  t <- lift (getitem new_data "timestamp") ;;
  gx <- lift (getitem new_data "gyro_rad_x") ;;
  gy <- lift (getitem new_data "gyro_rad_y") ;;
  gz <- lift (getitem new_data "gyro_rad_z") ;;
  ax <- lift (getitem new_data "acc_x") ;;
  ay <- lift (getitem new_data "acc_y") ;;
  az <- lift (getitem new_data "acc_z") ;;
  print [t; VStr "imu"; gx; gy; gz; ax; ay; az].

Definition update_pressure (new_data : dict) : M unit :=
  t <- lift (getitem new_data "timestamp") ;;
  p <- lift (getitem new_data "baro_pressure_pa") ;;
  print [t; VStr "pressure"; p] ;;;
  t' <- lift (getitem new_data "timestamp") ;;
  pressure_time_append t' ;;;
  p' <- lift (getitem new_data "baro_pressure_pa") ;;
  pressure_log_append p'.

Definition update_kill_switch (new_data : dict) : M unit :=
  t <- lift (getitem new_data "timestamp") ;;
  a <- lift (getitem new_data "aux1") ;;
  print [t; VStr "kill switch"; a] ;;;
  t' <- lift (getitem new_data "timestamp") ;;
  kill_sw_time_append t' ;;;
  a' <- lift (getitem new_data "aux1") ;;
  kill_sw_log_append a'.

Definition algorithm_update (new_data : dict) : M unit :=
  w <- in_window new_data ;;
  if w then
    c1 <- field_is new_data "sensor_combined" ;;
    (if c1 then update_imu new_data else ret tt) ;;;
    c2 <- field_is new_data "vehicle_air_data" ;;
    (if c2 then update_pressure new_data else ret tt) ;;;
    c3 <- field_is new_data "manual_control_setpoint" ;;
    (if c3 then update_kill_switch new_data else ret tt)
  else ret tt.

Definition algorithm_done (plt : matplotlib) : M unit :=
  print [VStr "Algorithm done"] ;;;
  lo <- gets start_seconds ;;
  hi <- gets end_seconds ;;
  pt <- gets pressure_time ;;
  pl <- gets pressure_log ;;
  kt <- gets kill_sw_time ;;
  kl <- gets kill_sw_log ;;
  plot_result plt lo hi pt pl kt kl.

(** [run_simulation] (lines 149-153) *)
Definition run_simulation (plt : matplotlib) (data : list dict) : M unit :=
  algorithm_init ;;;
  for_each data algorithm_update ;;;
  algorithm_done plt.

(** ** The decoded log

    [ULog(log_file_path)] is the decoder's work; [load_data] is modelled
    from the decoded object on.  Each entry of [ulog.data_list] has a
    [name], the field descriptions [field_data] (their names) and the
    columns [data], one array of NumPy scalars per field name. *)

Inductive npval : Type :=
| NpInt (z : Z)
| NpFloat (f : float).

Module ULog.
Record data_t : Type := Data {
  name : string;
  field_data : list string;
  data : list (string * list npval)
}.
Definition t : Type := list data_t.
End ULog.

(** Bind of the exception-only fragment, for code that touches no global. *)
Definition obind {A B} (o : outcome A) (k : A -> outcome B) : outcome B :=
  match o with
  | Returns a => k a
  | Raises e => Raises e
  end.

Notation "x <~ o ;; k" := (obind o (fun x => k))
  (at level 61, o at next level, right associativity) : py_scope.

Fixpoint omapM {A B} (f : A -> outcome B) (l : list A) : outcome (list B) :=
  match l with
  | [] => Returns []
  | a :: l' => b <~ f a ;; bs <~ omapM f l' ;; Returns (b :: bs)
  end.

(** Conversion of a Python integer to a float; too large an integer
    raises [OverflowError]. *)
Definition int_to_float (a : Z) : outcome float :=
  let f := PyFloat.of_Z a in
  if PyFloat.is_inf f then Raises OverflowError else Returns f.

(** [int(x)] *)
Definition py_int (x : npval) : outcome Z :=
  match x with
  | NpInt z => Returns z
  | NpFloat f =>
      match PyFloat.trunc f with
      | Some z => Returns z
      | None => Raises (if PyFloat.is_nan f then ValueError else OverflowError)
      end
  end.

(** [float(x)] *)
Definition py_float (x : npval) : outcome float :=
  match x with
  | NpInt z => int_to_float z
  | NpFloat f => Returns f
  end.

(** [a / y] for an integer [a] and a float [y] *)
Definition py_truediv (a : Z) (y : float) : outcome float :=
  x <~ int_to_float a ;;
  if PyFloat.is_zero y then Raises ZeroDivisionError
  else Returns (PyFloat.div x y).

(** The literal [1000000.] *)
Definition million : float := PyFloat.of_Z 1000000.

(** [int(ts)/1000000.] *)
Definition seconds (ts : npval) : outcome float :=
  i <~ py_int ts ;;
  py_truediv i million.

(** [zip] stops at the shortest of its arguments. *)
Definition zip {A B} (l : list A) (l' : list B) : list (A * B) := combine l l'.

(** The dictionary literals of lines 127, 135 and 143. *)
Definition row_sensor_combined (nm : string)
    (r : npval * (npval * (npval * (npval * (npval * (npval * npval))))))
    : outcome dict :=
  let '(ts, (g_x, (g_y, (g_z, (acc_x, (acc_y, acc_z)))))) := r in
  t <~ seconds ts ;;
  gx <~ py_float g_x ;;
  gy <~ py_float g_y ;;
  gz <~ py_float g_z ;;
  ax <~ py_float acc_x ;;
  ay <~ py_float acc_y ;;
  az <~ py_float acc_z ;;
  Returns [("timestamp", VFloat t); ("field", VStr nm);
           ("gyro_rad_x", VFloat gx); ("gyro_rad_y", VFloat gy);
           ("gyro_rad_z", VFloat gz); ("acc_x", VFloat ax);
           ("acc_y", VFloat ay); ("acc_z", VFloat az)].

Definition row_vehicle_air_data (nm : string) (r : npval * npval)
    : outcome dict :=
  let '(ts, pres) := r in
  t <~ seconds ts ;;
  p <~ py_float pres ;;
  Returns [("timestamp", VFloat t); ("field", VStr nm);
           ("baro_pressure_pa", VFloat p)].

Definition row_manual_control_setpoint (nm : string) (r : npval * npval)
    : outcome dict :=
  let '(ts, a1) := r in
  t <~ seconds ts ;;
  a <~ py_float a1 ;;
  Returns [("timestamp", VFloat t); ("field", VStr nm); ("aux1", VFloat a)].

(** The three [if] blocks of the loop body; each returns the rows it
    appends to [d]. *)
Definition rows_sensor_combined (dat : ULog.data_t) : M (list dict) :=
  if String.eqb (ULog.name dat) "sensor_combined" then
    print_keys (ULog.field_data dat) ;;;
    timestamps <- lift (getitem (ULog.data dat) "timestamp") ;;
    gyro_rad_x <- lift (getitem (ULog.data dat) "gyro_rad[0]") ;;
    gyro_rad_y <- lift (getitem (ULog.data dat) "gyro_rad[1]") ;;
    gyro_rad_z <- lift (getitem (ULog.data dat) "gyro_rad[2]") ;;
    accelerometer_x <- lift (getitem (ULog.data dat) "accelerometer_m_s2[0]") ;;
    accelerometer_y <- lift (getitem (ULog.data dat) "accelerometer_m_s2[1]") ;;
    accelerometer_z <- lift (getitem (ULog.data dat) "accelerometer_m_s2[2]") ;;
    lift (omapM (row_sensor_combined (ULog.name dat))
            (zip timestamps (zip gyro_rad_x (zip gyro_rad_y (zip gyro_rad_z
              (zip accelerometer_x (zip accelerometer_y accelerometer_z)))))))
  else ret [].

Definition rows_vehicle_air_data (dat : ULog.data_t) : M (list dict) :=
  if String.eqb (ULog.name dat) "vehicle_air_data" then
    print_keys (ULog.field_data dat) ;;;
    timestamps <- lift (getitem (ULog.data dat) "timestamp") ;;
    pressures <- lift (getitem (ULog.data dat) "baro_pressure_pa") ;;
    lift (omapM (row_vehicle_air_data (ULog.name dat)) (zip timestamps pressures))
  else ret [].

Definition rows_manual_control_setpoint (dat : ULog.data_t) : M (list dict) :=
  if String.eqb (ULog.name dat) "manual_control_setpoint" then
    print_keys (ULog.field_data dat) ;;;
    timestamps <- lift (getitem (ULog.data dat) "timestamp") ;;
    aux1 <- lift (getitem (ULog.data dat) "aux1") ;;
    lift (omapM (row_manual_control_setpoint (ULog.name dat)) (zip timestamps aux1))
  else ret [].

(** One turn of the loop of lines 113-143: the rows a batch adds to [d]. *)
Definition normalize_batch (dat : ULog.data_t) : M (list dict) :=
  r1 <- rows_sensor_combined dat ;;
  r2 <- rows_vehicle_air_data dat ;;
  r3 <- rows_manual_control_setpoint dat ;;
  ret ((r1 ++ r2) ++ r3).

(** The whole loop: the list [d] before the sort. *)
Definition normalize (ulog : ULog.t) : M (list dict) :=
  foldM (fun d dat => rows <- normalize_batch dat ;; ret (d ++ rows))
        [] ulog.

(** *** [sorted]

    The built-in computes the key of every element first, then sorts
    stably, comparing keys with [<] only.  The model inserts each
    element in front of the first later element whose key is not
    smaller.  On the rows [load_data] sorts, a stable sort has one
    possible result (lemma [sorted_rows_unique]), so the choice of the
    sorting algorithm does not show. *)
Fixpoint insert_by_key (kx : value * dict) (l : list (value * dict))
    : outcome (list (value * dict)) :=
  match l with
  | [] => Returns [kx]
  | ky :: l' =>
      b <~ py_lt (fst ky) (fst kx) ;;
      if b then r <~ insert_by_key kx l' ;; Returns (ky :: r)
      else Returns (kx :: ky :: l')
  end.

Fixpoint sort_decorated (l : list (value * dict))
    : outcome (list (value * dict)) :=
  match l with
  | [] => Returns []
  | kx :: l' => s <~ sort_decorated l' ;; insert_by_key kx s
  end.

Definition sorted (d : list dict) (key : dict -> outcome value)
    : outcome (list dict) :=
  keys <~ omapM key d ;;
  s <~ sort_decorated (combine keys d) ;;
  Returns (map snd s).

(** [lambda x: list(x.values())[0]] *)
Definition first_value (x : dict) : outcome value :=
  match values x with
  | v :: _ => Returns v
  | [] => Raises IndexError
  end.

(** [lambda x: x['timestamp']], the key the comment of line 145 means. *)
Definition timestamp_key (x : dict) : outcome value := getitem x "timestamp".

Definition load_data (ulog : ULog.t) : M (list dict) :=
  d <- normalize ulog ;;
  lift (sorted d first_value).

(** The [__main__] block (lines 155-162). *)
Definition main (plt : matplotlib) (ulog : ULog.t) : M unit :=
  print [VStr "Loading data from the ulog file"] ;;;
  data <- load_data ulog ;;
  print [VStr "Run simulation"] ;;;
  run_simulation plt data ;;;
  print [VStr "Simulation completed"].

(** ** Statement vocabulary *)

(** The two series handed to the plot, as lists of (timestamp, value). *)
Definition pressure_history (s : state) : list (value * value) :=
  combine (pressure_time s) (pressure_log s).

Definition kill_sw_history (s : state) : list (value * value) :=
  combine (kill_sw_time s) (kill_sw_log s).

(** [start_seconds < t < end_seconds], both comparisons evaluating to
    [True]. *)
Definition strictly_inside (s : state) (t : value) : Prop :=
  py_lt (start_seconds s) t = Returns true /\
  py_lt t (end_seconds s) = Returns true.

Definition lockstep (s : state) : Prop :=
  List.length (pressure_time s) = List.length (pressure_log s) /\
  List.length (kill_sw_time s) = List.length (kill_sw_log s).

(** The value of the condition of line 83 for a timestamp [t]. *)
Definition window_test (s : state) (t : value) : outcome bool :=
  c <~ py_gt t (start_seconds s) ;;
  if c then py_lt t (end_seconds s) else Returns false.

(** The state after lines 91-93, after lines 97-99 and after line 87. *)
Definition record_pressure (t p : value) (s : state) : state :=
  State (start_seconds s) (end_seconds s)
        (pressure_time s ++ [t]) (pressure_log s ++ [p])
        (kill_sw_time s) (kill_sw_log s)
        (sink s ++ [Print [t; VStr "pressure"; p]]).

Definition record_kill_switch (t a : value) (s : state) : state :=
  State (start_seconds s) (end_seconds s)
        (pressure_time s) (pressure_log s)
        (kill_sw_time s ++ [t]) (kill_sw_log s ++ [a])
        (sink s ++ [Print [t; VStr "kill switch"; a]]).

Definition with_sink (s : state) (out : list output) : state :=
  State (start_seconds s) (end_seconds s) (pressure_time s) (pressure_log s)
        (kill_sw_time s) (kill_sw_log s) out.

(** What a call of [algorithm_done] whose plot is shown hands to the
    sink. *)
Definition done_output (s : state) : list output :=
  [Print [VStr "Algorithm done"];
   PlotResult (start_seconds s) (end_seconds s)
              (pressure_time s) (pressure_log s)
              (kill_sw_time s) (kill_sw_log s)].

(** What the plotting library does with the bounds and histories of a
    state. *)
Definition plot_outcome (plt : matplotlib) (s : state) : option exn :=
  plt (start_seconds s) (end_seconds s) (pressure_time s) (pressure_log s)
      (kill_sw_time s) (kill_sw_log s).

(** The result of the call of [plot_result] on the globals of a state:
    it returns when the figure was shown and raises what the library
    raised. *)
Definition plot_returns (plt : matplotlib) (s : state) : outcome unit :=
  match plot_outcome plt s with
  | None => Returns tt
  | Some e => Raises e
  end.

(** Output that only reaches the sink when the figure was shown. *)
Definition when_shown (plt : matplotlib) (s : state) (out : list output)
    : list output :=
  match plot_outcome plt s with
  | None => out
  | Some _ => []
  end.

(** The plot of the bounds and histories of a state. *)
Definition plot_of (s : state) : output :=
  PlotResult (start_seconds s) (end_seconds s)
             (pressure_time s) (pressure_log s)
             (kill_sw_time s) (kill_sw_log s).

(** The six globals of a state, without the output stream. *)
Definition globals (s : state)
    : value * value * list value * list value * list value * list value :=
  (start_seconds s, end_seconds s, pressure_time s, pressure_log s,
   kill_sw_time s, kill_sw_log s).

(** *** Events and samples *)

Definition pressure_event (d : dict) (t p : value) : Prop :=
  lookup "field" d = Some (VStr "vehicle_air_data") /\
  lookup "timestamp" d = Some t /\
  lookup "baro_pressure_pa" d = Some p.

Definition kill_switch_event (d : dict) (t a : value) : Prop :=
  lookup "field" d = Some (VStr "manual_control_setpoint") /\
  lookup "timestamp" d = Some t /\
  lookup "aux1" d = Some a.






(** *** Streams *)

(** [x['timestamp'] <= y['timestamp']] *)
Definition ts_le (x y : dict) : bool :=
  match lookup "timestamp" x, lookup "timestamp" y with
  | Some a, Some b => py_le a b
  | _, _ => false
  end.

Definition rows_le (x y : dict) : Prop := ts_le x y = true.

(** Non-decreasing in timestamp at every pair of consecutive positions. *)
Definition nondecreasing (stream : list dict) : Prop :=
  forall i x y,
    nth_error stream i = Some x -> nth_error stream (S i) = Some y ->
    ts_le x y = true.

(** [x['timestamp'] == t] *)
Definition at_time (t : float) (x : dict) : bool :=
  match lookup "timestamp" x with
  | Some a => py_eq a (VFloat t)
  | None => false
  end.

(** A row as the normaliser builds it: the timestamp comes first and is
    a float other than NaN. *)
Definition row_ok (x : dict) : Prop :=
  exists t rest,
    x = ("timestamp", VFloat t) :: rest /\ PyFloat.is_nan t = false.

Definition key_ok (kx : value * dict) : Prop :=
  exists t, fst kx = VFloat t /\ PyFloat.is_nan t = false.

(** A decorated element whose key is the timestamp of its row. *)
Definition keyed (kx : value * dict) : Prop :=
  key_ok kx /\ lookup "timestamp" (snd kx) = Some (fst kx).

Definition key_le (kx ky : value * dict) : Prop := py_le (fst kx) (fst ky) = true.

Definition key_at (t : float) (kx : value * dict) : bool :=
  py_eq (fst kx) (VFloat t).

(** *** Valid logs

    The decoder delivers the timestamp column as unsigned 64-bit
    integers and the other columns as numbers of at most 64 bits. *)

Definition is_uint64 (x : npval) : bool :=
  match x with
  | NpInt z => (0 <=? z) && (z <? 2 ^ 64)
  | NpFloat _ => false
  end.

Definition is_number (x : npval) : bool :=
  match x with
  | NpInt z => (- 2 ^ 64 <? z) && (z <? 2 ^ 64)
  | NpFloat _ => true
  end.

Definition column_ok (dat : ULog.data_t) (k : string) (p : npval -> bool)
    : bool :=
  match lookup k (ULog.data dat) with
  | Some col => forallb p col
  | None => false
  end.

Definition batch_ok (dat : ULog.data_t) : bool :=
  (if String.eqb (ULog.name dat) "sensor_combined" then
     column_ok dat "timestamp" is_uint64 &&
     column_ok dat "gyro_rad[0]" is_number &&
     column_ok dat "gyro_rad[1]" is_number &&
     column_ok dat "gyro_rad[2]" is_number &&
     column_ok dat "accelerometer_m_s2[0]" is_number &&
     column_ok dat "accelerometer_m_s2[1]" is_number &&
     column_ok dat "accelerometer_m_s2[2]" is_number
   else true) &&
  (if String.eqb (ULog.name dat) "vehicle_air_data" then
     column_ok dat "timestamp" is_uint64 &&
     column_ok dat "baro_pressure_pa" is_number
   else true) &&
  (if String.eqb (ULog.name dat) "manual_control_setpoint" then
     column_ok dat "timestamp" is_uint64 &&
     column_ok dat "aux1" is_number
   else true).

Definition ulog_ok (ulog : ULog.t) : bool := forallb batch_ok ulog.

(** The decoded records of a batch, in input order: the source
    timestamp and the payload scalars under the keys the events use. *)
Definition column (dat : ULog.data_t) (k : string) : list npval :=
  match lookup k (ULog.data dat) with
  | Some col => col
  | None => []
  end.

Definition records (dat : ULog.data_t) : list (npval * list (string * npval)) :=
  if String.eqb (ULog.name dat) "sensor_combined" then
    map (fun '(ts, (g_x, (g_y, (g_z, (acc_x, (acc_y, acc_z)))))) =>
           (ts, [("gyro_rad_x", g_x); ("gyro_rad_y", g_y); ("gyro_rad_z", g_z);
                 ("acc_x", acc_x); ("acc_y", acc_y); ("acc_z", acc_z)]))
        (zip (column dat "timestamp")
          (zip (column dat "gyro_rad[0]") (zip (column dat "gyro_rad[1]")
            (zip (column dat "gyro_rad[2]")
              (zip (column dat "accelerometer_m_s2[0]")
                (zip (column dat "accelerometer_m_s2[1]")
                     (column dat "accelerometer_m_s2[2]")))))))
  else if String.eqb (ULog.name dat) "vehicle_air_data" then
    map (fun '(ts, pres) => (ts, [("baro_pressure_pa", pres)]))
        (zip (column dat "timestamp") (column dat "baro_pressure_pa"))
  else if String.eqb (ULog.name dat) "manual_control_setpoint" then
    map (fun '(ts, a1) => (ts, [("aux1", a1)]))
        (zip (column dat "timestamp") (column dat "aux1"))
  else [].

(** A payload entry coerced to floating point under the same key. *)
Definition coerced (src : string * npval) (out : string * value) : Prop :=
  fst out = fst src /\
  exists f, py_float (snd src) = Returns f /\ snd out = VFloat f.

(** The event of a decoded record: the timestamp in seconds, not
    negative, then the kind, then the payload as floats. *)
Definition normalized (kind : string) (src : npval * list (string * npval))
    (row : dict) : Prop :=
  exists z payload,
    fst src = NpInt z /\
    PyFloat.nonneg (PyFloat.div (PyFloat.of_Z z) million) = true /\
    Forall2 coerced (snd src) payload /\
    row = ("timestamp", VFloat (PyFloat.div (PyFloat.of_Z z) million))
          :: ("field", VStr kind) :: payload.



(** *** Sample inputs *)

(** Float literals, as the binary64 numbers nearest to the decimals. *)
Module Lit.
Definition f50_0 : float := S754_finite false 7036874417766400 (-47).
Definition f100_0 : float := S754_finite false 7036874417766400 (-46).
Definition f100_1 : float := S754_finite false 7043911292184166 (-46).
Definition f150_0 : float := S754_finite false 5277655813324800 (-45).
Definition f160_0 : float := S754_finite false 5629499534213120 (-45).
Definition f170_0 : float := S754_finite false 5981343255101440 (-45).
Definition f1012_8 : float := S754_finite false 8908683012892262 (-43).
Definition f1013_0 : float := S754_finite false 8910442231496704 (-43).
Definition f1013_2 : float := S754_finite false 8912201450101146 (-43).
Definition f0_0 : float := S754_zero false.
Definition f1_0 : float := S754_finite false 4503599627370496 (-52).
End Lit.

Definition pressure_row (t p : float) : dict :=
  [("timestamp", VFloat t); ("field", VStr "vehicle_air_data");
   ("baro_pressure_pa", VFloat p)].

Definition kill_switch_row (t a : float) : dict :=
  [("timestamp", VFloat t); ("field", VStr "manual_control_setpoint");
   ("aux1", VFloat a)].

(** A PRESSURE event inside the window whose payload lacks the
    pressure field. *)
Definition malformed_pressure_row : dict :=
  [("timestamp", VFloat Lit.f150_0); ("field", VStr "vehicle_air_data")].

(** The three readings of the round-trip example. *)
Definition three_readings : list dict :=
  [pressure_row Lit.f150_0 Lit.f1013_2;
   pressure_row Lit.f160_0 Lit.f1013_0;
   pressure_row Lit.f170_0 Lit.f1012_8].

(** A library that shows every figure, and one that refuses them all. *)
Definition plot_draws : matplotlib := fun _ _ _ _ _ _ => None.

Definition plot_fails : matplotlib := fun _ _ _ _ _ _ => Some ValueError.

(** The globals with the window bounds exchanged. *)
Definition inverted_window : state :=
  State (VInt 900) (VInt 100) [] [] [] [] [].

(** A log with one pressure batch and one kill-switch batch; the two
    batches share the source timestamp 50000000 (50.0 s). *)
Definition sample_ulog : ULog.t :=
  [ULog.Data "vehicle_air_data" ["timestamp"; "baro_pressure_pa"]
     [("timestamp", [NpInt 150000000; NpInt 50000000; NpInt 100100000]);
      ("baro_pressure_pa",
       [NpFloat Lit.f1013_2; NpFloat Lit.f1013_0; NpFloat Lit.f1012_8])];
   ULog.Data "manual_control_setpoint" ["timestamp"; "aux1"]
     [("timestamp", [NpInt 50000000; NpInt 160000000]);
      ("aux1", [NpFloat Lit.f0_0; NpFloat Lit.f1_0])]].

(** The computation leaves the six globals alone, whether it returns or
    raises; it may print. *)
Definition keeps_globals {A} (m : M A) : Prop :=
  forall s, globals (snd (m s)) = globals s.

(** *** Whole streams *)

(** A number: what the window bounds are in the script. *)
Definition is_num (v : value) : bool :=
  match v with
  | VInt _ | VFloat _ => true
  | VStr _ => false
  end.

(** The condition of line 83 as a boolean: [true] when it evaluates to
    [True], [false] when it evaluates to [False] or raises. *)
Definition inside_b (s : state) (t : value) : bool :=
  match window_test s t with
  | Returns true => true
  | _ => false
  end.

Definition has_key (d : dict) (k : string) : bool :=
  match lookup k d with
  | Some _ => true
  | None => false
  end.

(** The keys line 87 reads after the timestamp. *)
Definition imu_keys : list string :=
  ["gyro_rad_x"; "gyro_rad_y"; "gyro_rad_z"; "acc_x"; "acc_y"; "acc_z"].

(** An event [algorithm_update] can process: a float timestamp, a
    string as kind, and the payload keys of that kind; the payload of
    a kind the script does not know is not looked at. *)
Definition event_ok (d : dict) : bool :=
  match lookup "timestamp" d, lookup "field" d with
  | Some (VFloat _), Some (VStr k) =>
      if String.eqb k "sensor_combined" then forallb (has_key d) imu_keys
      else if String.eqb k "vehicle_air_data" then has_key d "baro_pressure_pa"
      else if String.eqb k "manual_control_setpoint" then has_key d "aux1"
      else true
  | _, _ => false
  end.

(** The (timestamp, value) pair an event of kind [kind] with payload
    key [field] contributes when it passes the window test. *)
Definition sample_at (s : state) (kind field : string) (d : dict)
    : list (value * value) :=
  match lookup "timestamp" d, lookup "field" d, lookup field d with
  | Some t, Some f, Some v =>
      if inside_b s t && py_eq f (VStr kind) then [(t, v)] else []
  | _, _, _ => []
  end.

Definition recorded (s : state) (kind field : string) (data : list dict)
    : list (value * value) :=
  flat_map (sample_at s kind field) data.

(** The line an event of kind IMU prints. *)
Definition imu_line (d : dict) : list value :=
  match lookup "timestamp" d, lookup "gyro_rad_x" d, lookup "gyro_rad_y" d,
        lookup "gyro_rad_z" d, lookup "acc_x" d, lookup "acc_y" d,
        lookup "acc_z" d with
  | Some t, Some gx, Some gy, Some gz, Some ax, Some ay, Some az =>
      [t; VStr "imu"; gx; gy; gz; ax; ay; az]
  | _, _, _, _, _, _, _ => []
  end.

(** What [algorithm_update] prints for an event that it can process. *)
Definition update_line (s : state) (d : dict) : list output :=
  match lookup "timestamp" d, lookup "field" d with
  | Some t, Some f =>
      if inside_b s t then
        if py_eq f (VStr "sensor_combined") then [Print (imu_line d)]
        else if py_eq f (VStr "vehicle_air_data") then
          match lookup "baro_pressure_pa" d with
          | Some p => [Print [t; VStr "pressure"; p]]
          | None => []
          end
        else if py_eq f (VStr "manual_control_setpoint") then
          match lookup "aux1" d with
          | Some a => [Print [t; VStr "kill switch"; a]]
          | None => []
          end
        else []
      else []
  | _, _ => []
  end.

(** [a <= b] on values, as a relation. *)
Definition value_le (a b : value) : Prop := py_le a b = true.

(** The batches [load_data] looks at. *)
Definition known_batch (dat : ULog.data_t) : bool :=
  String.eqb (ULog.name dat) "sensor_combined" ||
  String.eqb (ULog.name dat) "vehicle_air_data" ||
  String.eqb (ULog.name dat) "manual_control_setpoint".

(** The columns line 119-125, 132-133 and 140-141 read from a batch. *)
Definition columns_read (dat : ULog.data_t) : list string :=
  if String.eqb (ULog.name dat) "sensor_combined" then
    ["timestamp"; "gyro_rad[0]"; "gyro_rad[1]"; "gyro_rad[2]";
     "accelerometer_m_s2[0]"; "accelerometer_m_s2[1]"; "accelerometer_m_s2[2]"]
  else if String.eqb (ULog.name dat) "vehicle_air_data" then
    ["timestamp"; "baro_pressure_pa"]
  else if String.eqb (ULog.name dat) "manual_control_setpoint" then
    ["timestamp"; "aux1"]
  else [].

(** The first of the keys that the dictionary lacks. *)
Fixpoint first_missing {V} (d : list (string * V)) (ks : list string)
    : option string :=
  match ks with
  | [] => None
  | k :: ks' =>
      match lookup k d with
      | Some _ => first_missing d ks'
      | None => Some k
      end
  end.

(** The length of the shortest of the columns a batch is read from. *)
Definition shortest_column (dat : ULog.data_t) : nat :=
  match map (fun k => List.length (column dat k)) (columns_read dat) with
  | [] => 0%nat
  | n :: ns => fold_left Nat.min ns n
  end.

(** A log with a pressure column one entry longer than its timestamps. *)
Definition ragged_ulog : ULog.t :=
  [ULog.Data "vehicle_air_data" ["timestamp"; "baro_pressure_pa"]
     [("timestamp", [NpInt 150000000; NpInt 160000000]);
      ("baro_pressure_pa",
       [NpFloat Lit.f1013_2; NpFloat Lit.f1013_0; NpFloat Lit.f1012_8])]].

(** A log whose pressure batch has lost its pressure column, after a
    batch of a kind the script does not read. *)
Definition broken_ulog : ULog.t :=
  [ULog.Data "vehicle_gps_position" ["timestamp"; "lat"]
     [("timestamp", [NpInt 1]); ("lat", [NpInt 55])];
   ULog.Data "vehicle_air_data" ["timestamp"]
     [("timestamp", [NpInt 150000000])]].

(** A stream with an IMU event, an event outside the window, a
    KILL_SWITCH event and an event of an unknown kind. *)
Definition mixed_stream : list dict :=
  [[("timestamp", VFloat Lit.f150_0); ("field", VStr "sensor_combined");
    ("gyro_rad_x", VFloat Lit.f0_0); ("gyro_rad_y", VFloat Lit.f0_0);
    ("gyro_rad_z", VFloat Lit.f0_0); ("acc_x", VFloat Lit.f0_0);
    ("acc_y", VFloat Lit.f0_0); ("acc_z", VFloat Lit.f1_0)];
   pressure_row Lit.f50_0 Lit.f1013_0;
   pressure_row Lit.f150_0 Lit.f1013_2;
   kill_switch_row Lit.f160_0 Lit.f1_0;
   [("timestamp", VFloat Lit.f170_0); ("field", VStr "vehicle_gps_position")]].

(** A property of a state that only reads the six globals. *)
Definition on_globals (I : state -> Prop) : Prop :=
  forall s s', globals s' = globals s -> I s -> I s'.

(** [x] has the window bounds of [s] and histories that extend those
    of [s] at their ends. *)
Definition extends (s x : state) : Prop :=
  start_seconds x = start_seconds s /\
  end_seconds x = end_seconds s /\
  (exists l, pressure_time x = pressure_time s ++ l) /\
  (exists l, pressure_log x = pressure_log s ++ l) /\
  (exists l, kill_sw_time x = kill_sw_time s ++ l) /\
  (exists l, kill_sw_log x = kill_sw_log s ++ l).

(** Every recorded timestamp passes the window test of the state. *)
Definition all_inside (s : state) : Prop :=
  Forall (strictly_inside s) (pressure_time s) /\
  Forall (strictly_inside s) (kill_sw_time s).

(** The value a computation returns or raises does not depend on the
    state it starts from. *)
Definition pure_result {A} (m : M A) : Prop :=
  forall s s', fst (m s) = fst (m s').

(** * Properties *)

(** ** Facts about binary64 rounding and comparison *)

Module FloatFacts.

Lemma SFcompare_antisym (x y : spec_float) :
  SFcompare y x = option_map CompOpp (SFcompare x y).
Proof.
  destruct x as [sx|sx| |sx mx ex], y as [sy|sy| |sy my ey]; simpl;
    try reflexivity;
    try (destruct sx; reflexivity); try (destruct sy; reflexivity);
    try (destruct sx, sy; reflexivity).
  destruct sx, sy; simpl; try reflexivity;
    rewrite (Z.compare_antisym ex ey);
    destruct (ex ?= ey); simpl; try reflexivity;
    rewrite (Pos.compare_cont_antisym mx my Eq); reflexivity.
Qed.

(** Floats that compare equal compare alike with any third float. *)
Lemma SFcompare_Eq_r (x y : spec_float) :
  SFcompare x y = Some Eq -> forall z, SFcompare z x = SFcompare z y.
Proof.
  intros H z.
  destruct x as [sx|sx| |sx mx ex], y as [sy|sy| |sy my ey]; simpl in H;
    try discriminate;
    try (destruct sx; discriminate); try (destruct sy; discriminate).
  - destruct z; reflexivity.
  - destruct sx, sy; try discriminate; reflexivity.
  - assert (sx = sy /\ ex = ey /\ mx = my) as (-> & -> & ->).
    { destruct sx, sy; try discriminate;
        destruct (ex ?= ey) eqn:E; try discriminate;
        apply Z.compare_eq in E; repeat split; auto;
        apply Pos.compare_eq; unfold Pos.compare;
        destruct (Pos.compare_cont Eq mx my); simpl in H;
        congruence. }
    reflexivity.
Qed.

Lemma shr_1_nonneg r : 0 <= shr_m r -> 0 <= shr_m (shr_1 r).
Proof.
  destruct r as [m r s]; simpl.
  destruct m as [|p|p]; simpl; try lia; destruct p; simpl; lia.
Qed.

Lemma iter_pos_invariant {A} (P : A -> Prop) (f : A -> A) :
  (forall x, P x -> P (f x)) -> forall n x, P x -> P (iter_pos f n x).
Proof.
  intros Hf; induction n as [n IH|n IH|]; intros x Hx; simpl; auto.
Qed.

Lemma shr_nonneg r e n : 0 <= shr_m r -> 0 <= shr_m (fst (shr r e n)).
Proof.
  intros H; destruct n; simpl; auto.
  apply iter_pos_invariant; auto using shr_1_nonneg.
Qed.

Lemma shr_m_of_loc m l : shr_m (shr_record_of_loc m l) = m.
Proof. destruct l as [|[]]; reflexivity. Qed.

Lemma round_nearest_even_nonneg m l : 0 <= m -> 0 <= round_nearest_even m l.
Proof.
  intros H; destruct l as [|[]]; simpl; try lia.
  destruct (Z.even m); lia.
Qed.

(** Rounding a non-negative mantissa never produces a NaN, and the
    result carries the sign it was given. *)
Lemma binary_round_aux_signed prec emax s m e l :
  0 <= m -> PyFloat.signed_as s (binary_round_aux prec emax s m e l).
Proof.
  intros Hm; unfold binary_round_aux, shr_fexp.
  pose proof (shr_nonneg (shr_record_of_loc m l) e
                (fexp prec emax (Zdigits2 m + e) - e)) as H1.
  rewrite shr_m_of_loc in H1; specialize (H1 Hm).
  destruct (shr _ e _) as [mrs' e']; simpl in H1.
  pose proof (round_nearest_even_nonneg _ (loc_of_shr_record mrs') H1) as H2.
  set (m2 := round_nearest_even _ _) in *.
  pose proof (shr_nonneg (shr_record_of_loc m2 loc_Exact) e'
                (fexp prec emax (Zdigits2 m2 + e') - e')) as H3.
  rewrite shr_m_of_loc in H3; specialize (H3 H2).
  destruct (shr _ e' _) as [mrs'' e'']; simpl in H3.
  destruct (shr_m mrs''); simpl; try reflexivity; try lia.
  destruct (_ <=? _); reflexivity.
Qed.

Lemma of_Z_signed z : PyFloat.signed_as (z <? 0) (PyFloat.of_Z z).
Proof.
  unfold PyFloat.of_Z, binary_normalize, binary_round.
  destruct z as [|p|p]; simpl; try reflexivity;
    destruct (shl_align _ _ _) as [mz ez];
    apply binary_round_aux_signed; lia.
Qed.

Lemma div_signed x sx sy my ey :
  PyFloat.signed_as sx x ->
  PyFloat.signed_as (xorb sx sy) (PyFloat.div x (S754_finite sy my ey)).
Proof.
  destruct x as [s|s| |s mx ex]; simpl; intros H; subst; try tauto;
    try reflexivity.
  unfold SFdiv_core_binary.
  set (m' := match _ - _ - _ with Z0 => Z.pos mx | Z.pos _ => _ | Z.neg _ => 0 end).
  assert (0 <= m') as Hm'.
  { subst m'. destruct (_ - _ - _) eqn:E; try lia.
    apply Z.shiftl_nonneg; lia. }
  pose proof (Z.div_pos m' (Z.pos my) Hm' (Pos2Z.is_pos my)) as Hq.
  unfold Z.div in Hq. destruct (Z.div_eucl m' (Z.pos my)) as [q r].
  apply binary_round_aux_signed; exact Hq.
Qed.

Lemma digits2_pos_size p : digits2_pos p = Pos.size p.
Proof. induction p; simpl; congruence. Qed.

Lemma digits2_pos_bound p k : 0 <= k -> Z.pos p < 2 ^ k -> Z.pos (digits2_pos p) <= k.
Proof.
  intros Hk Hp. rewrite digits2_pos_size.
  pose proof (Pos.size_le p) as H.
  assert (2 ^ Z.pos (Pos.size p) <= 2 * Z.pos p) as H'.
  { rewrite <- Pos2Z.inj_pow. change (2 * Z.pos p) with (Z.pos p~0). 
    apply Pos2Z.pos_le_pos. exact H. }
  assert (2 ^ Z.pos (Pos.size p) < 2 ^ (k + 1)) as H2.
  { replace (k + 1) with (Z.succ k) by lia. rewrite Z.pow_succ_r by lia. lia. }
  apply Z.pow_lt_mono_r_iff in H2; lia.
Qed.

Lemma Zdigits2_shr_1 r : 0 <= shr_m r -> Zdigits2 (shr_m (shr_1 r)) <= Zdigits2 (shr_m r).
Proof.
  destruct r as [m r s]; simpl. destruct m as [|p|p]; simpl; try lia.
  destruct p; simpl; lia.
Qed.

Lemma Zdigits2_shr r e n :
  0 <= shr_m r -> Zdigits2 (shr_m (fst (shr r e n))) <= Zdigits2 (shr_m r).
Proof.
  intros H; destruct n; simpl; try lia.
  apply (iter_pos_invariant (fun x => 0 <= shr_m x /\ Zdigits2 (shr_m x) <= Zdigits2 (shr_m r))); try (split; lia).
  intros x [H1 H2]; split; [now apply shr_1_nonneg|].
  pose proof (Zdigits2_shr_1 x H1); lia.
Qed.

Lemma snd_shr r e n : snd (shr r e n) = e + Z.max 0 n.
Proof. destruct n; simpl; lia. Qed.

Lemma Zdigits2_succ m : 0 <= m -> Zdigits2 (m + 1) <= Zdigits2 m + 1.
Proof.
  destruct m as [|p|p]; simpl; try lia. intros _.
  rewrite Pos.add_1_r. 
  induction p; simpl; lia.
Qed.

Lemma Zdigits2_round m l : 0 <= m -> Zdigits2 (round_nearest_even m l) <= Zdigits2 m + 1.
Proof.
  intros H. pose proof (Zdigits2_succ m H).
  destruct l as [|[]]; simpl; try lia. destruct (Z.even m); lia.
Qed.

(** From a mantissa of at most 64 bits and a non-positive exponent,
    rounding stays far below the overflow threshold. *)
Lemma binary_round_aux_finite s m e l :
  0 <= m -> e <= 0 -> Zdigits2 m <= 64 ->
  PyFloat.is_inf (binary_round_aux PyFloat.prec PyFloat.emax s m e l) = false.
Proof.
  intros Hm He Hd. unfold binary_round_aux, shr_fexp.
  set (n1 := fexp _ _ _ - e).
  pose proof (shr_nonneg (shr_record_of_loc m l) e n1) as H1.
  pose proof (Zdigits2_shr (shr_record_of_loc m l) e n1) as D1.
  pose proof (snd_shr (shr_record_of_loc m l) e n1) as E1.
  rewrite shr_m_of_loc in *. specialize (H1 Hm). specialize (D1 Hm).
  destruct (shr _ e n1) as [mrs' e']; simpl in H1, D1, E1.
  pose proof (round_nearest_even_nonneg _ (loc_of_shr_record mrs') H1) as H2.
  pose proof (Zdigits2_round _ (loc_of_shr_record mrs') H1) as D2.
  set (m2 := round_nearest_even _ _) in *.
  set (n2 := fexp _ _ _ - e').
  pose proof (snd_shr (shr_record_of_loc m2 loc_Exact) e' n2) as E2.
  destruct (shr _ e' n2) as [mrs'' e'']; simpl in E2.
  assert (e'' <= 971) as Hb.
  { subst n1 n2. unfold fexp, emin, PyFloat.prec, PyFloat.emax in *. lia. }
  destruct (shr_m mrs''); simpl; try reflexivity.
  destruct (e'' <=? _) eqn:E; [reflexivity|].
  apply Z.leb_gt in E. unfold PyFloat.prec, PyFloat.emax in E. lia.
Qed.

Lemma digits2_pos_iter_xO p d : Z.pos (digits2_pos (Pos.iter xO p d)) = Z.pos (digits2_pos p) + Z.pos d.
Proof.
  induction d using Pos.peano_ind.
  - simpl. lia.
  - rewrite Pos.iter_succ. simpl. rewrite Pos2Z.inj_succ. lia.
Qed.

Lemma of_Z_finite z : - 2 ^ 64 < z < 2 ^ 64 -> PyFloat.is_inf (PyFloat.of_Z z) = false.
Proof.
  intros Hz. unfold PyFloat.of_Z, binary_normalize, binary_round.
  assert (forall s p, Z.pos p < 2 ^ 64 ->
     PyFloat.is_inf (let '(mz, ez) := shl_align p 0 (fexp PyFloat.prec PyFloat.emax (Z.pos (digits2_pos p) + 0)) in
       binary_round_aux PyFloat.prec PyFloat.emax s (Z.pos mz) ez loc_Exact) = false) as Hp.
  { intros s p Hp. pose proof (digits2_pos_bound p 64 ltac:(lia) Hp) as Hd.
    unfold shl_align. set (ex' := fexp _ _ _).
    assert (ex' = Z.pos (digits2_pos p) - 53) as Hex.
    { subst ex'. unfold fexp, emin, PyFloat.prec, PyFloat.emax. lia. }
    destruct (ex' - 0) eqn:E.
    - apply binary_round_aux_finite; simpl; lia.
    - apply binary_round_aux_finite; simpl; lia.
    - apply binary_round_aux_finite; try lia.
      simpl. rewrite digits2_pos_iter_xO. lia. }
  destruct z as [|p|p]; try reflexivity; apply Hp; lia.
Qed.

End FloatFacts.

(** ** Facts about comparisons *)

Lemma py_gt_lt (x y : value) : py_gt x y = py_lt y x.
Proof.
  destruct x as [a|f|s], y as [b|g|t]; simpl; try reflexivity.
  - rewrite (Z.compare_antisym a b). destruct (a ?= b); reflexivity.
  - destruct (PyFloat.compare_Z a g) as [[]|]; reflexivity.
  - destruct (PyFloat.compare_Z b f) as [[]|]; reflexivity.
  - rewrite (FloatFacts.SFcompare_antisym f g).
    destruct (SFcompare f g) as [[]|]; reflexivity.
Qed.

Lemma py_eq_VStr (f : value) (k : string) :
  py_eq f (VStr k) = true <-> f = VStr k.
Proof.
  destruct f as [a|g|s]; simpl; split; intros H; try discriminate.
  - apply String.eqb_eq in H; congruence.
  - injection H as ->; apply String.eqb_refl.
Qed.

Lemma py_lt_float (a b : float) : py_lt (VFloat a) (VFloat b) = Returns (SFltb a b).
Proof. simpl; unfold SFltb. destruct (SFcompare a b) as [[]|]; reflexivity. Qed.

Lemma py_le_float (a b : float) : py_le (VFloat a) (VFloat b) = SFleb a b.
Proof. simpl; unfold SFleb. destruct (SFcompare a b) as [[]|]; reflexivity. Qed.

Lemma py_eq_float (a b : float) : py_eq (VFloat a) (VFloat b) = SFeqb a b.
Proof. simpl; unfold SFeqb. destruct (SFcompare a b) as [[]|]; reflexivity. Qed.

(** The model's comparisons and conversions on familiar numbers:
    [100 < 100.1], [100 == 100.0], [2**53 + 1 > float(2**53)] (no
    rounding of the integer), [100100000/1000000. == 100.1] and
    [int(2.5) == 2]. *)
Example compare_100_with_100_1 :
  py_lt (VInt 100) (VFloat Lit.f100_1) = Returns true /\
  py_gt (VFloat Lit.f100_1) (VInt 100) = Returns true /\
  py_eq (VInt 100) (VFloat Lit.f100_0) = true /\
  py_gt (VFloat Lit.f100_0) (VInt 100) = Returns false.
Proof. repeat split. Qed.

Example compare_is_exact :
  PyFloat.of_Z (2 ^ 53 + 1) = PyFloat.of_Z (2 ^ 53) /\
  py_gt (VInt (2 ^ 53 + 1)) (VFloat (PyFloat.of_Z (2 ^ 53))) = Returns true.
Proof. split; vm_compute; reflexivity. Qed.

Example seconds_of_100100000 :
  seconds (NpInt 100100000) = Returns Lit.f100_1 /\
  seconds (NpInt 50000000) = Returns Lit.f50_0 /\
  seconds (NpInt 0) = Returns Lit.f0_0.
Proof. repeat split; vm_compute; reflexivity. Qed.

Example int_truncates :
  py_int (NpFloat (S754_finite false 5629499534213120 (-51))) = Returns 2 /\
  py_int (NpFloat (S754_finite true 5629499534213120 (-51))) = Returns (-2) /\
  py_int (NpFloat S754_nan) = Raises ValueError /\
  py_int (NpFloat (S754_infinity false)) = Raises OverflowError.
Proof. repeat split; vm_compute; reflexivity. Qed.

Lemma SFcompare_not_nan (a b : float) :
  PyFloat.is_nan a = false -> PyFloat.is_nan b = false ->
  exists c, SFcompare a b = Some c.
Proof.
  destruct a, b; simpl; try discriminate; eauto.
Qed.

(** On floats other than NaN, [<] is total: when [b < a] is false,
    [a <= b] holds. *)
Lemma SFltb_false_SFleb (a b : float) :
  PyFloat.is_nan a = false -> PyFloat.is_nan b = false ->
  SFltb b a = false -> SFleb a b = true.
Proof.
  intros Ha Hb. unfold SFltb, SFleb.
  rewrite (FloatFacts.SFcompare_antisym a b).
  destruct (SFcompare_not_nan a b Ha Hb) as [c ->]. destruct c; simpl; congruence.
Qed.

Lemma SFltb_SFleb (a b : float) : SFltb a b = true -> SFleb a b = true.
Proof. unfold SFltb, SFleb. destruct (SFcompare a b) as [[]|]; congruence. Qed.

(** An element that is smaller than [b] is not equal to what [b] equals. *)
Lemma SFltb_SFeqb (a b t : float) :
  SFltb a b = true -> SFeqb b t = true -> SFeqb a t = false.
Proof.
  unfold SFltb, SFeqb. intros Hlt Heq.
  destruct (SFcompare b t) as [[]|] eqn:E; try discriminate.
  rewrite <- (FloatFacts.SFcompare_Eq_r b t E a).
  destruct (SFcompare a b) as [[]|]; congruence.
Qed.

Lemma SFleb_trans (a b c : float) :
  SFleb a b = true -> SFleb b c = true -> SFleb a c = true.
Proof.
  unfold SFleb.
  destruct a as [sa|sa| |sa ma ea], b as [sb|sb| |sb mb eb],
           c as [sc|sc| |sc mc ec]; simpl; try discriminate; try reflexivity;
    repeat match goal with s : bool |- _ => destruct s end;
    try discriminate; try reflexivity; try (intros _; discriminate).
  all: change (Pos.compare_cont Eq) with Pos.compare.
  all: destruct (Z.compare_spec ea eb), (Z.compare_spec eb ec),
         (Z.compare_spec ea ec); try discriminate; try reflexivity; try lia;
       subst;
       destruct (Pos.compare_spec ma mb), (Pos.compare_spec mb mc),
         (Pos.compare_spec ma mc); simpl; try discriminate; try reflexivity;
       try lia.
Qed.

Lemma SFleb_antisym (a b : float) :
  SFleb a b = true -> SFleb b a = true -> SFeqb a b = true.
Proof.
  unfold SFleb, SFeqb. rewrite (FloatFacts.SFcompare_antisym a b).
  destruct (SFcompare a b) as [[]|]; simpl; congruence.
Qed.

Lemma SFeqb_refl (a : float) : PyFloat.is_nan a = false -> SFeqb a a = true.
Proof.
  unfold SFeqb. destruct a as [s|s| |s m e]; simpl; try discriminate; try reflexivity.
  - destruct s; reflexivity.
  - intros _. rewrite Z.compare_refl.
    change (Pos.compare_cont Eq m m) with (Pos.compare m m).
    rewrite Pos.compare_refl. destruct s; reflexivity.
Qed.

(** Between an integer and a float, nothing lies above [b] and below
    [a] when [a >= b]. *)
Lemma compare_Z_between (a b : Z) (f : float) :
  PyFloat.compare_Z a f = Some Lt -> PyFloat.compare_Z b f = Some Gt -> a < b.
Proof.
  destruct f as [s|s| |s m e]; unfold PyFloat.compare_Z; try discriminate.
  - intros [= Ha] [= Hb]. rewrite Z.compare_lt_iff in Ha.
    rewrite Z.compare_gt_iff in Hb. lia.
  - destruct s; discriminate.
  - destruct (0 <=? e) eqn:E; intros [= Ha] [= Hb];
      rewrite Z.compare_lt_iff in Ha; rewrite Z.compare_gt_iff in Hb; try lia.
    apply Z.leb_gt in E.
    assert (0 < 2 ^ (- e)) by (apply Z.pow_pos_nonneg; lia). nia.
Qed.

(** ** Equations of the algorithm section *)

Lemma in_window_run (d : dict) (s : state) :
  in_window d s =
  (match lookup "timestamp" d with
   | Some t => window_test s t
   | None => Raises (KeyError "timestamp")
   end, s).
Proof.
  unfold in_window, window_test, bind, obind, lift, gets, ret, getitem.
  destruct (lookup "timestamp" d) as [t|]; [|reflexivity].
  destruct (py_gt t (start_seconds s)) as [[|]|e]; reflexivity.
Qed.

Lemma window_test_inside (s : state) (t : value) :
  window_test s t = Returns true <-> strictly_inside s t.
Proof.
  unfold window_test, strictly_inside, obind. rewrite py_gt_lt.
  destruct (py_lt (start_seconds s) t) as [[|]|e]; split;
    try tauto; try discriminate; intros [H _]; discriminate.
Qed.

Lemma update_pressure_run (d : dict) (s : state) :
  update_pressure d s =
  match lookup "timestamp" d, lookup "baro_pressure_pa" d with
  | Some t, Some p => (Returns tt, record_pressure t p s)
  | Some _, None => (Raises (KeyError "baro_pressure_pa"), s)
  | None, _ => (Raises (KeyError "timestamp"), s)
  end.
Proof.
  unfold update_pressure, bind, lift, getitem.
  destruct (lookup "timestamp" d), (lookup "baro_pressure_pa" d); reflexivity.
Qed.

Lemma update_kill_switch_run (d : dict) (s : state) :
  update_kill_switch d s =
  match lookup "timestamp" d, lookup "aux1" d with
  | Some t, Some a => (Returns tt, record_kill_switch t a s)
  | Some _, None => (Raises (KeyError "aux1"), s)
  | None, _ => (Raises (KeyError "timestamp"), s)
  end.
Proof.
  unfold update_kill_switch, bind, lift, getitem.
  destruct (lookup "timestamp" d), (lookup "aux1" d); reflexivity.
Qed.

(** The IMU branch only prints. *)
Lemma update_imu_run (d : dict) (s : state) :
  (exists e, update_imu d s = (Raises e, s)) \/
  (exists args, update_imu d s = (Returns tt, with_sink s (sink s ++ [Print args]))).
Proof.
  unfold update_imu, bind, lift, getitem.
  repeat match goal with
         | |- context [match lookup ?k d with _ => _ end] =>
             destruct (lookup k d); [|left; eexists; reflexivity]
         end.
  right; eexists; reflexivity.
Qed.

Lemma algorithm_update_run (d : dict) (s : state) :
  algorithm_update d s =
  match lookup "timestamp" d with
  | None => (Raises (KeyError "timestamp"), s)
  | Some t =>
      match window_test s t with
      | Raises e => (Raises e, s)
      | Returns false => (Returns tt, s)
      | Returns true =>
          match lookup "field" d with
          | None => (Raises (KeyError "field"), s)
          | Some f =>
              if py_eq f (VStr "sensor_combined") then update_imu d s
              else if py_eq f (VStr "vehicle_air_data") then update_pressure d s
              else if py_eq f (VStr "manual_control_setpoint")
                   then update_kill_switch d s
              else (Returns tt, s)
          end
      end
  end.
Proof.
  unfold algorithm_update. unfold bind at 1. rewrite in_window_run.
  destruct (lookup "timestamp" d) as [t|]; [|reflexivity].
  destruct (window_test s t) as [[|]|e]; try reflexivity.
  unfold field_is, bind, lift, ret, getitem.
  destruct (lookup "field" d) as [f|]; [|reflexivity].
  destruct (py_eq f (VStr "sensor_combined")) eqn:E1.
  { apply py_eq_VStr in E1; subst f; simpl.
    destruct (update_imu d s) as [[[]|e] s']; reflexivity. }
  destruct (py_eq f (VStr "vehicle_air_data")) eqn:E2.
  { apply py_eq_VStr in E2; subst f; simpl.
    destruct (update_pressure d s) as [[[]|e] s']; reflexivity. }
  destruct (py_eq f (VStr "manual_control_setpoint")) eqn:E3; [|reflexivity].
  destruct (update_kill_switch d s) as [[[]|e] s']; reflexivity.
Qed.

Lemma algorithm_init_run (s : state) :
  algorithm_init s =
  (Returns tt, with_sink s (sink s ++ [Print [VStr "Algorithm init"]])).
Proof. reflexivity. Qed.

(** [algorithm_done] prints its line and calls [plot_result] on the
    globals as they are; the call's result is that of [plot_result]. *)
Lemma algorithm_done_run (plt : matplotlib) (s : state) :
  algorithm_done plt s
  = (plot_returns plt s,
     with_sink s (sink s ++ Print [VStr "Algorithm done"]
                              :: when_shown plt s [plot_of s])).
Proof.
  unfold algorithm_done, plot_returns, when_shown, plot_outcome, print,
    plot_result, bind, gets, modify, raise, with_sink, plot_of; simpl.
  destruct (plt _ _ _ _ _ _); simpl; [reflexivity|].
  now rewrite <- app_assoc.
Qed.

(** When the library raises, the exception leaves [algorithm_done]
    after the line was printed, and no figure was shown. *)
Example plot_failure_surfaces :
  algorithm_done plot_fails module_globals
  = (Raises ValueError,
     with_sink module_globals [Print [VStr "Algorithm done"]]).
Proof. reflexivity. Qed.




(** A call of [algorithm_done] that returns has shown its figure. *)
Lemma algorithm_done_returns (plt : matplotlib) (s s' : state) :
  algorithm_done plt s = (Returns tt, s') ->
  plot_outcome plt s = None /\ s' = with_sink s (sink s ++ done_output s).
Proof.
  rewrite algorithm_done_run. unfold plot_returns, when_shown.
  destruct (plot_outcome plt s); [discriminate|].
  intros [= <-]. split; reflexivity.
Qed.

(** An event of kind PRESSURE inside the window is recorded. *)
Lemma update_pressure_event (d : dict) (s : state) (t p : value) :
  pressure_event d t p -> strictly_inside s t ->
  algorithm_update d s = (Returns tt, record_pressure t p s).
Proof.
  intros (Hf & Ht & Hp) Hin. apply window_test_inside in Hin.
  rewrite algorithm_update_run, Ht, Hin, Hf; simpl.
  now rewrite update_pressure_run, Ht, Hp.
Qed.

Lemma update_kill_switch_event (d : dict) (s : state) (t a : value) :
  kill_switch_event d t a -> strictly_inside s t ->
  algorithm_update d s = (Returns tt, record_kill_switch t a s).
Proof.
  intros (Hf & Ht & Ha) Hin. apply window_test_inside in Hin.
  rewrite algorithm_update_run, Ht, Hin, Hf; simpl.
  now rewrite update_kill_switch_run, Ht, Ha.
Qed.

(** An event outside the window changes nothing, whatever its kind. *)
Lemma update_outside (d : dict) (s : state) (t : value) :
  lookup "timestamp" d = Some t -> ~ strictly_inside s t ->
  snd (algorithm_update d s) = s.
Proof.
  intros Ht Hout. rewrite algorithm_update_run, Ht.
  rewrite <- window_test_inside in Hout.
  destruct (window_test s t) as [[|]|e]; try reflexivity. now destruct Hout.
Qed.

(** ** The window filter and the histories *)

Lemma combine_snoc {A B} (l : list A) (l' : list B) (a : A) (b : B) :
  List.length l = List.length l' ->
  combine (l ++ [a]) (l' ++ [b]) = combine l l' ++ [(a, b)].
Proof.
  revert l'; induction l as [|x l IH]; intros [|y l'] H; simpl in *;
    try discriminate; [reflexivity|].
  f_equal; apply IH; congruence.
Qed.

Lemma snoc_neq {A} (l : list A) (a : A) : l ++ [a] <> l.
Proof.
  intros H. apply (f_equal (@List.length A)) in H.
  rewrite length_app in H; simpl in H; lia.
Qed.

Lemma strictly_inside_dec (s : state) (t : value) :
  {strictly_inside s t} + {~ strictly_inside s t}.
Proof.
  destruct (window_test s t) as [[|]|e] eqn:E.
  - left; now apply window_test_inside.
  - right; intros H; apply window_test_inside in H; congruence.
  - right; intros H; apply window_test_inside in H; congruence.
Defined.

Lemma pressure_history_record (s : state) (t p : value) :
  lockstep s ->
  pressure_history (record_pressure t p s) = pressure_history s ++ [(t, p)].
Proof. intros [H _]. unfold pressure_history; simpl. now apply combine_snoc. Qed.

Lemma kill_sw_history_record (s : state) (t a : value) :
  lockstep s ->
  kill_sw_history (record_kill_switch t a s) = kill_sw_history s ++ [(t, a)].
Proof. intros [_ H]. unfold kill_sw_history; simpl. now apply combine_snoc. Qed.

(** C1. For every event of kind PRESSURE or KILL_SWITCH fed to
    [algorithm_update], its (timestamp, value) pair is appended to the
    history of its kind if and only if
    [start_seconds < timestamp < end_seconds], both bounds strict;
    otherwise that history is left as it was. *)
Theorem window_filtering (d : dict) (s : state) (t v : value) :
  lockstep s ->
  (pressure_event d t v ->
   (pressure_history (snd (algorithm_update d s))
      = pressure_history s ++ [(t, v)] <-> strictly_inside s t) /\
   (pressure_history (snd (algorithm_update d s))
      = pressure_history s <-> ~ strictly_inside s t)) /\
  (kill_switch_event d t v ->
   (kill_sw_history (snd (algorithm_update d s))
      = kill_sw_history s ++ [(t, v)] <-> strictly_inside s t) /\
   (kill_sw_history (snd (algorithm_update d s))
      = kill_sw_history s <-> ~ strictly_inside s t)).
Proof.
  intros Hl; split; intros Hev.
  - destruct (strictly_inside_dec s t) as [Hin|Hout].
    + rewrite (update_pressure_event d s t v Hev Hin); simpl.
      rewrite pressure_history_record by assumption.
      split; split; intros H; auto; try tauto.
      now apply snoc_neq in H.
    + destruct Hev as (_ & Ht & _).
      rewrite (update_outside d s t Ht Hout).
      split; split; intros H; auto; try tauto.
      symmetry in H; now apply snoc_neq in H.
  - destruct (strictly_inside_dec s t) as [Hin|Hout].
    + rewrite (update_kill_switch_event d s t v Hev Hin); simpl.
      rewrite kill_sw_history_record by assumption.
      split; split; intros H; auto; try tauto.
      now apply snoc_neq in H.
    + destruct Hev as (_ & Ht & _).
      rewrite (update_outside d s t Ht Hout).
      split; split; intros H; auto; try tauto.
      symmetry in H; now apply snoc_neq in H.
Qed.

Lemma lockstep_module_globals : lockstep module_globals.
Proof. split; reflexivity. Qed.

Lemma window_filtering_witness :
  lockstep module_globals /\
  ((pressure_event (pressure_row Lit.f100_1 Lit.f1013_2)
      (VFloat Lit.f100_1) (VFloat Lit.f1013_2) ->
    (pressure_history
       (snd (algorithm_update (pressure_row Lit.f100_1 Lit.f1013_2) module_globals))
     = pressure_history module_globals ++ [(VFloat Lit.f100_1, VFloat Lit.f1013_2)]
     <-> strictly_inside module_globals (VFloat Lit.f100_1)) /\
    (pressure_history
       (snd (algorithm_update (pressure_row Lit.f100_1 Lit.f1013_2) module_globals))
     = pressure_history module_globals
     <-> ~ strictly_inside module_globals (VFloat Lit.f100_1))) /\
   (kill_switch_event (pressure_row Lit.f100_1 Lit.f1013_2)
      (VFloat Lit.f100_1) (VFloat Lit.f1013_2) ->
    (kill_sw_history
       (snd (algorithm_update (pressure_row Lit.f100_1 Lit.f1013_2) module_globals))
     = kill_sw_history module_globals ++ [(VFloat Lit.f100_1, VFloat Lit.f1013_2)]
     <-> strictly_inside module_globals (VFloat Lit.f100_1)) /\
    (kill_sw_history
       (snd (algorithm_update (pressure_row Lit.f100_1 Lit.f1013_2) module_globals))
     = kill_sw_history module_globals
     <-> ~ strictly_inside module_globals (VFloat Lit.f100_1)))).
Proof.
  split.
  - split; reflexivity.
  - apply (window_filtering (pressure_row Lit.f100_1 Lit.f1013_2) module_globals
             (VFloat Lit.f100_1) (VFloat Lit.f1013_2)).
    split; reflexivity.
Defined.

(** The two events of the example: with the window (100, 900), an
    event at exactly 100.0 is left out, one at 100.1 is recorded. *)
Example boundary_excluded :
  algorithm_update (pressure_row Lit.f100_0 Lit.f1013_2) module_globals
  = (Returns tt, module_globals).
Proof. reflexivity. Qed.

Example just_inside_included :
  pressure_history
    (snd (algorithm_update (pressure_row Lit.f100_1 Lit.f1013_2) module_globals))
  = [(VFloat Lit.f100_1, VFloat Lit.f1013_2)].
Proof. reflexivity. Qed.

(** C2 as the code has it. An event of kind PRESSURE inside the window
    whose payload lacks ['baro_pressure_pa'] makes [algorithm_update]
    raise [KeyError('baro_pressure_pa')]; nothing is printed and nothing
    is appended to any history. *)
Theorem missing_pressure_raises_KeyError (d : dict) (s : state) (t : value) :
  lookup "field" d = Some (VStr "vehicle_air_data") ->
  lookup "timestamp" d = Some t ->
  strictly_inside s t ->
  lookup "baro_pressure_pa" d = None ->
  algorithm_update d s = (Raises (KeyError "baro_pressure_pa"), s).
Proof.
  intros Hf Ht Hin Hp. apply window_test_inside in Hin.
  rewrite algorithm_update_run, Ht, Hin, Hf; simpl.
  now rewrite update_pressure_run, Ht, Hp.
Qed.

Lemma missing_pressure_raises_KeyError_witness :
  lookup "field" malformed_pressure_row = Some (VStr "vehicle_air_data") /\
  lookup "timestamp" malformed_pressure_row = Some (VFloat Lit.f150_0) /\
  strictly_inside module_globals (VFloat Lit.f150_0) /\
  lookup "baro_pressure_pa" malformed_pressure_row = None /\
  algorithm_update malformed_pressure_row module_globals
  = (Raises (KeyError "baro_pressure_pa"), module_globals).
Proof.
  split; [reflexivity|]. split; [reflexivity|].
  split; [split; reflexivity|]. split; [reflexivity|].
  apply (missing_pressure_raises_KeyError malformed_pressure_row
           module_globals (VFloat Lit.f150_0)); try reflexivity.
  split; reflexivity.
Defined.

(** C2 as the claim has it, at a PRESSURE event at 150.0 s without its
    pressure field: [algorithm_update] raises, and the exception is a
    [KeyError] about the missing key, not a MalformedEventError about
    the kind and the timestamp. *)
Lemma missing_pressure_not_MalformedEventError :
  lookup "field" malformed_pressure_row = Some (VStr "vehicle_air_data") /\
  strictly_inside module_globals (VFloat Lit.f150_0) /\
  lookup "baro_pressure_pa" malformed_pressure_row = None /\
  exists e,
    algorithm_update malformed_pressure_row module_globals
    = (Raises e, module_globals) /\
    exc_class e = "KeyError" /\
    exc_class e <> "MalformedEventError" /\
    exc_args e = [VStr "baro_pressure_pa"].
Proof.
  split; [reflexivity|]. split; [split; reflexivity|]. split; [reflexivity|].
  exists (KeyError "baro_pressure_pa").
  split; [reflexivity|]. split; [reflexivity|]. split; [discriminate|].
  reflexivity.
Qed.




(** C9. The paired history lists have equal lengths in the module's
    initial globals, and [algorithm_init], [algorithm_update] on any
    event (also when it raises) and [algorithm_done] keep them so. *)
Theorem lockstep_invariant (plt : matplotlib) :
  lockstep module_globals /\
  forall s, lockstep s ->
    lockstep (snd (algorithm_init s)) /\
    (forall d, lockstep (snd (algorithm_update d s))) /\
    lockstep (snd (algorithm_done plt s)).
Proof.
  split; [exact lockstep_module_globals|].
  intros s [H1 H2]. split; [|split].
  - rewrite algorithm_init_run; split; assumption.
  - intros d. rewrite algorithm_update_run.
    destruct (lookup "timestamp" d) as [t|] eqn:Ht; [|split; assumption].
    destruct (window_test s t) as [[|]|e]; try (split; assumption).
    destruct (lookup "field" d) as [f|]; [|split; assumption].
    destruct (py_eq f (VStr "sensor_combined")).
    { destruct (update_imu_run d s) as [[e ->]|[args ->]]; split; assumption. }
    destruct (py_eq f (VStr "vehicle_air_data")).
    { rewrite update_pressure_run, Ht.
      destruct (lookup "baro_pressure_pa" d); split; simpl;
        rewrite ?length_app; simpl; auto. }
    destruct (py_eq f (VStr "manual_control_setpoint")); [|split; assumption].
    rewrite update_kill_switch_run, Ht.
    destruct (lookup "aux1" d); split; simpl; rewrite ?length_app; simpl; auto.
  - rewrite algorithm_done_run; split; assumption.
Qed.

Lemma lockstep_invariant_witness :
  lockstep module_globals /\
  lockstep (snd (algorithm_init module_globals)) /\
  lockstep (snd (algorithm_update (pressure_row Lit.f150_0 Lit.f1013_2)
                   module_globals)) /\
  lockstep (snd (algorithm_done plot_draws module_globals)).
Proof.
  destruct (lockstep_invariant plot_draws) as [H0 H].
  destruct (H module_globals H0) as (Hi & Hu & Hd).
  repeat split; try apply Hi; try apply Hd;
    apply (Hu (pressure_row Lit.f150_0 Lit.f1013_2)).
Defined.

(** ** Feeding a stream *)

Lemma strictly_inside_ext (s s' : state) (t : value) :
  start_seconds s' = start_seconds s -> end_seconds s' = end_seconds s ->
  strictly_inside s t -> strictly_inside s' t.
Proof. unfold strictly_inside; intros -> ->; trivial. Qed.


(** When no event of the stream makes [algorithm_update] raise,
    [run_simulation] ends with the call of [algorithm_done]. *)
Lemma run_simulation_run (plt : matplotlib) (data : list dict)
    (s s1 : state) :
  for_each data algorithm_update
    (with_sink s (sink s ++ [Print [VStr "Algorithm init"]]))
  = (Returns tt, s1) ->
  run_simulation plt data s = algorithm_done plt s1.
Proof.
  intros H. unfold run_simulation. unfold bind at 1. rewrite algorithm_init_run.
  unfold bind at 1. now rewrite H.
Qed.









(** ** The stable sort *)

Section StableSort.

Lemma py_lt_keys (kx ky : value * dict) :
  key_ok kx -> key_ok ky ->
  exists a b, fst kx = VFloat a /\ fst ky = VFloat b /\
              PyFloat.is_nan a = false /\ PyFloat.is_nan b = false /\
              py_lt (fst kx) (fst ky) = Returns (SFltb a b).
Proof.
  intros (a & Ha & Na) (b & Hb & Nb). exists a, b.
  rewrite Ha, Hb, py_lt_float; auto.
Qed.

Lemma insert_by_key_hd (kx : value * dict) (l r : list (value * dict))
    (a : value * dict) :
  insert_by_key kx l = Returns r ->
  HdRel key_le a l -> key_le a kx -> HdRel key_le a r.
Proof.
  destruct l as [|ky l]; simpl; intros H Hl Hx.
  - injection H as <-; now constructor.
  - destruct (py_lt (fst ky) (fst kx)) as [[|]|e]; simpl in H; try discriminate.
    + destruct (insert_by_key kx l) as [r'|e]; simpl in H; try discriminate.
      injection H as <-. inversion Hl; subst. now constructor.
    + injection H as <-; now constructor.
Qed.

(** Inserting into a sorted list of float keys: the result exists, is
    a permutation, is sorted, and keeps the order among the elements
    of any one timestamp. *)
Lemma insert_by_key_ok (kx : value * dict) (l : list (value * dict)) :
  key_ok kx -> Forall key_ok l ->
  exists r,
    insert_by_key kx l = Returns r /\
    Permutation (kx :: l) r /\
    (Sorted key_le l -> Sorted key_le r) /\
    (forall t, filter (key_at t) r = filter (key_at t) (kx :: l)).
Proof.
  intros Hx. induction 1 as [|ky l Hy Hl IH].
  - exists [kx]; simpl; repeat split; auto.
  - destruct IH as (r & Hr & Hperm & Hsort & Hstab).
    destruct (py_lt_keys ky kx Hy Hx) as (b & a & Eb & Ea & Nb & Na & Hlt).
    simpl. rewrite Hlt; simpl. destruct (SFltb b a) eqn:E.
    + rewrite Hr; simpl. exists (ky :: r). repeat split.
      * rewrite perm_swap; now constructor.
      * intros Hs. inversion Hs as [|? ? Hs' Hhd]; subst.
        constructor; [now apply Hsort|].
        apply (insert_by_key_hd kx l r ky Hr Hhd).
        unfold key_le. rewrite Eb, Ea, py_le_float.
        now apply SFltb_SFleb.
      * intros t. cbn [filter]. rewrite Hstab. cbn [filter].
        assert (key_at t ky = SFeqb b t) as ->
            by (unfold key_at; rewrite Eb; apply py_eq_float).
        assert (key_at t kx = SFeqb a t) as ->
            by (unfold key_at; rewrite Ea; apply py_eq_float).
        destruct (SFeqb a t) eqn:Et; [|reflexivity].
        now rewrite (SFltb_SFeqb b a t E Et).
    + exists (kx :: ky :: l). repeat split; auto.
      intros Hs. constructor; [assumption|]. constructor.
      unfold key_le. rewrite Eb, Ea, py_le_float.
      now apply SFltb_false_SFleb.
Qed.

Lemma sort_decorated_ok (l : list (value * dict)) :
  Forall key_ok l ->
  exists r,
    sort_decorated l = Returns r /\
    Permutation l r /\
    Sorted key_le r /\
    (forall t, filter (key_at t) r = filter (key_at t) l).
Proof.
  induction 1 as [|kx l Hx Hl IH].
  - exists []; simpl; repeat split; auto.
  - destruct IH as (r0 & Hr0 & Hperm0 & Hsort0 & Hstab0).
    assert (Forall key_ok r0) as Hk0.
    { rewrite Forall_forall in *. intros y Hy. apply Hl.
      eapply Permutation_in; [symmetry; exact Hperm0|exact Hy]. }
    destruct (insert_by_key_ok kx r0 Hx Hk0) as (r & Hr & Hperm & Hsort & Hstab).
    exists r. simpl. rewrite Hr0; simpl. repeat split; auto.
    + rewrite <- Hperm. now constructor.
    + intros t. rewrite Hstab. cbn [filter]. now rewrite Hstab0.
Qed.

End StableSort.

(** ** Sorting the rows by their first value *)

Lemma omapM_Forall2 {A B} (f : A -> outcome B) (l : list A) (r : list B) :
  omapM f l = Returns r -> Forall2 (fun a b => f a = Returns b) l r.
Proof.
  revert r; induction l as [|a l IH]; simpl; intros r H.
  - injection H as <-; constructor.
  - destruct (f a) as [b|e] eqn:Ea; simpl in H; try discriminate.
    destruct (omapM f l) as [bs|e]; simpl in H; try discriminate.
    injection H as <-. constructor; auto.
Qed.


Lemma omapM_ext_in {A B} (f g : A -> outcome B) (l : list A) :
  Forall (fun a => f a = g a) l -> omapM f l = omapM g l.
Proof.
  induction 1 as [|a l Ha _ IH]; simpl; [reflexivity|].
  now rewrite Ha, IH.
Qed.

Lemma row_ok_keys (x : dict) :
  row_ok x ->
  exists t,
    first_value x = Returns (VFloat t) /\
    timestamp_key x = Returns (VFloat t) /\
    lookup "timestamp" x = Some (VFloat t) /\
    PyFloat.is_nan t = false.
Proof. intros (t & rest & -> & Ht). exists t; repeat split; assumption. Qed.

Lemma decorate_rows (d : list dict) :
  Forall row_ok d ->
  exists keys,
    omapM first_value d = Returns keys /\
    Forall keyed (combine keys d) /\
    map snd (combine keys d) = d.
Proof.
  induction 1 as [|x d Hx _ (keys & Hk & Hq & Hm)]; simpl.
  - exists []; repeat split; constructor.
  - destruct (row_ok_keys x Hx) as (t & Hf & _ & Ht & Hn).
    exists (VFloat t :: keys). rewrite Hf; simpl. rewrite Hk; simpl.
    repeat split; [|congruence].
    constructor; [|assumption]. split; [exists t; auto|exact Ht].
Qed.

Lemma Sorted_nth_error {A} (R : A -> A -> Prop) (l : list A) :
  Sorted R l ->
  forall i a b, nth_error l i = Some a -> nth_error l (S i) = Some b -> R a b.
Proof.
  induction 1 as [|x l Hs IH Hhd]; intros i a b Ha Hb.
  - destruct i; discriminate.
  - destruct i as [|i]; simpl in Ha, Hb.
    + injection Ha as <-. destruct l as [|y l]; [discriminate|].
      injection Hb as <-. now inversion Hhd.
    + eapply IH; eassumption.
Qed.

Lemma at_time_keyed (t : float) (kx : value * dict) :
  keyed kx -> at_time t (snd kx) = key_at t kx.
Proof. intros [_ H]. unfold at_time, key_at. now rewrite H. Qed.

Lemma filter_at_time_keyed (t : float) (l : list (value * dict)) :
  Forall keyed l ->
  filter (at_time t) (map snd l) = map snd (filter (key_at t) l).
Proof.
  induction 1 as [|kx l Hq _ IH]; simpl; [reflexivity|].
  rewrite (at_time_keyed t kx Hq), IH. now destruct (key_at t kx).
Qed.

(** On rows as the normaliser builds them, [sorted] returns; its result
    is a permutation of its argument, non-decreasing in timestamp, and
    keeps the input order among the rows of any one timestamp. *)
Lemma sorted_rows (d : list dict) :
  Forall row_ok d ->
  exists data,
    sorted d first_value = Returns data /\
    Permutation d data /\
    nondecreasing data /\
    (forall t, filter (at_time t) data = filter (at_time t) d).
Proof.
  intros Hd. destruct (decorate_rows d Hd) as (keys & Hk & Hq & Hm).
  assert (Forall key_ok (combine keys d)) as Hko
      by (eapply Forall_impl; [|exact Hq]; now intros kx [H _]).
  destruct (sort_decorated_ok _ Hko) as (r & Hr & Hperm & Hsort & Hstab).
  assert (Forall keyed r) as Hqr.
  { rewrite Forall_forall in *. intros y Hy. apply Hq.
    eapply Permutation_in; [symmetry; exact Hperm|exact Hy]. }
  exists (map snd r). unfold sorted. rewrite Hk; simpl. rewrite Hr; simpl.
  repeat split.
  - rewrite <- Hm at 1. now apply Permutation_map.
  - intros i x y Hx Hy.
    rewrite nth_error_map in Hx, Hy.
    destruct (nth_error r i) as [kx|] eqn:Ex; try discriminate.
    destruct (nth_error r (S i)) as [ky|] eqn:Ey; try discriminate.
    injection Hx as <-. injection Hy as <-.
    rewrite Forall_forall in Hqr.
    destruct (Hqr kx (nth_error_In _ _ Ex)) as [_ Hkx].
    destruct (Hqr ky (nth_error_In _ _ Ey)) as [_ Hky].
    unfold ts_le. rewrite Hkx, Hky.
    exact (Sorted_nth_error key_le r Hsort i kx ky Ex Ey).
  - intros t. rewrite (filter_at_time_keyed t r Hqr), Hstab.
    rewrite <- (filter_at_time_keyed t _ Hq). now rewrite Hm.
Qed.

(** *** Stable sorting has one result *)

Lemma row_ok_timestamp (x : dict) :
  row_ok x ->
  exists t, lookup "timestamp" x = Some (VFloat t) /\ PyFloat.is_nan t = false.
Proof. intros H. destruct (row_ok_keys x H) as (t & _ & _ & Ht & Hn). eauto. Qed.

Lemma ts_le_rows (x y : dict) (a b : float) :
  lookup "timestamp" x = Some (VFloat a) ->
  lookup "timestamp" y = Some (VFloat b) ->
  ts_le x y = SFleb a b.
Proof. intros Hx Hy. unfold ts_le. rewrite Hx, Hy. apply py_le_float. Qed.

Lemma rows_le_trans (x y z : dict) :
  row_ok x -> row_ok y -> row_ok z ->
  rows_le x y -> rows_le y z -> rows_le x z.
Proof.
  intros Hx Hy Hz.
  destruct (row_ok_timestamp x Hx) as (a & Ha & _).
  destruct (row_ok_timestamp y Hy) as (b & Hb & _).
  destruct (row_ok_timestamp z Hz) as (c & Hc & _).
  unfold rows_le. rewrite (ts_le_rows x y a b), (ts_le_rows y z b c),
    (ts_le_rows x z a c) by assumption.
  apply SFleb_trans.
Qed.

Lemma sorted_head_least (l : list dict) : forall x,
  Forall row_ok (x :: l) -> Sorted rows_le (x :: l) ->
  Forall (rows_le x) l.
Proof.
  induction l as [|y l IH]; intros x Hok Hs; constructor.
  - inversion Hs as [|? ? _ Hhd]; subst. now inversion Hhd.
  - inversion Hs as [|? ? Hs' Hhd]; subst. inversion Hhd as [|? ? Hxy]; subst.
    inversion Hok as [|? ? Hx Hok']; subst.
    inversion Hok' as [|? ? Hy Hl]; subst.
    pose proof (IH y Hok' Hs') as Hall.
    rewrite Forall_forall in *. intros z Hz.
    apply (rows_le_trans x y z); auto.
Qed.

Lemma nondecreasing_Sorted (l : list dict) :
  nondecreasing l <-> Sorted rows_le l.
Proof.
  split.
  - induction l as [|x l IH]; intros H; constructor.
    + apply IH. intros i a b Ha Hb. exact (H (S i) a b Ha Hb).
    + destruct l as [|y l]; constructor. exact (H 0%nat x y eq_refl eq_refl).
  - intros H i a b Ha Hb.
    exact (Sorted_nth_error rows_le l H i a b Ha Hb).
Qed.

(** A list of rows has one stable sorted rearrangement only. *)
Lemma stable_sorted_unique (r1 : list dict) : forall r2,
  Forall row_ok r1 -> Permutation r1 r2 ->
  Sorted rows_le r1 -> Sorted rows_le r2 ->
  (forall t, filter (at_time t) r1 = filter (at_time t) r2) ->
  r1 = r2.
Proof.
  induction r1 as [|x r1 IH]; intros r2 Hok Hp Hs1 Hs2 Hf.
  - apply Permutation_nil in Hp. now subst.
  - destruct r2 as [|y r2];
      [apply Permutation_sym, Permutation_nil in Hp; discriminate|].
    assert (Forall row_ok (y :: r2)) as Hok2.
    { rewrite Forall_forall in *. intros z Hz. apply Hok.
      eapply Permutation_in; [symmetry; exact Hp|exact Hz]. }
    pose proof (sorted_head_least r1 x Hok Hs1) as H1.
    pose proof (sorted_head_least r2 y Hok2 Hs2) as H2.
    inversion Hok as [|? ? Hx Hok1]; subst.
    inversion Hok2 as [|? ? Hy Hok2']; subst.
    destruct (row_ok_timestamp x Hx) as (a & Ha & Na).
    destruct (row_ok_timestamp y Hy) as (b & Hb & Nb).
    assert (rows_le x y) as Hxy.
    { assert (In y (x :: r1)) as Hin
          by (eapply Permutation_in; [symmetry; exact Hp|now left]).
      destruct Hin as [->|Hin].
      - unfold rows_le. rewrite (ts_le_rows y y b b Hb Hb).
        apply SFltb_false_SFleb; auto.
        unfold SFltb. pose proof (SFeqb_refl b Nb) as E. unfold SFeqb in E.
        destruct (SFcompare b b) as [[]|]; congruence.
      - rewrite Forall_forall in H1. now apply H1. }
    assert (rows_le y x) as Hyx.
    { assert (In x (y :: r2)) as Hin
          by (eapply Permutation_in; [exact Hp|now left]).
      destruct Hin as [->|Hin]; [exact Hxy|].
      rewrite Forall_forall in H2. now apply H2. }
    unfold rows_le in Hxy, Hyx.
    rewrite (ts_le_rows x y a b Ha Hb) in Hxy.
    rewrite (ts_le_rows y x b a Hb Ha) in Hyx.
    pose proof (SFleb_antisym a b Hxy Hyx) as Eab.
    assert (x = y) as <-.
    { specialize (Hf b). simpl in Hf.
      assert (at_time b x = true) as Ex
          by (unfold at_time; rewrite Ha, py_eq_float; exact Eab).
      assert (at_time b y = true) as Ey
          by (unfold at_time; rewrite Hb, py_eq_float; now apply SFeqb_refl).
      rewrite Ex, Ey in Hf. congruence. }
    f_equal. apply IH; auto.
    + eapply Permutation_cons_inv; exact Hp.
    + now inversion Hs1.
    + now inversion Hs2.
    + intros t. specialize (Hf t). simpl in Hf.
      destruct (at_time t x); congruence.
Qed.

(** Whatever rearrangement of the rows is non-decreasing in timestamp
    and keeps the input order at each timestamp, it is the list that
    [sorted] returns. *)
Lemma sorted_rows_unique (d data : list dict) :
  Forall row_ok d -> Permutation d data -> nondecreasing data ->
  (forall t, filter (at_time t) data = filter (at_time t) d) ->
  sorted d first_value = Returns data.
Proof.
  intros Hd Hp Hn Hst.
  destruct (sorted_rows d Hd) as (data' & Hs & Hp' & Hn' & Hst').
  rewrite Hs. f_equal. apply stable_sorted_unique.
  - rewrite Forall_forall in *. intros z Hz. apply Hd.
    eapply Permutation_in; [symmetry; exact Hp'|exact Hz].
  - rewrite <- Hp'. exact Hp.
  - now apply nondecreasing_Sorted.
  - now apply nondecreasing_Sorted.
  - intros t. now rewrite Hst, Hst'.
Qed.

(** ** The normaliser *)

Lemma million_eq : million = S754_finite false 8589934592000000 (-33).
Proof. vm_compute; reflexivity. Qed.

Lemma signed_as_not_nan (b : bool) (f : float) :
  PyFloat.signed_as b f -> PyFloat.is_nan f = false.
Proof. destruct f; simpl; tauto. Qed.

Lemma signed_as_nonneg (f : float) :
  PyFloat.signed_as false f -> PyFloat.nonneg f = true.
Proof. destruct f as [[]|[]| |[] m e]; simpl; intros H; congruence || tauto. Qed.

(** [a / 1000000.] is the correctly rounded quotient of the converted
    integer, and has the sign of [a]. *)
Lemma py_truediv_million (a : Z) (t : float) :
  py_truediv a million = Returns t ->
  t = PyFloat.div (PyFloat.of_Z a) million /\ PyFloat.signed_as (a <? 0) t.
Proof.
  unfold py_truediv, int_to_float. destruct (PyFloat.is_inf _); simpl;
    [discriminate|].
  rewrite million_eq; simpl PyFloat.is_zero; cbv iota. intros [= <-].
  split; [reflexivity|].
  rewrite <- (xorb_false_r (a <? 0)).
  apply FloatFacts.div_signed, FloatFacts.of_Z_signed.
Qed.

Lemma seconds_not_nan (ts : npval) (t : float) :
  seconds ts = Returns t -> PyFloat.is_nan t = false.
Proof.
  unfold seconds. destruct (py_int ts) as [a|e]; simpl; [|discriminate].
  intros H. apply py_truediv_million in H as [_ H].
  eapply signed_as_not_nan; exact H.
Qed.

(** The timestamp of an unsigned 64-bit source value. *)
Lemma seconds_uint64 (ts : npval) :
  is_uint64 ts = true ->
  exists z,
    ts = NpInt z /\
    seconds ts = Returns (PyFloat.div (PyFloat.of_Z z) million) /\
    PyFloat.nonneg (PyFloat.div (PyFloat.of_Z z) million) = true.
Proof.
  destruct ts as [z|f]; simpl; [|discriminate]. intros H.
  apply andb_true_iff in H as [H0 H1].
  apply Z.leb_le in H0. apply Z.ltb_lt in H1.
  exists z. split; [reflexivity|].
  assert (seconds (NpInt z) = Returns (PyFloat.div (PyFloat.of_Z z) million)) as E.
  { unfold seconds, py_truediv, int_to_float; simpl.
    rewrite FloatFacts.of_Z_finite by lia. simpl.
    rewrite million_eq at 1. reflexivity. }
  split; [exact E|].
  unfold seconds in E; simpl in E. apply py_truediv_million in E as [_ E].
  apply signed_as_nonneg.
  replace (z <? 0) with false in E by (symmetry; apply Z.ltb_ge; lia).
  exact E.
Qed.

Lemma py_float_number (x : npval) :
  is_number x = true -> exists f, py_float x = Returns f.
Proof.
  destruct x as [z|f]; simpl; [|eauto]. intros H.
  apply andb_true_iff in H as [H0 H1].
  apply Z.ltb_lt in H0. apply Z.ltb_lt in H1.
  unfold int_to_float. rewrite FloatFacts.of_Z_finite by lia. eauto.
Qed.

(** *** Every row starts with a float timestamp *)

Ltac row_steps H :=
  repeat match type of H with
         | obind ?o _ = _ =>
             let E := fresh "E" in
             destruct o eqn:E; simpl in H; [|discriminate]
         end.

Lemma row_sensor_combined_ok nm r x :
  row_sensor_combined nm r = Returns x -> row_ok x.
Proof.
  destruct r as (ts & g_x & g_y & g_z & acc_x & acc_y & acc_z).
  unfold row_sensor_combined. intros H. row_steps H. injection H as <-.
  eexists _, _; split; [reflexivity|]. eapply seconds_not_nan; eassumption.
Qed.

Lemma row_vehicle_air_data_ok nm r x :
  row_vehicle_air_data nm r = Returns x -> row_ok x.
Proof.
  destruct r as (ts & pres).
  unfold row_vehicle_air_data. intros H. row_steps H. injection H as <-.
  eexists _, _; split; [reflexivity|]. eapply seconds_not_nan; eassumption.
Qed.

Lemma row_manual_control_setpoint_ok nm r x :
  row_manual_control_setpoint nm r = Returns x -> row_ok x.
Proof.
  destruct r as (ts & a1).
  unfold row_manual_control_setpoint. intros H. row_steps H. injection H as <-.
  eexists _, _; split; [reflexivity|]. eapply seconds_not_nan; eassumption.
Qed.

Lemma omapM_Forall {A B} (f : A -> outcome B) (P : B -> Prop) l r :
  (forall a b, f a = Returns b -> P b) ->
  omapM f l = Returns r -> Forall P r.
Proof.
  intros Hf H. apply omapM_Forall2 in H.
  induction H; constructor; eauto.
Qed.

Ltac rows_steps H :=
  repeat match type of H with
         | context [match lookup ?k ?d with _ => _ end] =>
             destruct (lookup k d); simpl in H; [|discriminate]
         end.

Lemma rows_sensor_combined_ok dat s rows s' :
  rows_sensor_combined dat s = (Returns rows, s') -> Forall row_ok rows.
Proof.
  unfold rows_sensor_combined.
  destruct (String.eqb _ _); [|intros [= <- _]; constructor].
  unfold bind, print_keys, modify, lift, getitem; simpl. intros H.
  rows_steps H.
  match type of H with (?o, _) = _ => destruct o eqn:E end; [|discriminate].
  injection H as <- _.
  eapply omapM_Forall; [|exact E]. apply row_sensor_combined_ok.
Qed.

Lemma rows_vehicle_air_data_ok dat s rows s' :
  rows_vehicle_air_data dat s = (Returns rows, s') -> Forall row_ok rows.
Proof.
  unfold rows_vehicle_air_data.
  destruct (String.eqb _ _); [|intros [= <- _]; constructor].
  unfold bind, print_keys, modify, lift, getitem; simpl. intros H.
  rows_steps H.
  match type of H with (?o, _) = _ => destruct o eqn:E end; [|discriminate].
  injection H as <- _.
  eapply omapM_Forall; [|exact E]. apply row_vehicle_air_data_ok.
Qed.

Lemma rows_manual_control_setpoint_ok dat s rows s' :
  rows_manual_control_setpoint dat s = (Returns rows, s') -> Forall row_ok rows.
Proof.
  unfold rows_manual_control_setpoint.
  destruct (String.eqb _ _); [|intros [= <- _]; constructor].
  unfold bind, print_keys, modify, lift, getitem; simpl. intros H.
  rows_steps H.
  match type of H with (?o, _) = _ => destruct o eqn:E end; [|discriminate].
  injection H as <- _.
  eapply omapM_Forall; [|exact E]. apply row_manual_control_setpoint_ok.
Qed.

Lemma bind_returns {A B} (m : M A) (k : A -> M B) s b s' :
  bind m k s = (Returns b, s') ->
  exists a s1, m s = (Returns a, s1) /\ k a s1 = (Returns b, s').
Proof.
  unfold bind. destruct (m s) as [[a|e] s1]; [eauto|discriminate].
Qed.

Lemma normalize_batch_ok dat s rows s' :
  normalize_batch dat s = (Returns rows, s') -> Forall row_ok rows.
Proof.
  unfold normalize_batch. intros H.
  apply bind_returns in H as (r1 & s1 & H1 & H).
  apply bind_returns in H as (r2 & s2 & H2 & H).
  apply bind_returns in H as (r3 & s3 & H3 & H).
  injection H as <- _.
  apply rows_sensor_combined_ok in H1.
  apply rows_vehicle_air_data_ok in H2.
  apply rows_manual_control_setpoint_ok in H3.
  rewrite !Forall_app; auto.
Qed.

Lemma normalize_from_ok ulog : forall d0 s d s',
  foldM (fun d dat => rows <- normalize_batch dat ;; ret (d ++ rows)) d0 ulog s
  = (Returns d, s') ->
  Forall row_ok d0 -> Forall row_ok d.
Proof.
  induction ulog as [|dat ulog IH]; simpl; intros d0 s d s' H Hd0.
  - injection H as <- _; assumption.
  - apply bind_returns in H as (d1 & s1 & H1 & H).
    apply bind_returns in H1 as (rows & s2 & Hrows & H1).
    injection H1 as <- <-.
    apply (IH _ _ _ _ H). rewrite Forall_app; split; [assumption|].
    eapply normalize_batch_ok; eassumption.
Qed.

Lemma normalize_ok ulog s d s' :
  normalize ulog s = (Returns d, s') -> Forall row_ok d.
Proof. intros H. eapply normalize_from_ok; [exact H|constructor]. Qed.

(** *** Valid batches are normalised record by record *)

Lemma omapM_Forall2_map {A B C} (f : A -> outcome B) (g : A -> C)
    (R : C -> B -> Prop) (l : list A) :
  Forall (fun a => exists b, f a = Returns b /\ R (g a) b) l ->
  exists r, omapM f l = Returns r /\ Forall2 R (map g l) r.
Proof.
  induction 1 as [|a l (b & Hb & Hr) _ (r & Hl & Hrs)]; simpl.
  - exists []; split; [reflexivity|constructor].
  - rewrite Hb; simpl. rewrite Hl; simpl.
    exists (b :: r); split; [reflexivity|now constructor].
Qed.

Lemma column_ok_lookup dat k p :
  column_ok dat k p = true ->
  exists col,
    lookup k (ULog.data dat) = Some col /\ column dat k = col /\
    Forall (fun x => p x = true) col.
Proof.
  unfold column_ok, column. destruct (lookup k (ULog.data dat)) as [col|];
    [|discriminate].
  intros H. exists col. repeat split.
  apply Forall_forall. now apply forallb_forall.
Qed.

Lemma Forall_zip {A B} (P : A -> Prop) (Q : B -> Prop) l l' :
  Forall P l -> Forall Q l' ->
  Forall (fun ab => P (fst ab) /\ Q (snd ab)) (zip l l').
Proof.
  intros Hl; revert l'; induction Hl as [|a l Ha _ IH]; intros l' Hl'; simpl.
  - constructor.
  - destruct Hl' as [|b l' Hb Hl']; constructor; auto.
Qed.


Lemma row_sensor_combined_spec nm ts g_x g_y g_z acc_x acc_y acc_z :
  is_uint64 ts = true -> is_number g_x = true -> is_number g_y = true ->
  is_number g_z = true -> is_number acc_x = true -> is_number acc_y = true ->
  is_number acc_z = true ->
  exists row,
    row_sensor_combined nm (ts, (g_x, (g_y, (g_z, (acc_x, (acc_y, acc_z))))))
    = Returns row /\
    normalized nm
      (ts, [("gyro_rad_x", g_x); ("gyro_rad_y", g_y); ("gyro_rad_z", g_z);
            ("acc_x", acc_x); ("acc_y", acc_y); ("acc_z", acc_z)]) row.
Proof.
  intros Hts H1 H2 H3 H4 H5 H6.
  destruct (seconds_uint64 ts Hts) as (z & -> & Hs & Hn).
  destruct (py_float_number _ H1) as [f1 E1].
  destruct (py_float_number _ H2) as [f2 E2].
  destruct (py_float_number _ H3) as [f3 E3].
  destruct (py_float_number _ H4) as [f4 E4].
  destruct (py_float_number _ H5) as [f5 E5].
  destruct (py_float_number _ H6) as [f6 E6].
  unfold row_sensor_combined. rewrite Hs, E1, E2, E3, E4, E5, E6; simpl.
  eexists; split; [reflexivity|].
  exists z. eexists.
  split; [reflexivity|]. split; [assumption|]. split; [|reflexivity].
  repeat constructor; simpl; eauto.
Qed.

Lemma row_vehicle_air_data_spec nm ts pres :
  is_uint64 ts = true -> is_number pres = true ->
  exists row,
    row_vehicle_air_data nm (ts, pres) = Returns row /\
    normalized nm (ts, [("baro_pressure_pa", pres)]) row.
Proof.
  intros Hts H1.
  destruct (seconds_uint64 ts Hts) as (z & -> & Hs & Hn).
  destruct (py_float_number _ H1) as [f1 E1].
  unfold row_vehicle_air_data. rewrite Hs, E1; simpl.
  eexists; split; [reflexivity|].
  exists z. eexists.
  split; [reflexivity|]. split; [assumption|]. split; [|reflexivity].
  repeat constructor; simpl; eauto.
Qed.

Lemma row_manual_control_setpoint_spec nm ts a1 :
  is_uint64 ts = true -> is_number a1 = true ->
  exists row,
    row_manual_control_setpoint nm (ts, a1) = Returns row /\
    normalized nm (ts, [("aux1", a1)]) row.
Proof.
  intros Hts H1.
  destruct (seconds_uint64 ts Hts) as (z & -> & Hs & Hn).
  destruct (py_float_number _ H1) as [f1 E1].
  unfold row_manual_control_setpoint. rewrite Hs, E1; simpl.
  eexists; split; [reflexivity|].
  exists z. eexists.
  split; [reflexivity|]. split; [assumption|]. split; [|reflexivity].
  repeat constructor; simpl; eauto.
Qed.

Ltac use_column H col F :=
  let Hl := fresh "Hl" in
  let Hc := fresh "Hc" in
  apply column_ok_lookup in H as (col & Hl & Hc & F);
  rewrite ?Hl, ?Hc; clear Hl Hc.

Lemma normalize_batch_spec (dat : ULog.data_t) (s : state) :
  batch_ok dat = true ->
  exists rows s',
    normalize_batch dat s = (Returns rows, s') /\
    Forall2 (normalized (ULog.name dat)) (records dat) rows.
Proof.
  unfold batch_ok, normalize_batch, records, rows_sensor_combined,
    rows_vehicle_air_data, rows_manual_control_setpoint.
  destruct (String.eqb_spec (ULog.name dat) "sensor_combined") as [E|_].
  { assert (String.eqb (ULog.name dat) "vehicle_air_data" = false) as ->
        by (rewrite E; reflexivity).
    assert (String.eqb (ULog.name dat) "manual_control_setpoint" = false) as ->
        by (rewrite E; reflexivity).
    rewrite !andb_true_r. intros H.
    apply andb_true_iff in H as [H H6]. apply andb_true_iff in H as [H H5].
    apply andb_true_iff in H as [H H4]. apply andb_true_iff in H as [H H3].
    apply andb_true_iff in H as [H H2]. apply andb_true_iff in H as [H0 H1].
    unfold bind, print_keys, modify, lift, getitem, ret; simpl.
    use_column H0 c0 F0. use_column H1 c1 F1. use_column H2 c2 F2.
    use_column H3 c3 F3. use_column H4 c4 F4. use_column H5 c5 F5.
    use_column H6 c6 F6.
    pose proof (Forall_zip _ _ _ _ F0 (Forall_zip _ _ _ _ F1
                 (Forall_zip _ _ _ _ F2 (Forall_zip _ _ _ _ F3
                   (Forall_zip _ _ _ _ F4 (Forall_zip _ _ _ _ F5 F6)))))) as F.
    match goal with
    | |- context [omapM ?f ?l] =>
        destruct (omapM_Forall2_map f
          (fun '(ts, (g_x, (g_y, (g_z, (acc_x, (acc_y, acc_z)))))) =>
             (ts, [("gyro_rad_x", g_x); ("gyro_rad_y", g_y); ("gyro_rad_z", g_z);
                   ("acc_x", acc_x); ("acc_y", acc_y); ("acc_z", acc_z)]))
          (normalized (ULog.name dat)) l) as (rows & Hrows & HR)
    end.
    { eapply Forall_impl; [|exact F].
      intros (ts & g_x & g_y & g_z & acc_x & acc_y & acc_z); simpl.
      intros (? & ? & ? & ? & ? & ? & ?).
      now apply row_sensor_combined_spec. }
    rewrite Hrows; simpl. rewrite !app_nil_r. eauto. }
  destruct (String.eqb_spec (ULog.name dat) "vehicle_air_data") as [E|_].
  { assert (String.eqb (ULog.name dat) "manual_control_setpoint" = false) as ->
        by (rewrite E; reflexivity).
    rewrite !andb_true_r. simpl. intros H.
    apply andb_true_iff in H as [H0 H1].
    unfold bind, print_keys, modify, lift, getitem, ret; simpl.
    use_column H0 c0 F0. use_column H1 c1 F1.
    pose proof (Forall_zip _ _ _ _ F0 F1) as F.
    match goal with
    | |- context [omapM ?f ?l] =>
        destruct (omapM_Forall2_map f
          (fun '(ts, pres) => (ts, [("baro_pressure_pa", pres)]))
          (normalized (ULog.name dat)) l) as (rows & Hrows & HR)
    end.
    { eapply Forall_impl; [|exact F].
      intros (ts & pres); simpl; intros (? & ?).
      now apply row_vehicle_air_data_spec. }
    rewrite Hrows; simpl. rewrite !app_nil_r. eauto. }
  destruct (String.eqb_spec (ULog.name dat) "manual_control_setpoint") as [E|_].
  { simpl. intros H. apply andb_true_iff in H as [H0 H1].
    unfold bind, print_keys, modify, lift, getitem, ret; simpl.
    use_column H0 c0 F0. use_column H1 c1 F1.
    pose proof (Forall_zip _ _ _ _ F0 F1) as F.
    match goal with
    | |- context [omapM ?f ?l] =>
        destruct (omapM_Forall2_map f
          (fun '(ts, a1) => (ts, [("aux1", a1)]))
          (normalized (ULog.name dat)) l) as (rows & Hrows & HR)
    end.
    { eapply Forall_impl; [|exact F].
      intros (ts & a1); simpl; intros (? & ?).
      now apply row_manual_control_setpoint_spec. }
    rewrite Hrows; simpl. eauto. }
  intros _. exists [], s. split; [reflexivity|constructor].
Qed.

Lemma normalize_from_spec (ulog : ULog.t) :
  ulog_ok ulog = true ->
  forall d0 s,
  exists chunks s',
    foldM (fun d dat => rows <- normalize_batch dat ;; ret (d ++ rows)) d0 ulog s
    = (Returns (d0 ++ List.concat chunks), s') /\
    Forall2 (fun dat rows => Forall2 (normalized (ULog.name dat)) (records dat) rows)
            ulog chunks.
Proof.
  induction ulog as [|dat ulog IH]; simpl; intros Hok d0 s.
  - exists [], s. simpl. rewrite app_nil_r. split; [reflexivity|constructor].
  - apply andb_true_iff in Hok as [Hdat Hok].
    destruct (normalize_batch_spec dat s Hdat) as (rows & s1 & Hrows & HR).
    destruct (IH Hok (d0 ++ rows) s1) as (chunks & s' & Hrun & HC).
    exists (rows :: chunks), s'. unfold bind at 1. unfold bind at 1.
    rewrite Hrows. unfold ret at 1. rewrite Hrun. simpl.
    rewrite app_assoc. split; [reflexivity|now constructor].
Qed.

(** C8. On a valid log the normaliser returns, and its output is the
    batches' rows in batch order, each batch's rows in the order of its
    decoded records; the row of a record holds the source integer
    timestamp converted to a float and divided by [1000000.], which is
    not negative, then the kind, then every payload field coerced to a
    float. *)
Theorem normalizer_contract (ulog : ULog.t) (s : state) :
  ulog_ok ulog = true ->
  exists chunks s',
    normalize ulog s = (Returns (List.concat chunks), s') /\
    Forall2 (fun dat rows => Forall2 (normalized (ULog.name dat)) (records dat) rows)
            ulog chunks.
Proof.
  intros Hok. destruct (normalize_from_spec ulog Hok [] s) as (chunks & s' & H & HC).
  exists chunks, s'. split; assumption.
Qed.

Lemma normalizer_contract_witness :
  ulog_ok sample_ulog = true /\
  exists chunks s',
    normalize sample_ulog module_globals = (Returns (List.concat chunks), s') /\
    Forall2 (fun dat rows => Forall2 (normalized (ULog.name dat)) (records dat) rows)
            sample_ulog chunks.
Proof.
  split; [reflexivity|].
  apply (normalizer_contract sample_ulog module_globals). reflexivity.
Defined.

(** ** The merged stream *)

Lemma load_data_run (ulog : ULog.t) (s : state) (d : list dict) (s1 : state) :
  normalize ulog s = (Returns d, s1) ->
  exists data,
    load_data ulog s = (Returns data, s1) /\
    sorted d first_value = Returns data /\
    Permutation d data /\
    nondecreasing data /\
    (forall t, filter (at_time t) data = filter (at_time t) d).
Proof.
  intros H. pose proof (normalize_ok ulog s d s1 H) as Hd.
  destruct (sorted_rows d Hd) as (data & Hs & Hp & Hn & Hst).
  exists data. unfold load_data, bind, lift. rewrite H, Hs. auto.
Qed.

Lemma load_data_inv (ulog : ULog.t) (s : state) (data : list dict) (s' : state) :
  load_data ulog s = (Returns data, s') ->
  exists d, normalize ulog s = (Returns d, s') /\
            sorted d first_value = Returns data.
Proof.
  unfold load_data. intros H.
  apply bind_returns in H as (d & s1 & Hn & H).
  unfold lift in H. injection H as H <-. eauto.
Qed.

(** C4. Whenever [load_data] returns a stream, the stream is
    non-decreasing in timestamp at every pair of consecutive positions;
    and on every valid log [load_data] does return a stream. *)
Theorem merged_stream_nondecreasing (ulog : ULog.t) (s : state) :
  (forall data s', load_data ulog s = (Returns data, s') -> nondecreasing data) /\
  (ulog_ok ulog = true ->
   exists data s', load_data ulog s = (Returns data, s') /\ nondecreasing data).
Proof.
  split.
  - intros data s' H. apply load_data_inv in H as (d & Hn & Hs).
    destruct (load_data_run ulog s d s' Hn) as (data' & _ & Hs' & _ & Hnd & _).
    assert (data' = data) as <- by congruence. exact Hnd.
  - intros Hok.
    destruct (normalize_from_spec ulog Hok [] s) as (chunks & s' & Hn & _).
    destruct (load_data_run ulog s _ s' Hn) as (data & Hl & _ & _ & Hnd & _).
    eauto.
Qed.

Lemma merged_stream_nondecreasing_witness :
  ulog_ok sample_ulog = true /\
  exists data s',
    load_data sample_ulog module_globals = (Returns data, s') /\
    nondecreasing data.
Proof.
  split; [reflexivity|].
  apply (merged_stream_nondecreasing sample_ulog module_globals). reflexivity.
Defined.

(** C5. The merge is stable: whenever the normalising loop completes
    with the list [d], [load_data] returns a rearrangement of [d] in
    which, for every timestamp, the rows at that timestamp stand in the
    same order as in [d]. *)
Theorem merge_stable (ulog : ULog.t) (s : state) (d : list dict) (s1 : state) :
  normalize ulog s = (Returns d, s1) ->
  exists data,
    load_data ulog s = (Returns data, s1) /\
    Permutation d data /\
    (forall t, filter (at_time t) data = filter (at_time t) d).
Proof.
  intros H. destruct (load_data_run ulog s d s1 H) as (data & Hl & _ & Hp & _ & Hst).
  eauto.
Qed.

Lemma merge_stable_witness :
  exists d s1,
    normalize sample_ulog module_globals = (Returns d, s1) /\
    exists data,
      load_data sample_ulog module_globals = (Returns data, s1) /\
      Permutation d data /\
      (forall t, filter (at_time t) data = filter (at_time t) d).
Proof.
  eexists. eexists. split.
  - vm_compute. reflexivity.
  - apply (merge_stable sample_ulog module_globals). vm_compute. reflexivity.
Defined.

(** The example of the claim: a PRESSURE and a KILL_SWITCH event, both
    at 50.0 s and decoded in that order, stay in that order. *)
Example equal_timestamps_keep_order :
  exists data s',
    load_data sample_ulog module_globals = (Returns data, s') /\
    filter (at_time Lit.f50_0) data
    = [pressure_row Lit.f50_0 Lit.f1013_0; kill_switch_row Lit.f50_0 Lit.f0_0].
Proof.
  eexists. eexists. split.
  - vm_compute. reflexivity.
  - vm_compute. reflexivity.
Qed.

(** C10. Every row the normalising loop builds has its timestamp as
    first value, so the key [list(x.values())[0]] equals
    [x['timestamp']] on it; sorting by the first value is sorting by
    the timestamp, and the rows [load_data] returns are such rows. *)
Theorem first_value_is_timestamp (ulog : ULog.t) (s : state) (d : list dict)
    (s1 : state) :
  normalize ulog s = (Returns d, s1) ->
  Forall (fun x => first_value x = timestamp_key x) d /\
  sorted d first_value = sorted d timestamp_key /\
  exists data,
    load_data ulog s = (Returns data, s1) /\
    sorted d timestamp_key = Returns data /\
    Forall (fun x => first_value x = timestamp_key x) data.
Proof.
  intros H. pose proof (normalize_ok ulog s d s1 H) as Hd.
  assert (forall l, Forall row_ok l ->
                    Forall (fun x => first_value x = timestamp_key x) l) as Hk.
  { intros l Hl. eapply Forall_impl; [|exact Hl]. intros x Hx.
    destruct (row_ok_keys x Hx) as (t & -> & -> & _). reflexivity. }
  assert (sorted d first_value = sorted d timestamp_key) as Hs.
  { unfold sorted. now rewrite (omapM_ext_in _ _ d (Hk d Hd)). }
  destruct (load_data_run ulog s d s1 H) as (data & Hl & Hsd & Hp & _ & _).
  repeat split; auto. exists data. repeat split; auto; [congruence|].
  apply Hk. rewrite Forall_forall in *. intros x Hx. apply Hd.
  eapply Permutation_in; [symmetry; exact Hp|exact Hx].
Qed.

Lemma first_value_is_timestamp_witness :
  exists d s1,
    normalize sample_ulog module_globals = (Returns d, s1) /\
    Forall (fun x => first_value x = timestamp_key x) d /\
    sorted d first_value = sorted d timestamp_key /\
    exists data,
      load_data sample_ulog module_globals = (Returns data, s1) /\
      sorted d timestamp_key = Returns data /\
      Forall (fun x => first_value x = timestamp_key x) data.
Proof.
  eexists. eexists. split.
  - vm_compute. reflexivity.
  - apply (first_value_is_timestamp sample_ulog module_globals).
    vm_compute. reflexivity.
Defined.

(** ** The globals are only touched by [algorithm_update] *)

Section Frame.

Lemma keeps_ret {A} (a : A) : keeps_globals (ret a).
Proof. intros s; reflexivity. Qed.

Lemma keeps_lift {A} (o : outcome A) : keeps_globals (lift o).
Proof. intros s; reflexivity. Qed.

Lemma keeps_print_keys keys : keeps_globals (print_keys keys).
Proof. intros s; reflexivity. Qed.


Lemma keeps_bind {A B} (m : M A) (k : A -> M B) :
  keeps_globals m -> (forall a, keeps_globals (k a)) ->
  keeps_globals (bind m k).
Proof.
  intros Hm Hk s. unfold bind. specialize (Hm s).
  destruct (m s) as [[a|e] s1]; simpl in *; [|assumption].
  now rewrite Hk.
Qed.

Lemma keeps_if {A} (b : bool) (m m' : M A) :
  keeps_globals m -> keeps_globals m' -> keeps_globals (if b then m else m').
Proof. destruct b; auto. Qed.

Lemma keeps_foldM {A B} (body : B -> A -> M B) l :
  (forall b a, keeps_globals (body b a)) ->
  forall acc, keeps_globals (foldM body acc l).
Proof.
  intros Hb. induction l as [|a l IH]; simpl; intros acc;
    auto using keeps_ret, keeps_bind.
Qed.

Lemma keeps_load_data ulog : keeps_globals (load_data ulog).
Proof.
  unfold load_data, normalize. apply keeps_bind; [|intros; apply keeps_lift].
  apply keeps_foldM. intros d dat.
  unfold normalize_batch, rows_sensor_combined, rows_vehicle_air_data,
    rows_manual_control_setpoint.
  repeat match goal with
         | |- keeps_globals (bind _ _) => apply keeps_bind; [|intros ?]
         | |- keeps_globals (if _ then _ else _) => apply keeps_if
         | |- keeps_globals (ret _) => apply keeps_ret
         | |- keeps_globals (lift _) => apply keeps_lift
         | |- keeps_globals (print_keys _) => apply keeps_print_keys
         end.
Qed.

End Frame.

(** With integer bounds [start_seconds >= end_seconds] the condition of
    line 83 is false for every float. *)
Lemma window_test_inverted (s : state) (a b : Z) (t : float) :
  start_seconds s = VInt a -> end_seconds s = VInt b -> b <= a ->
  window_test s (VFloat t) = Returns false.
Proof.
  intros Ha Hb Hab. unfold window_test. rewrite Ha, Hb. simpl.
  destruct (PyFloat.compare_Z a t) as [[]|] eqn:Ea; simpl; try reflexivity.
  destruct (PyFloat.compare_Z b t) as [[]|] eqn:Eb; simpl; try reflexivity.
  pose proof (compare_Z_between a b t Ea Eb). lia.
Qed.

(** * Further properties of the script *)

(** ** One call of [algorithm_update] *)

Lemma py_lt_raises (x y : value) (e : exn) :
  py_lt x y = Raises e -> e = TypeError.
Proof.
  destruct x, y; simpl;
    repeat match goal with
           | |- context [match ?c with _ => _ end] => destruct c
           end; congruence.
Qed.

Lemma window_test_raises (s : state) (t : value) (e : exn) :
  window_test s t = Raises e -> e = TypeError.
Proof.
  unfold window_test, obind. rewrite py_gt_lt.
  destruct (py_lt (start_seconds s) t) as [[|]|e'] eqn:E1.
  - apply py_lt_raises.
  - discriminate.
  - intros [= <-]. now apply py_lt_raises in E1.
Qed.

(** With numbers as bounds the window test of a float never raises. *)
Lemma window_test_num (s : state) (t : float) :
  is_num (start_seconds s) = true -> is_num (end_seconds s) = true ->
  window_test s (VFloat t) = Returns (inside_b s (VFloat t)).
Proof.
  unfold inside_b, window_test, obind. rewrite py_gt_lt.
  destruct (start_seconds s) as [a|a|a], (end_seconds s) as [b|b|b];
    try discriminate; intros _ _; simpl;
    repeat match goal with
           | |- context [PyFloat.compare_Z ?x ?y] =>
               destruct (PyFloat.compare_Z x y) as [[]|]; simpl
           | |- context [SFcompare ?x ?y] =>
               destruct (SFcompare x y) as [[]|]; simpl
           end; reflexivity.
Qed.

Lemma inside_b_inside (s : state) (t : value) :
  inside_b s t = true <-> strictly_inside s t.
Proof.
  rewrite <- window_test_inside. unfold inside_b.
  destruct (window_test s t) as [[|]|e]; split; congruence.
Qed.

Lemma inside_b_ext (s s' : state) (t : value) :
  start_seconds s' = start_seconds s -> end_seconds s' = end_seconds s ->
  inside_b s' t = inside_b s t.
Proof. unfold inside_b, window_test. now intros -> ->. Qed.

(** The IMU branch: a key that is missing is reported; with all keys
    present one line is printed. *)
Lemma update_imu_cases (d : dict) (s : state) :
  (exists k, In k ("timestamp" :: imu_keys) /\ lookup k d = None /\
             update_imu d s = (Raises (KeyError k), s)) \/
  update_imu d s = (Returns tt, with_sink s (sink s ++ [Print (imu_line d)])).
Proof.
  unfold update_imu, imu_line, imu_keys, bind, lift, getitem.
  repeat match goal with
         | |- context [match lookup ?k d with _ => _ end] =>
             let E := fresh "E" in
             destruct (lookup k d) eqn:E;
             [|left; exists k; split; [simpl; tauto|split; [exact E|reflexivity]]]
         end.
  right. reflexivity.
Qed.

Lemma update_pressure_raises (d : dict) (s : state) (e : exn) (s' : state) :
  update_pressure d s = (Raises e, s') ->
  s' = s /\ exists k, e = KeyError k /\ lookup k d = None.
Proof.
  rewrite update_pressure_run.
  destruct (lookup "timestamp" d) eqn:Et;
    [destruct (lookup "baro_pressure_pa" d) eqn:Ep|];
    intros [= <- <-]; eauto.
Qed.

Lemma update_kill_switch_raises (d : dict) (s : state) (e : exn) (s' : state) :
  update_kill_switch d s = (Raises e, s') ->
  s' = s /\ exists k, e = KeyError k /\ lookup k d = None.
Proof.
  rewrite update_kill_switch_run.
  destruct (lookup "timestamp" d) eqn:Et;
    [destruct (lookup "aux1" d) eqn:Ep|];
    intros [= <- <-]; eauto.
Qed.

Lemma algorithm_update_raises (d : dict) (s : state) (e : exn) (s' : state) :
  algorithm_update d s = (Raises e, s') ->
  s' = s /\ (e = TypeError \/ exists k, e = KeyError k /\ lookup k d = None).
Proof.
  rewrite algorithm_update_run.
  destruct (lookup "timestamp" d) as [t|] eqn:Et;
    [|intros [= <- <-]; eauto].
  destruct (window_test s t) as [[|]|e'] eqn:Ew; try discriminate;
    [|intros [= <- <-]; apply window_test_raises in Ew; auto].
  destruct (lookup "field" d) as [f|] eqn:Ef; [|intros [= <- <-]; eauto].
  destruct (py_eq f (VStr "sensor_combined")).
  { destruct (update_imu_cases d s) as [(k & _ & Hk & ->)| ->];
      [intros [= <- <-]; eauto|discriminate]. }
  destruct (py_eq f (VStr "vehicle_air_data")).
  { intros H. apply update_pressure_raises in H as [-> H]. auto. }
  destruct (py_eq f (VStr "manual_control_setpoint")); [|discriminate].
  intros H. apply update_kill_switch_raises in H as [-> H]. auto.
Qed.

(** X1. When [algorithm_update] raises it has changed nothing: no
    history grew and nothing was printed.  The exception is a
    [TypeError] from the window comparison or a [KeyError] naming a key
    the event really lacks. *)
Theorem update_failure_is_atomic (d : dict) (s : state) (e : exn) (s' : state) :
  algorithm_update d s = (Raises e, s') ->
  s' = s /\ (e = TypeError \/ exists k, e = KeyError k /\ lookup k d = None).
Proof.
  intros H. apply algorithm_update_raises in H as [-> H].
  split; [reflexivity|exact H].
Qed.

Lemma update_failure_is_atomic_witness :
  algorithm_update malformed_pressure_row module_globals
  = (Raises (KeyError "baro_pressure_pa"), module_globals) /\
  module_globals = module_globals /\
  (KeyError "baro_pressure_pa" = TypeError \/
   exists k, KeyError "baro_pressure_pa" = KeyError k /\
             lookup k malformed_pressure_row = None).
Proof.
  split; [reflexivity|].
  apply (update_failure_is_atomic malformed_pressure_row module_globals).
  reflexivity.
Defined.

(** X2. An event of kind IMU ('sensor_combined') never changes a
    global, whether the call returns or raises; inside the window and
    with its six payload keys present it prints one line: the
    timestamp, ['imu'] and the six values. *)
Theorem imu_event_only_prints (d : dict) (s : state) :
  lookup "field" d = Some (VStr "sensor_combined") ->
  globals (snd (algorithm_update d s)) = globals s /\
  (forall t,
     lookup "timestamp" d = Some t -> strictly_inside s t ->
     forallb (has_key d) imu_keys = true ->
     algorithm_update d s
     = (Returns tt, with_sink s (sink s ++ [Print (imu_line d)]))).
Proof.
  intros Hf. rewrite algorithm_update_run, Hf. split.
  - destruct (lookup "timestamp" d) as [t|]; [|reflexivity].
    destruct (window_test s t) as [[|]|e]; try reflexivity. simpl.
    destruct (update_imu_cases d s) as [(k & _ & _ & ->)| ->]; reflexivity.
  - intros t Ht Hin Hk. rewrite Ht.
    apply window_test_inside in Hin. rewrite Hin. simpl.
    destruct (update_imu_cases d s) as [(k & Hin' & Hk' & _)| ->];
      [|reflexivity].
    exfalso. destruct Hin' as [<-|Hin']; [congruence|].
    rewrite forallb_forall in Hk. specialize (Hk k Hin').
    unfold has_key in Hk. now rewrite Hk' in Hk.
Qed.

Lemma imu_event_only_prints_witness :
  lookup "field" (hd [] mixed_stream) = Some (VStr "sensor_combined") /\
  globals (snd (algorithm_update (hd [] mixed_stream) module_globals))
  = globals module_globals /\
  algorithm_update (hd [] mixed_stream) module_globals
  = (Returns tt,
     with_sink module_globals
       [Print [VFloat Lit.f150_0; VStr "imu"; VFloat Lit.f0_0; VFloat Lit.f0_0;
               VFloat Lit.f0_0; VFloat Lit.f0_0; VFloat Lit.f0_0;
               VFloat Lit.f1_0]]).
Proof.
  split; [reflexivity|].
  destruct (imu_event_only_prints (hd [] mixed_stream) module_globals eq_refl)
    as [H1 H2].
  split; [exact H1|].
  apply (H2 (VFloat Lit.f150_0)); try reflexivity. split; reflexivity.
Defined.

(** ** A whole stream *)

Lemma sample_at_ext (s s' : state) kind field d :
  start_seconds s' = start_seconds s -> end_seconds s' = end_seconds s ->
  sample_at s' kind field d = sample_at s kind field d.
Proof.
  intros Hs He. unfold sample_at.
  destruct (lookup "timestamp" d) as [t|]; [|reflexivity].
  now rewrite (inside_b_ext s s' t Hs He).
Qed.

Lemma update_line_ext (s s' : state) d :
  start_seconds s' = start_seconds s -> end_seconds s' = end_seconds s ->
  update_line s' d = update_line s d.
Proof.
  intros Hs He. unfold update_line.
  destruct (lookup "timestamp" d) as [t|]; [|reflexivity].
  now rewrite (inside_b_ext s s' t Hs He).
Qed.

Lemma py_eq_VStr_eqb (k kind : string) :
  py_eq (VStr k) (VStr kind) = String.eqb k kind.
Proof. reflexivity. Qed.

(** One processable event: the call returns; the event's sample goes
    to the history of its kind when it passes the window test, and
    nothing else changes but the printed line. *)
Lemma update_event_ok (d : dict) (s : state) :
  is_num (start_seconds s) = true -> is_num (end_seconds s) = true ->
  event_ok d = true ->
  exists s',
    algorithm_update d s = (Returns tt, s') /\
    start_seconds s' = start_seconds s /\
    end_seconds s' = end_seconds s /\
    pressure_time s'
    = pressure_time s
      ++ map fst (sample_at s "vehicle_air_data" "baro_pressure_pa" d) /\
    pressure_log s'
    = pressure_log s
      ++ map snd (sample_at s "vehicle_air_data" "baro_pressure_pa" d) /\
    kill_sw_time s'
    = kill_sw_time s
      ++ map fst (sample_at s "manual_control_setpoint" "aux1" d) /\
    kill_sw_log s'
    = kill_sw_log s
      ++ map snd (sample_at s "manual_control_setpoint" "aux1" d) /\
    sink s' = sink s ++ update_line s d.
Proof.
  intros Hlo Hhi Hok. unfold event_ok in Hok.
  rewrite algorithm_update_run. unfold sample_at, update_line.
  destruct (lookup "timestamp" d) as [[a|t|a]|] eqn:Et; try discriminate.
  destruct (lookup "field" d) as [[b|b|k]|] eqn:Ef; try discriminate.
  rewrite (window_test_num s t Hlo Hhi).
  rewrite !py_eq_VStr_eqb.
  destruct (inside_b s (VFloat t)) eqn:Ein; simpl.
  2:{ exists s.
      destruct (lookup "baro_pressure_pa" d), (lookup "aux1" d); simpl;
        rewrite !app_nil_r; repeat split. }
  destruct (String.eqb_spec k "sensor_combined") as [->|N1].
  { simpl. destruct (update_imu_cases d s) as [(k & Hin & Hk & _)| ->].
    - exfalso. destruct Hin as [<-|Hin]; [congruence|].
      rewrite forallb_forall in Hok. specialize (Hok k Hin).
      unfold has_key in Hok. now rewrite Hk in Hok.
    - eexists; split; [reflexivity|]. simpl.
      destruct (lookup "baro_pressure_pa" d), (lookup "aux1" d); simpl;
        rewrite !app_nil_r; repeat split. }
  destruct (String.eqb_spec k "vehicle_air_data") as [->|N2].
  { simpl. rewrite update_pressure_run, Et. unfold has_key in Hok.
    destruct (lookup "baro_pressure_pa" d) as [p|]; [|discriminate].
    eexists; split; [reflexivity|]. simpl.
    destruct (lookup "aux1" d); simpl; rewrite !app_nil_r; repeat split. }
  destruct (String.eqb_spec k "manual_control_setpoint") as [->|N3].
  { simpl. rewrite update_kill_switch_run, Et. unfold has_key in Hok.
    destruct (lookup "aux1" d) as [a|]; [|discriminate].
    eexists; split; [reflexivity|]. simpl.
    destruct (lookup "baro_pressure_pa" d); simpl; rewrite !app_nil_r;
      repeat split. }
  exists s.
  destruct (lookup "baro_pressure_pa" d), (lookup "aux1" d); simpl;
    rewrite !app_nil_r; repeat split.
Qed.

Lemma for_each_events_ok (data : list dict) : forall s,
  is_num (start_seconds s) = true -> is_num (end_seconds s) = true ->
  forallb event_ok data = true ->
  exists s',
    for_each data algorithm_update s = (Returns tt, s') /\
    start_seconds s' = start_seconds s /\
    end_seconds s' = end_seconds s /\
    pressure_time s'
    = pressure_time s
      ++ map fst (recorded s "vehicle_air_data" "baro_pressure_pa" data) /\
    pressure_log s'
    = pressure_log s
      ++ map snd (recorded s "vehicle_air_data" "baro_pressure_pa" data) /\
    kill_sw_time s'
    = kill_sw_time s
      ++ map fst (recorded s "manual_control_setpoint" "aux1" data) /\
    kill_sw_log s'
    = kill_sw_log s
      ++ map snd (recorded s "manual_control_setpoint" "aux1" data) /\
    sink s' = sink s ++ flat_map (update_line s) data.
Proof.
  induction data as [|d data IH]; intros s Hlo Hhi Hok.
  - exists s. simpl. rewrite !app_nil_r. repeat split.
  - simpl in Hok. apply andb_true_iff in Hok as [Hd Hok].
    destruct (update_event_ok d s Hlo Hhi Hd)
      as (s1 & Hrun & Hs & He & Hpt & Hpl & Hkt & Hkl & Hout).
    destruct (IH s1) as (s' & Hrun' & Hs' & He' & Hpt' & Hpl' & Hkt' & Hkl' & Hout');
      [congruence|congruence|assumption|].
    exists s'. simpl for_each. unfold bind. rewrite Hrun, Hrun'.
    unfold recorded in *. simpl flat_map.
    rewrite !map_app, Hs', He', Hpt', Hpl', Hkt', Hkl', Hout',
      Hpt, Hpl, Hkt, Hkl, Hout, <- !app_assoc.
    assert (forall kind field,
              flat_map (sample_at s1 kind field) data
              = flat_map (sample_at s kind field) data) as Ex.
    { intros kind field. apply flat_map_ext. intros x.
      now apply sample_at_ext. }
    assert (flat_map (update_line s1) data = flat_map (update_line s) data) as El.
    { apply flat_map_ext. intros x. now apply update_line_ext. }
    rewrite !Ex, El. repeat split; congruence.
Qed.

(** [run_simulation] over a stream of processable events: no call of
    [algorithm_update] raises, and the run ends with the call of
    [plot_result]. *)
Lemma run_simulation_stream (plt : matplotlib) (data : list dict)
    (s : state) :
  is_num (start_seconds s) = true -> is_num (end_seconds s) = true ->
  forallb event_ok data = true ->
  exists s',
    run_simulation plt data s = (plot_returns plt s', s') /\
    start_seconds s' = start_seconds s /\
    end_seconds s' = end_seconds s /\
    pressure_time s'
    = pressure_time s
      ++ map fst (recorded s "vehicle_air_data" "baro_pressure_pa" data) /\
    pressure_log s'
    = pressure_log s
      ++ map snd (recorded s "vehicle_air_data" "baro_pressure_pa" data) /\
    kill_sw_time s'
    = kill_sw_time s
      ++ map fst (recorded s "manual_control_setpoint" "aux1" data) /\
    kill_sw_log s'
    = kill_sw_log s
      ++ map snd (recorded s "manual_control_setpoint" "aux1" data) /\
    sink s'
    = sink s ++ [Print [VStr "Algorithm init"]]
      ++ flat_map (update_line s) data
      ++ Print [VStr "Algorithm done"] :: when_shown plt s' [plot_of s'].
Proof.
  intros Hlo Hhi Hok.
  set (s0 := with_sink s (sink s ++ [Print [VStr "Algorithm init"]])).
  destruct (for_each_events_ok data s0 Hlo Hhi Hok)
    as (s1 & Hrun & Hs & He & Hpt & Hpl & Hkt & Hkl & Hout).
  exists (snd (algorithm_done plt s1)).
  rewrite (run_simulation_run plt data s s1 Hrun), algorithm_done_run.
  split; [reflexivity|]. simpl.
  assert (forall kind field, recorded s0 kind field data = recorded s kind field data)
    as Ex by (intros; apply flat_map_ext; intros x; now apply sample_at_ext).
  assert (flat_map (update_line s0) data = flat_map (update_line s) data) as El
    by (apply flat_map_ext; intros x; now apply update_line_ext).
  rewrite Ex in Hpt, Hpl, Hkt, Hkl. rewrite El in Hout.
  repeat split; try assumption.
  rewrite Hout. subst s0. simpl. now rewrite <- !app_assoc.
Qed.

(** X3. Over a stream of processable events and with numbers as window
    bounds, no call of [algorithm_update] raises and [run_simulation]
    ends with the call of [plot_result]: it returns when that call
    returns and raises what that call raises.  Either way each history
    has grown by exactly the samples of its kind that pass the window
    test, in stream order (IMU events, events outside the window and
    events of other kinds add nothing), and the sink received the init
    line, one line per event inside the window of a known kind, the
    done line and, when the figure was shown, the plot of the final
    histories. *)
Theorem run_simulation_records (plt : matplotlib) (data : list dict)
    (s : state) :
  is_num (start_seconds s) = true -> is_num (end_seconds s) = true ->
  forallb event_ok data = true ->
  exists s',
    run_simulation plt data s = (plot_returns plt s', s') /\
    pressure_time s'
    = pressure_time s
      ++ map fst (recorded s "vehicle_air_data" "baro_pressure_pa" data) /\
    pressure_log s'
    = pressure_log s
      ++ map snd (recorded s "vehicle_air_data" "baro_pressure_pa" data) /\
    kill_sw_time s'
    = kill_sw_time s
      ++ map fst (recorded s "manual_control_setpoint" "aux1" data) /\
    kill_sw_log s'
    = kill_sw_log s
      ++ map snd (recorded s "manual_control_setpoint" "aux1" data) /\
    sink s'
    = sink s ++ [Print [VStr "Algorithm init"]]
      ++ flat_map (update_line s) data
      ++ Print [VStr "Algorithm done"] :: when_shown plt s' [plot_of s'].
Proof.
  intros Hlo Hhi Hok.
  destruct (run_simulation_stream plt data s Hlo Hhi Hok)
    as (s' & Hrun & _ & _ & Hpt & Hpl & Hkt & Hkl & Hout).
  exists s'. repeat split; assumption.
Qed.

Lemma run_simulation_records_witness :
  exists s',
    run_simulation plot_draws mixed_stream module_globals
    = (plot_returns plot_draws s', s') /\
    pressure_time s' = [VFloat Lit.f150_0] /\
    pressure_log s' = [VFloat Lit.f1013_2] /\
    kill_sw_time s' = [VFloat Lit.f160_0] /\
    kill_sw_log s' = [VFloat Lit.f1_0] /\
    sink s'
    = sink module_globals ++ [Print [VStr "Algorithm init"]]
      ++ flat_map (update_line module_globals) mixed_stream
      ++ Print [VStr "Algorithm done"]
         :: when_shown plot_draws s' [plot_of s'].
Proof.
  apply (run_simulation_records plot_draws mixed_stream module_globals);
    reflexivity.
Defined.

Lemma for_each_app {A} (l1 l2 : list A) (body : A -> M unit) (s : state) :
  for_each (l1 ++ l2) body s
  = match for_each l1 body s with
    | (Returns _, s1) => for_each l2 body s1
    | (Raises e, s1) => (Raises e, s1)
    end.
Proof.
  revert s; induction l1 as [|a l1 IH]; intros s; simpl; [reflexivity|].
  unfold bind. destruct (body a s) as [[u|e] s1]; [apply IH|reflexivity].
Qed.

(** X4. [run_simulation] stops at the first event on which
    [algorithm_update] raises: the exception is the run's result, the
    events before it stay recorded, the events after it are not looked
    at, and [algorithm_done] is not called, so nothing is plotted. *)
Theorem run_simulation_aborts (plt : matplotlib) (pre post : list dict)
    (bad : dict) (s s1 s2 : state) (e : exn) :
  for_each pre algorithm_update (snd (algorithm_init s)) = (Returns tt, s1) ->
  algorithm_update bad s1 = (Raises e, s2) ->
  run_simulation plt (pre ++ bad :: post) s = (Raises e, s1) /\ s2 = s1.
Proof.
  intros Hpre Hbad.
  pose proof (algorithm_update_raises bad s1 e s2 Hbad) as [-> _].
  split; [|reflexivity].
  unfold run_simulation. unfold bind at 1. rewrite algorithm_init_run.
  rewrite algorithm_init_run in Hpre. simpl in Hpre.
  unfold bind at 1. rewrite for_each_app, Hpre. simpl for_each.
  unfold bind at 1. now rewrite Hbad.
Qed.

Lemma run_simulation_aborts_witness :
  run_simulation plot_draws
    ([pressure_row Lit.f150_0 Lit.f1013_2]
       ++ malformed_pressure_row :: [pressure_row Lit.f170_0 Lit.f1012_8])
    module_globals
  = (Raises (KeyError "baro_pressure_pa"),
     State (VInt 100) (VInt 900) [VFloat Lit.f150_0] [VFloat Lit.f1013_2] [] []
       [Print [VStr "Algorithm init"];
        Print [VFloat Lit.f150_0; VStr "pressure"; VFloat Lit.f1013_2]]) /\
  State (VInt 100) (VInt 900) [VFloat Lit.f150_0] [VFloat Lit.f1013_2] [] []
    [Print [VStr "Algorithm init"];
     Print [VFloat Lit.f150_0; VStr "pressure"; VFloat Lit.f1013_2]]
  = State (VInt 100) (VInt 900) [VFloat Lit.f150_0] [VFloat Lit.f1013_2] [] []
      [Print [VStr "Algorithm init"];
       Print [VFloat Lit.f150_0; VStr "pressure"; VFloat Lit.f1013_2]].
Proof.
  apply (run_simulation_aborts plot_draws
           [pressure_row Lit.f150_0 Lit.f1013_2]
           [pressure_row Lit.f170_0 Lit.f1012_8] malformed_pressure_row
           module_globals); reflexivity.
Defined.

(** X5. [algorithm_init] resets nothing: over a stream of processable
    events and with numbers as window bounds, a second [run_simulation]
    started in the state the first one ended in appends every sample a
    second time to the histories the first run left, whatever
    [plot_result] did at the end of either run. *)
Theorem second_run_appends_again (plt : matplotlib) (data : list dict)
    (s s' : state) :
  is_num (start_seconds s) = true -> is_num (end_seconds s) = true ->
  forallb event_ok data = true ->
  snd (run_simulation plt data (snd (run_simulation plt data s))) = s' ->
  pressure_time s'
  = (pressure_time s
     ++ map fst (recorded s "vehicle_air_data" "baro_pressure_pa" data))
    ++ map fst (recorded s "vehicle_air_data" "baro_pressure_pa" data) /\
  pressure_log s'
  = (pressure_log s
     ++ map snd (recorded s "vehicle_air_data" "baro_pressure_pa" data))
    ++ map snd (recorded s "vehicle_air_data" "baro_pressure_pa" data) /\
  kill_sw_time s'
  = (kill_sw_time s
     ++ map fst (recorded s "manual_control_setpoint" "aux1" data))
    ++ map fst (recorded s "manual_control_setpoint" "aux1" data) /\
  kill_sw_log s'
  = (kill_sw_log s
     ++ map snd (recorded s "manual_control_setpoint" "aux1" data))
    ++ map snd (recorded s "manual_control_setpoint" "aux1" data).
Proof.
  intros Hlo Hhi Hok <-.
  destruct (run_simulation_stream plt data s Hlo Hhi Hok)
    as (s1 & Hrun1 & Hs1 & He1 & Hpt1 & Hpl1 & Hkt1 & Hkl1 & _).
  rewrite Hrun1. cbn [snd].
  destruct (run_simulation_stream plt data s1) as
    (s2 & Hrun2 & _ & _ & Hpt2 & Hpl2 & Hkt2 & Hkl2 & _);
    [congruence|congruence|assumption|].
  rewrite Hrun2. cbn [snd].
  assert (forall kind field, recorded s1 kind field data = recorded s kind field data)
    as Ex by (intros; apply flat_map_ext; intros x; now apply sample_at_ext).
  rewrite Ex in Hpt2, Hpl2, Hkt2, Hkl2.
  repeat split; congruence.
Qed.

Lemma second_run_appends_again_witness :
  pressure_time
    (snd (run_simulation plot_draws three_readings
            (snd (run_simulation plot_draws three_readings module_globals))))
  = [VFloat Lit.f150_0; VFloat Lit.f160_0; VFloat Lit.f170_0;
     VFloat Lit.f150_0; VFloat Lit.f160_0; VFloat Lit.f170_0] /\
  pressure_log
    (snd (run_simulation plot_draws three_readings
            (snd (run_simulation plot_draws three_readings module_globals))))
  = [VFloat Lit.f1013_2; VFloat Lit.f1013_0; VFloat Lit.f1012_8;
     VFloat Lit.f1013_2; VFloat Lit.f1013_0; VFloat Lit.f1012_8] /\
  kill_sw_time
    (snd (run_simulation plot_draws three_readings
            (snd (run_simulation plot_draws three_readings module_globals))))
  = [] /\
  kill_sw_log
    (snd (run_simulation plot_draws three_readings
            (snd (run_simulation plot_draws three_readings module_globals))))
  = [].
Proof.
  apply (second_run_appends_again plot_draws three_readings module_globals);
    reflexivity.
Defined.

(** X6. When [run_simulation] returns, the last two things handed to
    the sink are the done line and one plot, and the plot holds the
    window bounds and the four histories exactly as the run left them. *)
Theorem plot_shows_final_histories (plt : matplotlib) (data : list dict)
    (s s' : state) :
  run_simulation plt data s = (Returns tt, s') ->
  exists before,
    sink s'
    = before
      ++ [Print [VStr "Algorithm done"];
          PlotResult (start_seconds s') (end_seconds s')
                     (pressure_time s') (pressure_log s')
                     (kill_sw_time s') (kill_sw_log s')].
Proof.
  unfold run_simulation. intros H.
  apply bind_returns in H as (u0 & s0 & _ & H).
  apply bind_returns in H as (u1 & s1 & _ & H).
  apply algorithm_done_returns in H as [_ ->].
  exists (sink s1). reflexivity.
Qed.

Lemma plot_shows_final_histories_witness :
  exists s',
    run_simulation plot_draws three_readings module_globals
    = (Returns tt, s') /\
    exists before,
      sink s'
      = before
        ++ [Print [VStr "Algorithm done"];
            PlotResult (start_seconds s') (end_seconds s')
                       (pressure_time s') (pressure_log s')
                       (kill_sw_time s') (kill_sw_log s')].
Proof.
  eexists. split.
  - vm_compute. reflexivity.
  - apply (plot_shows_final_histories plot_draws three_readings
             module_globals).
    vm_compute. reflexivity.
Defined.

(** ** Invariants of a whole program run *)

(** What one call of [algorithm_update] can do to the state, whatever
    the event and whether the call returns or raises. *)
Lemma algorithm_update_effect (d : dict) (s : state) :
  snd (algorithm_update d s) = s \/
  (exists out, snd (algorithm_update d s) = with_sink s out) \/
  (exists t p, strictly_inside s t /\
               snd (algorithm_update d s) = record_pressure t p s) \/
  (exists t a, strictly_inside s t /\
               snd (algorithm_update d s) = record_kill_switch t a s).
Proof.
  rewrite algorithm_update_run.
  destruct (lookup "timestamp" d) as [t|] eqn:Et; [|now left].
  destruct (window_test s t) as [[|]|e] eqn:Ew; try (now left).
  apply window_test_inside in Ew.
  destruct (lookup "field" d) as [f|]; [|now left].
  destruct (py_eq f (VStr "sensor_combined")).
  { destruct (update_imu_cases d s) as [(k & _ & _ & ->)| ->];
      [now left|right; left; eexists; reflexivity]. }
  destruct (py_eq f (VStr "vehicle_air_data")).
  { rewrite update_pressure_run, Et.
    destruct (lookup "baro_pressure_pa" d) as [p|]; [|now left].
    right; right; left. exists t, p. auto. }
  destruct (py_eq f (VStr "manual_control_setpoint")); [|now left].
  rewrite update_kill_switch_run, Et.
  destruct (lookup "aux1" d) as [a|]; [|now left].
  right; right; right. exists t, a. auto.
Qed.

Lemma for_each_invariant (I : state -> Prop) :
  (forall d s, I s -> I (snd (algorithm_update d s))) ->
  forall data s, I s -> I (snd (for_each data algorithm_update s)).
Proof.
  intros Hu. induction data as [|d data IH]; intros s Hs; simpl; [assumption|].
  unfold bind. specialize (Hu d s Hs).
  destruct (algorithm_update d s) as [[u|e] s1]; simpl in *; auto.
Qed.

Lemma run_simulation_invariant (plt : matplotlib) (I : state -> Prop) :
  on_globals I ->
  (forall d s, I s -> I (snd (algorithm_update d s))) ->
  forall data s, I s -> I (snd (run_simulation plt data s)).
Proof.
  intros Hg Hu data s Hs. unfold run_simulation.
  unfold bind at 1. rewrite algorithm_init_run.
  set (s0 := with_sink s _).
  assert (I s0) as H0 by (apply (Hg s s0); [reflexivity|assumption]).
  unfold bind at 1.
  pose proof (for_each_invariant I Hu data s0 H0) as H1.
  destruct (for_each data algorithm_update s0) as [[u|e] s1]; simpl in H1;
    [|exact H1].
  rewrite algorithm_done_run.
  apply (Hg s1); [reflexivity|assumption].
Qed.

(** A property of the globals that every [algorithm_update] keeps holds
    after the whole program, on any log and also when it raises. *)
Lemma main_invariant (plt : matplotlib) (I : state -> Prop) :
  on_globals I ->
  (forall d s, I s -> I (snd (algorithm_update d s))) ->
  forall ulog s, I s -> I (snd (main plt ulog s)).
Proof.
  intros Hg Hu ulog s Hs. unfold main. unfold bind at 1.
  set (s0 := snd (print [VStr "Loading data from the ulog file"] s)).
  change (print [VStr "Loading data from the ulog file"] s) with (Returns tt, s0).
  cbv iota.
  assert (I s0) as H0 by (apply (Hg s s0); [reflexivity|assumption]).
  unfold bind at 1.
  pose proof (keeps_load_data ulog s0) as Hk.
  destruct (load_data ulog s0) as [[data|e] s1]; simpl in Hk;
    [|simpl; apply (Hg s0); assumption].
  assert (I s1) as H1 by (apply (Hg s0); assumption).
  unfold bind at 1.
  set (s2 := snd (print [VStr "Run simulation"] s1)).
  change (print [VStr "Run simulation"] s1) with (Returns tt, s2). cbv iota.
  assert (I s2) as H2 by (apply (Hg s1 s2); [reflexivity|assumption]).
  unfold bind at 1.
  pose proof (run_simulation_invariant plt I Hg Hu data s2 H2) as H3.
  destruct (run_simulation plt data s2) as [[u|e] s3]; simpl in *; [|assumption].
  apply (Hg s3); [reflexivity|assumption].
Qed.

Lemma on_globals_lockstep : on_globals lockstep.
Proof.
  intros s s' Hg [H1 H2]. unfold globals in Hg.
  injection Hg as _ _ Hpt Hpl Hkt Hkl. unfold lockstep. split; congruence.
Qed.

Lemma update_keeps_lockstep (d : dict) (s : state) :
  lockstep s -> lockstep (snd (algorithm_update d s)).
Proof.
  intros [H1 H2].
  destruct (algorithm_update_effect d s)
    as [->|[(out & ->)|[(t & p & _ & ->)|(t & a & _ & ->)]]];
    split; simpl; rewrite ?length_app; simpl; auto.
Qed.

(** X7. The paired histories have equal lengths after the whole
    program whenever they had before it: on any log, with any window
    bounds, and also when the program stops with an exception. *)
Theorem main_keeps_lockstep (plt : matplotlib) (ulog : ULog.t) (s : state) :
  lockstep s -> lockstep (snd (main plt ulog s)).
Proof.
  apply (main_invariant plt lockstep).
  - exact on_globals_lockstep.
  - exact update_keeps_lockstep.
Qed.

Lemma main_keeps_lockstep_witness :
  lockstep module_globals /\
  lockstep (snd (main plot_draws broken_ulog module_globals)).
Proof.
  split; [split; reflexivity|].
  apply (main_keeps_lockstep plot_draws broken_ulog module_globals).
  split; reflexivity.
Defined.

Lemma on_globals_extends (s : state) : on_globals (extends s).
Proof.
  intros x x' Hg H. unfold globals in Hg.
  injection Hg as Hs He Hpt Hpl Hkt Hkl. unfold extends in *.
  rewrite Hs, He, Hpt, Hpl, Hkt, Hkl. exact H.
Qed.

Lemma extends_refl (s : state) : extends s s.
Proof.
  unfold extends. repeat split; exists []; now rewrite app_nil_r.
Qed.

Lemma update_extends (s0 : state) (d : dict) (s : state) :
  extends s0 s -> extends s0 (snd (algorithm_update d s)).
Proof.
  intros (Hs & He & (l1 & H1) & (l2 & H2) & (l3 & H3) & (l4 & H4)).
  destruct (algorithm_update_effect d s)
    as [->|[(out & ->)|[(t & p & _ & ->)|(t & a & _ & ->)]]];
    unfold extends; simpl; rewrite ?H1, ?H2, ?H3, ?H4, <- ?app_assoc;
    repeat split; eauto.
Qed.

(** X8. The program never changes [start_seconds] or [end_seconds],
    and never removes or rewrites a history entry: after it, on any
    log and also when it raises, each of the four histories is the old
    one with entries added at its end. *)
Theorem main_append_only (plt : matplotlib) (ulog : ULog.t) (s : state) :
  start_seconds (snd (main plt ulog s)) = start_seconds s /\
  end_seconds (snd (main plt ulog s)) = end_seconds s /\
  (exists l, pressure_time (snd (main plt ulog s)) = pressure_time s ++ l) /\
  (exists l, pressure_log (snd (main plt ulog s)) = pressure_log s ++ l) /\
  (exists l, kill_sw_time (snd (main plt ulog s)) = kill_sw_time s ++ l) /\
  (exists l, kill_sw_log (snd (main plt ulog s)) = kill_sw_log s ++ l).
Proof.
  apply (main_invariant plt (extends s)).
  - apply on_globals_extends.
  - apply update_extends.
  - apply extends_refl.
Qed.

Lemma on_globals_all_inside : on_globals all_inside.
Proof.
  intros s s' Hg [H1 H2]. unfold globals in Hg.
  injection Hg as Hs He Hpt _ Hkt _. unfold all_inside.
  rewrite Hpt, Hkt. split; (eapply Forall_impl; [|eassumption]);
    intros t Ht; now apply (strictly_inside_ext s s' t).
Qed.

Lemma update_keeps_all_inside (d : dict) (s : state) :
  all_inside s -> all_inside (snd (algorithm_update d s)).
Proof.
  intros [H1 H2].
  destruct (algorithm_update_effect d s)
    as [->|[(out & ->)|[(t & p & Hin & ->)|(t & a & Hin & ->)]]].
  - split; assumption.
  - split; [exact H1|exact H2].
  - split; [|exact H2]. simpl. apply Forall_app. split; [exact H1|].
    constructor; [exact Hin|constructor].
  - split; [exact H1|]. simpl. apply Forall_app. split; [exact H2|].
    constructor; [exact Hin|constructor].
Qed.

(** X9. Only timestamps that pass the window test are ever recorded:
    if every timestamp in the two histories satisfies
    [start_seconds < t < end_seconds] before the program, so does every
    timestamp in them after it, on any log and also when it raises. *)
Theorem main_records_inside_window (plt : matplotlib) (ulog : ULog.t)
    (s : state) :
  all_inside s -> all_inside (snd (main plt ulog s)).
Proof.
  apply (main_invariant plt all_inside).
  - exact on_globals_all_inside.
  - exact update_keeps_all_inside.
Qed.

Lemma main_records_inside_window_witness :
  all_inside module_globals /\
  all_inside (snd (main plot_draws sample_ulog module_globals)).
Proof.
  split; [split; constructor|].
  apply (main_records_inside_window plot_draws sample_ulog module_globals).
  split; constructor.
Defined.

(** ** Loading the log *)

Lemma known_batch_false (dat : ULog.data_t) :
  known_batch dat = false ->
  String.eqb (ULog.name dat) "sensor_combined" = false /\
  String.eqb (ULog.name dat) "vehicle_air_data" = false /\
  String.eqb (ULog.name dat) "manual_control_setpoint" = false.
Proof.
  unfold known_batch. intros H.
  apply orb_false_iff in H as [H H3]. apply orb_false_iff in H as [H1 H2].
  auto.
Qed.

Lemma normalize_batch_unknown (dat : ULog.data_t) (s : state) :
  known_batch dat = false -> normalize_batch dat s = (Returns [], s).
Proof.
  intros H. apply known_batch_false in H as (H1 & H2 & H3).
  unfold normalize_batch, rows_sensor_combined, rows_vehicle_air_data,
    rows_manual_control_setpoint.
  rewrite H1, H2, H3. reflexivity.
Qed.

Lemma foldM_app {A B} (body : B -> A -> M B) (l1 l2 : list A) (acc : B)
    (s : state) :
  foldM body acc (l1 ++ l2) s
  = match foldM body acc l1 s with
    | (Returns acc1, s1) => foldM body acc1 l2 s1
    | (Raises e, s1) => (Raises e, s1)
    end.
Proof.
  revert acc s; induction l1 as [|a l1 IH]; intros acc s; simpl; [reflexivity|].
  unfold bind. destruct (body acc a s) as [[acc1|e] s1]; [apply IH|reflexivity].
Qed.

Lemma foldM_cons {A B} (body : B -> A -> M B) (a : A) (l : list A) (acc : B)
    (s : state) :
  foldM body acc (a :: l) s
  = match body acc a s with
    | (Returns acc1, s1) => foldM body acc1 l s1
    | (Raises e, s1) => (Raises e, s1)
    end.
Proof. reflexivity. Qed.

Lemma normalize_step_unknown (dat : ULog.data_t) (acc : list dict) (s : state) :
  known_batch dat = false ->
  (rows <- normalize_batch dat ;; ret (acc ++ rows)) s = (Returns acc, s).
Proof.
  intros H. unfold bind. rewrite (normalize_batch_unknown dat s H).
  unfold ret. now rewrite app_nil_r.
Qed.

(** X10. Batches of any other name than the three the script reads are
    skipped without a trace: removing them from the log changes neither
    what [load_data] returns or raises nor what it prints. *)
Theorem load_data_skips_other_batches (ulog : ULog.t) (s : state) :
  load_data (filter known_batch ulog) s = load_data ulog s.
Proof.
  unfold load_data, normalize.
  set (body := fun d dat => rows <- normalize_batch dat ;; ret (d ++ rows)).
  assert (forall acc s0,
            foldM body acc (filter known_batch ulog) s0
            = foldM body acc ulog s0) as H.
  { induction ulog as [|dat ulog IH]; intros acc s0; [reflexivity|].
    cbn [filter]. destruct (known_batch dat) eqn:Ek.
    - rewrite !foldM_cons.
      destruct (body acc dat s0) as [[acc1|e] s1]; [apply IH|reflexivity].
    - rewrite foldM_cons. subst body. cbv beta.
      rewrite (normalize_step_unknown dat acc s0 Ek). apply IH. }
  unfold bind. now rewrite H.
Qed.

Lemma normalize_batch_missing (dat : ULog.data_t) (s : state) (k : string) :
  first_missing (ULog.data dat) (columns_read dat) = Some k ->
  exists s', normalize_batch dat s = (Raises (KeyError k), s').
Proof.
  unfold columns_read, normalize_batch, rows_sensor_combined,
    rows_vehicle_air_data, rows_manual_control_setpoint.
  destruct (String.eqb (ULog.name dat) "sensor_combined").
  { cbn [first_missing]. unfold bind, lift, getitem, print_keys, modify.
    repeat match goal with
           | |- context [match lookup ?c (ULog.data dat) with _ => _ end] =>
               destruct (lookup c (ULog.data dat));
               [|intros [= <-]; eexists; reflexivity]
           end.
    discriminate. }
  destruct (String.eqb (ULog.name dat) "vehicle_air_data").
  { cbn [first_missing]. unfold bind, lift, getitem, print_keys, modify, ret.
    repeat match goal with
           | |- context [match lookup ?c (ULog.data dat) with _ => _ end] =>
               destruct (lookup c (ULog.data dat));
               [|intros [= <-]; eexists; reflexivity]
           end.
    discriminate. }
  destruct (String.eqb (ULog.name dat) "manual_control_setpoint");
    [|discriminate].
  cbn [first_missing]. unfold bind, lift, getitem, print_keys, modify, ret.
  repeat match goal with
         | |- context [match lookup ?c (ULog.data dat) with _ => _ end] =>
             destruct (lookup c (ULog.data dat));
             [|intros [= <-]; eexists; reflexivity]
         end.
  discriminate.
Qed.

(** X11. A batch of one of the three kinds that lacks a column the
    script reads makes [load_data] raise [KeyError] naming the first
    such column in reading order; no stream is returned even though the
    batches before it were valid, and no global is touched. *)
Theorem load_data_missing_column (pre post : ULog.t) (dat : ULog.data_t)
    (s : state) (k : string) :
  ulog_ok pre = true ->
  first_missing (ULog.data dat) (columns_read dat) = Some k ->
  fst (load_data (pre ++ dat :: post) s) = Raises (KeyError k) /\
  globals (snd (load_data (pre ++ dat :: post) s)) = globals s.
Proof.
  intros Hpre Hk. split; [|apply keeps_load_data].
  unfold load_data, normalize. unfold bind at 1. rewrite foldM_app.
  destruct (normalize_from_spec pre Hpre [] s) as (chunks & s1 & -> & _).
  rewrite foldM_cons. unfold bind at 1.
  destruct (normalize_batch_missing dat s1 k Hk) as (s2 & ->). reflexivity.
Qed.

Lemma load_data_missing_column_witness :
  ulog_ok [hd (ULog.Data "" [] []) broken_ulog] = true /\
  first_missing (ULog.data (ULog.Data "vehicle_air_data" ["timestamp"]
                              [("timestamp", [NpInt 150000000])]))
    (columns_read (ULog.Data "vehicle_air_data" ["timestamp"]
                     [("timestamp", [NpInt 150000000])]))
  = Some "baro_pressure_pa" /\
  fst (load_data broken_ulog module_globals)
  = Raises (KeyError "baro_pressure_pa") /\
  globals (snd (load_data broken_ulog module_globals)) = globals module_globals.
Proof.
  split; [reflexivity|]. split; [reflexivity|].
  apply (load_data_missing_column
           [hd (ULog.Data "" [] []) broken_ulog] []
           (ULog.Data "vehicle_air_data" ["timestamp"]
              [("timestamp", [NpInt 150000000])])
           module_globals "baro_pressure_pa"); reflexivity.
Defined.

Lemma length_records (dat : ULog.data_t) :
  List.length (records dat) = shortest_column dat.
Proof.
  unfold records, shortest_column, columns_read, zip.
  destruct (String.eqb (ULog.name dat) "sensor_combined").
  { rewrite length_map, !length_combine. simpl. now rewrite !Nat.min_assoc. }
  destruct (String.eqb (ULog.name dat) "vehicle_air_data").
  { rewrite length_map, !length_combine. reflexivity. }
  destruct (String.eqb (ULog.name dat) "manual_control_setpoint");
    [|reflexivity].
  rewrite length_map, !length_combine. reflexivity.
Qed.

Lemma length_chunks (ulog : ULog.t) (chunks : list (list dict)) :
  Forall2 (fun dat rows => Forall2 (normalized (ULog.name dat)) (records dat) rows)
          ulog chunks ->
  List.length (List.concat chunks) = list_sum (map shortest_column ulog).
Proof.
  induction 1 as [|dat rows ulog chunks Hr _ IH]; simpl; [reflexivity|].
  rewrite length_app, IH, <- length_records.
  now rewrite (Forall2_length Hr).
Qed.

(** X12. On a valid log [load_data] returns as many events as the
    batches hold complete records: for each batch the length of the
    shortest column read ([zip] drops the surplus of longer columns
    without a word), nothing for batches of other names; the sort
    neither drops nor adds an event. *)
Theorem load_data_length (ulog : ULog.t) (s : state) :
  ulog_ok ulog = true ->
  exists data s',
    load_data ulog s = (Returns data, s') /\
    List.length data = list_sum (map shortest_column ulog).
Proof.
  intros Hok.
  destruct (normalize_from_spec ulog Hok [] s) as (chunks & s' & Hn & HC).
  destruct (load_data_run ulog s _ s' Hn) as (data & Hl & _ & Hp & _ & _).
  exists data, s'. split; [exact Hl|].
  rewrite <- (Permutation_length Hp). now apply length_chunks.
Qed.

Lemma load_data_length_witness :
  ulog_ok ragged_ulog = true /\
  exists data s',
    load_data ragged_ulog module_globals = (Returns data, s') /\
    List.length data = 2%nat.
Proof.
  split; [reflexivity|].
  apply (load_data_length ragged_ulog module_globals). reflexivity.
Defined.

(** *** What [load_data] prints *)

Ltac rows_state H :=
  unfold bind, print_keys, modify, lift, getitem in H; simpl in H;
  rows_steps H;
  match type of H with (?o, _) = _ => destruct o end; [|discriminate];
  injection H as _ <-; split; reflexivity.

Lemma rows_sensor_combined_state dat s rows s' :
  rows_sensor_combined dat s = (Returns rows, s') ->
  globals s' = globals s /\
  sink s' = sink s ++ (if String.eqb (ULog.name dat) "sensor_combined"
                       then [PrintKeys (ULog.field_data dat)] else []).
Proof.
  unfold rows_sensor_combined. destruct (String.eqb _ _).
  - intros H. rows_state H.
  - intros [= _ <-]. now rewrite app_nil_r.
Qed.

Lemma rows_vehicle_air_data_state dat s rows s' :
  rows_vehicle_air_data dat s = (Returns rows, s') ->
  globals s' = globals s /\
  sink s' = sink s ++ (if String.eqb (ULog.name dat) "vehicle_air_data"
                       then [PrintKeys (ULog.field_data dat)] else []).
Proof.
  unfold rows_vehicle_air_data. destruct (String.eqb _ _).
  - intros H. rows_state H.
  - intros [= _ <-]. now rewrite app_nil_r.
Qed.

Lemma rows_manual_control_setpoint_state dat s rows s' :
  rows_manual_control_setpoint dat s = (Returns rows, s') ->
  globals s' = globals s /\
  sink s' = sink s ++ (if String.eqb (ULog.name dat) "manual_control_setpoint"
                       then [PrintKeys (ULog.field_data dat)] else []).
Proof.
  unfold rows_manual_control_setpoint. destruct (String.eqb _ _).
  - intros H. rows_state H.
  - intros [= _ <-]. now rewrite app_nil_r.
Qed.

Lemma normalize_batch_state dat s rows s' :
  normalize_batch dat s = (Returns rows, s') ->
  globals s' = globals s /\
  sink s' = sink s ++ (if known_batch dat
                       then [PrintKeys (ULog.field_data dat)] else []).
Proof.
  unfold normalize_batch. intros H.
  apply bind_returns in H as (r1 & s1 & H1 & H).
  apply bind_returns in H as (r2 & s2 & H2 & H).
  apply bind_returns in H as (r3 & s3 & H3 & H).
  injection H as _ <-.
  apply rows_sensor_combined_state in H1 as [G1 K1].
  apply rows_vehicle_air_data_state in H2 as [G2 K2].
  apply rows_manual_control_setpoint_state in H3 as [G3 K3].
  split; [congruence|].
  rewrite K3, K2, K1, <- !app_assoc. f_equal. unfold known_batch.
  destruct (String.eqb_spec (ULog.name dat) "sensor_combined") as [E|_].
  { rewrite E. reflexivity. }
  destruct (String.eqb_spec (ULog.name dat) "vehicle_air_data") as [E|_].
  { rewrite E. reflexivity. }
  destruct (String.eqb (ULog.name dat) "manual_control_setpoint"); reflexivity.
Qed.

Lemma normalize_from_state (ulog : ULog.t) : forall acc s d s',
  foldM (fun d dat => rows <- normalize_batch dat ;; ret (d ++ rows)) acc ulog s
  = (Returns d, s') ->
  globals s' = globals s /\
  sink s'
  = sink s ++ map (fun dat => PrintKeys (ULog.field_data dat))
                  (filter known_batch ulog).
Proof.
  induction ulog as [|dat ulog IH]; intros acc s d s' H.
  - injection H as _ <-. simpl. now rewrite app_nil_r.
  - rewrite foldM_cons in H.
    destruct (bind (normalize_batch dat) _ s) as [[acc1|e] s1] eqn:E;
      [|discriminate].
    apply bind_returns in E as (rows & s2 & Hb & E). injection E as _ <-.
    apply normalize_batch_state in Hb as [G1 K1].
    apply IH in H as [G2 K2]. split; [congruence|].
    rewrite K2, K1, <- app_assoc. f_equal. cbn [filter].
    destruct (known_batch dat); reflexivity.
Qed.

Lemma load_data_state (ulog : ULog.t) (s : state) (data : list dict)
    (s' : state) :
  load_data ulog s = (Returns data, s') ->
  globals s' = globals s /\
  sink s'
  = sink s ++ map (fun dat => PrintKeys (ULog.field_data dat))
                  (filter known_batch ulog).
Proof.
  intros H. apply load_data_inv in H as (d & Hn & _).
  unfold normalize in Hn. now apply normalize_from_state in Hn.
Qed.

(** X13. When [load_data] returns it has changed no global and has
    printed exactly one 'Keys' line, with the batch's field names, for
    each batch of one of the three kinds, in the order of the log. *)
Theorem load_data_prints_keys (ulog : ULog.t) (s : state) (data : list dict)
    (s' : state) :
  load_data ulog s = (Returns data, s') ->
  globals s' = globals s /\
  sink s'
  = sink s ++ map (fun dat => PrintKeys (ULog.field_data dat))
                  (filter known_batch ulog).
Proof.
  intros H. destruct (load_data_state ulog s data s' H) as [Hg Hs].
  split; [exact Hg|exact Hs].
Qed.

Lemma load_data_prints_keys_witness :
  exists data s',
    load_data sample_ulog module_globals = (Returns data, s') /\
    globals s' = globals module_globals /\
    sink s'
    = [PrintKeys ["timestamp"; "baro_pressure_pa"];
       PrintKeys ["timestamp"; "aux1"]].
Proof.
  eexists. eexists. split.
  - vm_compute. reflexivity.
  - eapply (load_data_prints_keys sample_ulog module_globals).
    vm_compute. reflexivity.
Defined.

(** X14. [load_data] returns the one stable sort of the normalised
    rows: whatever rearrangement of them is non-decreasing in timestamp
    and keeps the rows of each timestamp in their input order, it is
    the stream [load_data] returns. *)
Theorem load_data_is_the_stable_sort (ulog : ULog.t) (s : state)
    (d data : list dict) (s1 : state) :
  normalize ulog s = (Returns d, s1) ->
  Permutation d data ->
  nondecreasing data ->
  (forall t, filter (at_time t) data = filter (at_time t) d) ->
  load_data ulog s = (Returns data, s1).
Proof.
  intros Hn Hp Hs Hst.
  pose proof (normalize_ok ulog s d s1 Hn) as Hd.
  unfold load_data, bind, lift. rewrite Hn.
  now rewrite (sorted_rows_unique d data Hd Hp Hs Hst).
Qed.

Lemma nondecreasing_two (x y : dict) :
  ts_le x y = true -> nondecreasing [x; y].
Proof.
  intros H i a b Ha Hb. destruct i as [|[|i]]; simpl in Ha, Hb.
  - injection Ha as <-. injection Hb as <-. exact H.
  - discriminate.
  - discriminate.
Qed.

Lemma load_data_is_the_stable_sort_witness :
  normalize ragged_ulog module_globals
  = (Returns [pressure_row Lit.f150_0 Lit.f1013_2;
              pressure_row Lit.f160_0 Lit.f1013_0],
     with_sink module_globals [PrintKeys ["timestamp"; "baro_pressure_pa"]]) /\
  load_data ragged_ulog module_globals
  = (Returns [pressure_row Lit.f150_0 Lit.f1013_2;
              pressure_row Lit.f160_0 Lit.f1013_0],
     with_sink module_globals [PrintKeys ["timestamp"; "baro_pressure_pa"]]).
Proof.
  split; [vm_compute; reflexivity|].
  apply (load_data_is_the_stable_sort ragged_ulog module_globals
           [pressure_row Lit.f150_0 Lit.f1013_2;
            pressure_row Lit.f160_0 Lit.f1013_0]).
  - vm_compute. reflexivity.
  - apply Permutation_refl.
  - apply nondecreasing_two. reflexivity.
  - reflexivity.
Defined.

(** ** The whole program *)

Section PureResult.

Lemma pure_ret {A} (a : A) : pure_result (ret a).
Proof. intros s s'; reflexivity. Qed.

Lemma pure_lift {A} (o : outcome A) : pure_result (lift o).
Proof. intros s s'; reflexivity. Qed.

Lemma pure_print_keys keys : pure_result (print_keys keys).
Proof. intros s s'; reflexivity. Qed.

Lemma pure_bind {A B} (m : M A) (k : A -> M B) :
  pure_result m -> (forall a, pure_result (k a)) -> pure_result (bind m k).
Proof.
  intros Hm Hk s s'. unfold bind. specialize (Hm s s').
  destruct (m s) as [[a|e] s1], (m s') as [[a'|e'] s1']; simpl in Hm;
    try discriminate.
  - injection Hm as <-. apply Hk.
  - injection Hm as <-. reflexivity.
Qed.

Lemma pure_if {A} (b : bool) (m m' : M A) :
  pure_result m -> pure_result m' -> pure_result (if b then m else m').
Proof. destruct b; auto. Qed.

Lemma pure_foldM {A B} (body : B -> A -> M B) l :
  (forall b a, pure_result (body b a)) ->
  forall acc, pure_result (foldM body acc l).
Proof.
  intros Hb. induction l as [|a l IH]; simpl; intros acc;
    auto using pure_ret, pure_bind.
Qed.

Lemma pure_load_data ulog : pure_result (load_data ulog).
Proof.
  unfold load_data, normalize. apply pure_bind; [|intros; apply pure_lift].
  apply pure_foldM. intros d dat.
  unfold normalize_batch, rows_sensor_combined, rows_vehicle_air_data,
    rows_manual_control_setpoint.
  repeat match goal with
         | |- pure_result (bind _ _) => apply pure_bind; [|intros ?]
         | |- pure_result (if _ then _ else _) => apply pure_if
         | |- pure_result (ret _) => apply pure_ret
         | |- pure_result (lift _) => apply pure_lift
         | |- pure_result (print_keys _) => apply pure_print_keys
         end.
Qed.

End PureResult.

Lemma row_sensor_combined_event r x :
  row_sensor_combined "sensor_combined" r = Returns x -> event_ok x = true.
Proof.
  destruct r as (ts & g_x & g_y & g_z & acc_x & acc_y & acc_z).
  unfold row_sensor_combined. intros H. row_steps H. injection H as <-.
  reflexivity.
Qed.

Lemma row_vehicle_air_data_event r x :
  row_vehicle_air_data "vehicle_air_data" r = Returns x -> event_ok x = true.
Proof.
  destruct r as (ts & pres).
  unfold row_vehicle_air_data. intros H. row_steps H. injection H as <-.
  reflexivity.
Qed.

Lemma row_manual_control_setpoint_event r x :
  row_manual_control_setpoint "manual_control_setpoint" r = Returns x ->
  event_ok x = true.
Proof.
  destruct r as (ts & a1).
  unfold row_manual_control_setpoint. intros H. row_steps H. injection H as <-.
  reflexivity.
Qed.

Ltac rows_events H lemma :=
  unfold bind, print_keys, modify, lift, getitem in H; simpl in H;
  rows_steps H;
  match type of H with (?o, _) = _ => destruct o eqn:?E end; [|discriminate];
  injection H as <- _;
  eapply omapM_Forall; [|eassumption]; apply lemma.

Lemma normalize_batch_events dat s rows s' :
  normalize_batch dat s = (Returns rows, s') ->
  Forall (fun x => event_ok x = true) rows.
Proof.
  unfold normalize_batch. intros H.
  apply bind_returns in H as (r1 & s1 & H1 & H).
  apply bind_returns in H as (r2 & s2 & H2 & H).
  apply bind_returns in H as (r3 & s3 & H3 & H).
  injection H as <- _. rewrite !Forall_app. repeat split.
  - unfold rows_sensor_combined in H1.
    destruct (String.eqb_spec (ULog.name dat) "sensor_combined") as [E|_];
      [|injection H1 as <- _; constructor].
    rewrite E in H1. rows_events H1 row_sensor_combined_event.
  - unfold rows_vehicle_air_data in H2.
    destruct (String.eqb_spec (ULog.name dat) "vehicle_air_data") as [E|_];
      [|injection H2 as <- _; constructor].
    rewrite E in H2. rows_events H2 row_vehicle_air_data_event.
  - unfold rows_manual_control_setpoint in H3.
    destruct (String.eqb_spec (ULog.name dat) "manual_control_setpoint") as [E|_];
      [|injection H3 as <- _; constructor].
    rewrite E in H3. rows_events H3 row_manual_control_setpoint_event.
Qed.

Lemma normalize_from_events ulog : forall acc s d s',
  foldM (fun d dat => rows <- normalize_batch dat ;; ret (d ++ rows)) acc ulog s
  = (Returns d, s') ->
  Forall (fun x => event_ok x = true) acc ->
  Forall (fun x => event_ok x = true) d.
Proof.
  induction ulog as [|dat ulog IH]; intros acc s d s' H Ha.
  - injection H as <- _; assumption.
  - rewrite foldM_cons in H.
    destruct (bind (normalize_batch dat) _ s) as [[acc1|e] s1] eqn:E;
      [|discriminate].
    apply bind_returns in E as (rows & s2 & Hb & E). injection E as <- _.
    apply (IH _ _ _ _ H). rewrite Forall_app. split; [assumption|].
    eapply normalize_batch_events; eassumption.
Qed.

(** Every event [load_data] returns can be processed by
    [algorithm_update], is a row with a float timestamp, and the
    stream is non-decreasing. *)
Lemma load_data_stream (ulog : ULog.t) (s : state) (data : list dict)
    (s' : state) :
  load_data ulog s = (Returns data, s') ->
  forallb event_ok data = true /\ Forall row_ok data /\ nondecreasing data.
Proof.
  intros H. apply load_data_inv in H as (d & Hn & Hs).
  destruct (load_data_run ulog s d s' Hn) as (data' & _ & Hs' & Hp & Hnd & _).
  assert (data' = data) as -> by congruence.
  pose proof (normalize_ok ulog s d s' Hn) as Hd.
  unfold normalize in Hn. apply normalize_from_events in Hn; [|constructor].
  repeat split; [| |exact Hnd].
  - apply forallb_forall. intros x Hx. rewrite Forall_forall in Hn. apply Hn.
    eapply Permutation_in; [symmetry; exact Hp|exact Hx].
  - rewrite Forall_forall in *. intros x Hx. apply Hd.
    eapply Permutation_in; [symmetry; exact Hp|exact Hx].
Qed.

(** The program on a log that [load_data] can read, with numbers as
    window bounds: nothing raises before [plot_result] is called, and
    the program ends as that call does. *)
Lemma main_run (plt : matplotlib) (ulog : ULog.t) (s : state)
    (data : list dict) :
  is_num (start_seconds s) = true -> is_num (end_seconds s) = true ->
  fst (load_data ulog s) = Returns data ->
  exists s',
    main plt ulog s = (plot_returns plt s', s') /\
    forallb event_ok data = true /\ Forall row_ok data /\ nondecreasing data /\
    start_seconds s' = start_seconds s /\
    end_seconds s' = end_seconds s /\
    pressure_time s'
    = pressure_time s
      ++ map fst (recorded s "vehicle_air_data" "baro_pressure_pa" data) /\
    pressure_log s'
    = pressure_log s
      ++ map snd (recorded s "vehicle_air_data" "baro_pressure_pa" data) /\
    kill_sw_time s'
    = kill_sw_time s
      ++ map fst (recorded s "manual_control_setpoint" "aux1" data) /\
    kill_sw_log s'
    = kill_sw_log s
      ++ map snd (recorded s "manual_control_setpoint" "aux1" data) /\
    sink s'
    = sink s ++ [Print [VStr "Loading data from the ulog file"]]
      ++ map (fun dat => PrintKeys (ULog.field_data dat))
             (filter known_batch ulog)
      ++ [Print [VStr "Run simulation"]; Print [VStr "Algorithm init"]]
      ++ flat_map (update_line s) data
      ++ Print [VStr "Algorithm done"]
         :: when_shown plt s'
              [plot_of s'; Print [VStr "Simulation completed"]].
Proof.
  intros Hlo Hhi Hload. unfold main. unfold bind at 1.
  set (s0 := snd (print [VStr "Loading data from the ulog file"] s)).
  change (print [VStr "Loading data from the ulog file"] s) with (Returns tt, s0).
  cbv iota.
  rewrite (pure_load_data ulog s s0) in Hload.
  pose proof (keeps_load_data ulog s0) as Hk.
  destruct (load_data ulog s0) as [o s1] eqn:El. simpl in Hload, Hk. subst o.
  destruct (load_data_stream ulog s0 data s1 El) as (Hev & Hrow & Hnd).
  destruct (load_data_state ulog s0 data s1 El) as [_ Hsink1].
  unfold bind at 1. rewrite El.
  unfold bind at 1.
  set (s2 := snd (print [VStr "Run simulation"] s1)).
  change (print [VStr "Run simulation"] s1) with (Returns tt, s2). cbv iota.
  assert (globals s2 = globals s) as Hg.
  { transitivity (globals s1); [reflexivity|].
    transitivity (globals s0); [exact Hk|reflexivity]. }
  unfold globals in Hg. injection Hg as Gs Ge Gpt Gpl Gkt Gkl.
  destruct (run_simulation_stream plt data s2)
    as (s3 & Hrun & Hs3 & He3 & Hpt & Hpl & Hkt & Hkl & Hsink3);
    [change (is_num (start_seconds s1) = true); rewrite Gs; exact Hlo
    |change (is_num (end_seconds s1) = true); rewrite Ge; exact Hhi
    |assumption|].
  unfold bind at 1. rewrite Hrun.
  assert (forall kind field, recorded s2 kind field data = recorded s kind field data)
    as Ex.
  { intros; apply flat_map_ext; intros x; apply sample_at_ext;
      [exact Gs|exact Ge]. }
  assert (flat_map (update_line s2) data = flat_map (update_line s) data) as El'.
  { apply flat_map_ext; intros x; apply update_line_ext; [exact Gs|exact Ge]. }
  rewrite Ex in Hpt, Hpl, Hkt, Hkl. rewrite El' in Hsink3.
  change (start_seconds s2) with (start_seconds s1) in Hs3.
  change (end_seconds s2) with (end_seconds s1) in He3.
  change (pressure_time s2) with (pressure_time s1) in Hpt.
  change (pressure_log s2) with (pressure_log s1) in Hpl.
  change (kill_sw_time s2) with (kill_sw_time s1) in Hkt.
  change (kill_sw_log s2) with (kill_sw_log s1) in Hkl.
  rewrite Gs in Hs3. rewrite Ge in He3.
  rewrite Gpt in Hpt. rewrite Gpl in Hpl. rewrite Gkt in Hkt. rewrite Gkl in Hkl.
  change (sink s2) with (sink s1 ++ [Print [VStr "Run simulation"]]) in Hsink3.
  rewrite Hsink1 in Hsink3.
  change (sink s0)
    with (sink s ++ [Print [VStr "Loading data from the ulog file"]]) in Hsink3.
  unfold plot_returns, when_shown in *.
  destruct (plot_outcome plt s3) as [e|] eqn:Ep.
  - exists s3. rewrite Ep. split; [reflexivity|].
    repeat split; try assumption.
    rewrite Hsink3, <- !app_assoc. reflexivity.
  - exists (with_sink s3 (sink s3 ++ [Print [VStr "Simulation completed"]])).
    change (plot_outcome plt
              (with_sink s3 (sink s3 ++ [Print [VStr "Simulation completed"]])))
      with (plot_outcome plt s3).
    rewrite Ep. split; [reflexivity|].
    repeat split; try assumption.
    cbn [sink with_sink]. rewrite Hsink3, <- !app_assoc. reflexivity.
Qed.

(** X15. Whenever [load_data] returns a stream for the log and the
    window bounds are numbers, nothing raises before the program calls
    [plot_result]: the program returns when that call returns and
    raises what that call raises, and either way each history has grown
    by exactly the samples of its kind in that stream whose timestamps
    pass the window test, in the order of the stream. *)
Theorem main_records (plt : matplotlib) (ulog : ULog.t) (s : state)
    (data : list dict) :
  is_num (start_seconds s) = true -> is_num (end_seconds s) = true ->
  fst (load_data ulog s) = Returns data ->
  exists s',
    main plt ulog s = (plot_returns plt s', s') /\
    pressure_time s'
    = pressure_time s
      ++ map fst (recorded s "vehicle_air_data" "baro_pressure_pa" data) /\
    pressure_log s'
    = pressure_log s
      ++ map snd (recorded s "vehicle_air_data" "baro_pressure_pa" data) /\
    kill_sw_time s'
    = kill_sw_time s
      ++ map fst (recorded s "manual_control_setpoint" "aux1" data) /\
    kill_sw_log s'
    = kill_sw_log s
      ++ map snd (recorded s "manual_control_setpoint" "aux1" data).
Proof.
  intros Hlo Hhi Hload.
  destruct (main_run plt ulog s data Hlo Hhi Hload)
    as (s' & Hm & _ & _ & _ & _ & _ & Hpt & Hpl & Hkt & Hkl & _).
  exists s'. repeat split; assumption.
Qed.

Lemma main_records_witness :
  exists s',
    main plot_draws sample_ulog module_globals
    = (plot_returns plot_draws s', s') /\
    pressure_time s' = [VFloat Lit.f100_1; VFloat Lit.f150_0] /\
    pressure_log s' = [VFloat Lit.f1012_8; VFloat Lit.f1013_2] /\
    kill_sw_time s' = [VFloat Lit.f160_0] /\
    kill_sw_log s' = [VFloat Lit.f1_0].
Proof.
  apply (main_records plot_draws sample_ulog module_globals
           [pressure_row Lit.f50_0 Lit.f1013_0;
            kill_switch_row Lit.f50_0 Lit.f0_0;
            pressure_row Lit.f100_1 Lit.f1012_8;
            pressure_row Lit.f150_0 Lit.f1013_2;
            kill_switch_row Lit.f160_0 Lit.f1_0]);
    vm_compute; reflexivity.
Defined.

Lemma sample_at_timestamp (s : state) kind field (d : dict) tv :
  In tv (sample_at s kind field d) -> lookup "timestamp" d = Some (fst tv).
Proof.
  unfold sample_at.
  destruct (lookup "timestamp" d) as [t|]; [|intros []].
  destruct (lookup "field" d) as [f|]; [|intros []].
  destruct (lookup field d) as [v|]; [|intros []].
  destruct (inside_b s t && py_eq f (VStr kind)); [|intros []].
  intros [<-|[]]. reflexivity.
Qed.

Lemma recorded_timestamp (s : state) kind field (data : list dict) tv :
  In tv (recorded s kind field data) ->
  exists y, In y data /\ lookup "timestamp" y = Some (fst tv).
Proof.
  unfold recorded. intros H. apply in_flat_map in H as (y & Hy & H).
  exists y. split; [exact Hy|]. eapply sample_at_timestamp; exact H.
Qed.

(** The samples taken from a non-decreasing stream of rows are in
    non-decreasing order of timestamp. *)
Lemma recorded_sorted (s : state) kind field (data : list dict) :
  Forall row_ok data -> Sorted rows_le data ->
  Sorted value_le (map fst (recorded s kind field data)).
Proof.
  induction data as [|x data IH]; intros Hok Hs; [constructor|].
  pose proof (sorted_head_least data x Hok Hs) as Hleast.
  inversion Hok as [|? ? Hx Hok']; subst.
  inversion Hs as [|? ? Hs' _]; subst.
  specialize (IH Hok' Hs').
  unfold recorded in *. cbn [flat_map]. rewrite map_app.
  destruct (sample_at s kind field x) as [|tv [|tv' rest]] eqn:E.
  - exact IH.
  - cbn [map app]. constructor; [exact IH|].
    assert (lookup "timestamp" x = Some (fst tv)) as Ht
        by (apply (sample_at_timestamp s kind field); rewrite E; now left).
    destruct (map fst (flat_map (sample_at s kind field) data)) as [|t' l] eqn:El;
      constructor.
    assert (In t' (map fst (flat_map (sample_at s kind field) data))) as Hin
        by (rewrite El; now left).
    apply in_map_iff in Hin as (tv' & <- & Hin).
    apply (recorded_timestamp s kind field) in Hin as (y & Hy & Hty).
    rewrite Forall_forall in Hleast. specialize (Hleast y Hy).
    unfold rows_le, ts_le in Hleast. rewrite Ht, Hty in Hleast. exact Hleast.
  - exfalso. unfold sample_at in E.
    destruct (lookup "timestamp" x); [|discriminate].
    destruct (lookup "field" x); [|discriminate].
    destruct (lookup field x); [|discriminate].
    destruct (inside_b s v && py_eq v0 (VStr kind)); discriminate.
Qed.

(** X16. Whenever [load_data] returns a stream for the log and the
    window bounds are numbers, the program appends to each of the two
    time histories a list of timestamps that is non-decreasing: what it
    records it records in chronological order, also when [plot_result]
    raises at the end. *)
Theorem main_histories_chronological (plt : matplotlib) (ulog : ULog.t)
    (s : state) (data : list dict) :
  is_num (start_seconds s) = true -> is_num (end_seconds s) = true ->
  fst (load_data ulog s) = Returns data ->
  exists pt kt,
    pressure_time (snd (main plt ulog s)) = pressure_time s ++ pt /\
    kill_sw_time (snd (main plt ulog s)) = kill_sw_time s ++ kt /\
    Sorted value_le pt /\ Sorted value_le kt.
Proof.
  intros Hlo Hhi Hload.
  destruct (main_run plt ulog s data Hlo Hhi Hload)
    as (s' & Hm & _ & Hrow & Hnd & _ & _ & Hpt & _ & Hkt & _ & _).
  apply nondecreasing_Sorted in Hnd.
  rewrite Hm. cbn [snd].
  eexists. eexists.
  split; [exact Hpt|]. split; [exact Hkt|].
  split; now apply recorded_sorted.
Qed.

Lemma main_histories_chronological_witness :
  exists pt kt,
    pressure_time (snd (main plot_draws sample_ulog module_globals))
    = pressure_time module_globals ++ pt /\
    kill_sw_time (snd (main plot_draws sample_ulog module_globals))
    = kill_sw_time module_globals ++ kt /\
    Sorted value_le pt /\ Sorted value_le kt.
Proof.
  apply (main_histories_chronological plot_draws sample_ulog module_globals
           [pressure_row Lit.f50_0 Lit.f1013_0;
            kill_switch_row Lit.f50_0 Lit.f0_0;
            pressure_row Lit.f100_1 Lit.f1012_8;
            pressure_row Lit.f150_0 Lit.f1013_2;
            kill_switch_row Lit.f160_0 Lit.f1_0]);
    vm_compute; reflexivity.
Defined.

(** ** A run that returns *)

(** A call of [algorithm_update] that returns has left the bounds alone
    and printed the line of its event, if the event has one. *)
Lemma update_returns_line (d : dict) (s s' : state) :
  algorithm_update d s = (Returns tt, s') ->
  start_seconds s' = start_seconds s /\
  end_seconds s' = end_seconds s /\
  sink s' = sink s ++ update_line s d.
Proof.
  rewrite algorithm_update_run. unfold update_line, inside_b.
  destruct (lookup "timestamp" d) as [t|] eqn:Et; [|discriminate].
  destruct (window_test s t) as [[|]|e] eqn:Ew; [| |discriminate].
  2:{ intros [= <-]. destruct (lookup "field" d); rewrite app_nil_r; auto. }
  destruct (lookup "field" d) as [f|] eqn:Ef; [|discriminate].
  destruct (py_eq f (VStr "sensor_combined")).
  { destruct (update_imu_cases d s) as [(k & _ & _ & ->)| ->];
      [discriminate|]. intros [= <-]. auto. }
  destruct (py_eq f (VStr "vehicle_air_data")).
  { rewrite update_pressure_run, Et.
    destruct (lookup "baro_pressure_pa" d); [|discriminate].
    intros [= <-]. auto. }
  destruct (py_eq f (VStr "manual_control_setpoint")).
  { rewrite update_kill_switch_run, Et.
    destruct (lookup "aux1" d); [|discriminate].
    intros [= <-]. auto. }
  intros [= <-]. rewrite app_nil_r. auto.
Qed.

Lemma for_each_returns_lines (data : list dict) : forall s s',
  for_each data algorithm_update s = (Returns tt, s') ->
  start_seconds s' = start_seconds s /\
  end_seconds s' = end_seconds s /\
  sink s' = sink s ++ flat_map (update_line s) data.
Proof.
  induction data as [|d data IH]; intros s s' H.
  - injection H as <-. rewrite app_nil_r. auto.
  - simpl in H. apply bind_returns in H as ([] & s1 & H1 & H).
    apply update_returns_line in H1 as (Hs & He & Hout).
    apply IH in H as (Hs' & He' & Hout').
    split; [congruence|]. split; [congruence|].
    rewrite Hout', Hout. simpl. rewrite <- app_assoc. do 2 f_equal.
    apply flat_map_ext. intros x. now apply update_line_ext.
Qed.

(** X17. The transcript of a program run that returns, on any log and
    with any bounds: [load_data] returned a stream, and the sink
    received the loading line, one 'Keys' line per batch of a kind the
    script reads, the two start lines, one line per event of a known
    kind inside the window in stream order, the done line with the plot
    of the final histories, and the completion line; nothing else. *)
Theorem main_transcript (plt : matplotlib) (ulog : ULog.t) (s s' : state) :
  main plt ulog s = (Returns tt, s') ->
  exists data,
    fst (load_data ulog s) = Returns data /\
    sink s'
    = sink s ++ [Print [VStr "Loading data from the ulog file"]]
      ++ map (fun dat => PrintKeys (ULog.field_data dat))
             (filter known_batch ulog)
      ++ [Print [VStr "Run simulation"]; Print [VStr "Algorithm init"]]
      ++ flat_map (update_line s) data
      ++ done_output s'
      ++ [Print [VStr "Simulation completed"]].
Proof.
  unfold main. intros H.
  apply bind_returns in H as ([] & s0 & H0 & H). injection H0 as <-.
  apply bind_returns in H as (data & s1 & Hl & H).
  apply bind_returns in H as ([] & s2 & H2 & H). injection H2 as <-.
  apply bind_returns in H as ([] & s5 & Hrun & H). injection H as <-.
  unfold run_simulation in Hrun.
  apply bind_returns in Hrun as ([] & s3 & H3 & Hrun). injection H3 as <-.
  apply bind_returns in Hrun as ([] & s4 & Hloop & Hdone).
  apply algorithm_done_returns in Hdone as [_ ->].
  apply for_each_returns_lines in Hloop as (Hs & He & Hout).
  set (s0 := with_sink s
                (sink s ++ [Print [VStr "Loading data from the ulog file"]]))
    in *.
  pose proof (keeps_load_data ulog s0) as Hk.
  change (load_data ulog s0 = (Returns data, s1)) in Hl.
  rewrite Hl in Hk. simpl in Hk.
  destruct (load_data_state ulog s0 data s1 Hl) as [_ Hsink1].
  exists data. split.
  - rewrite (pure_load_data ulog s s0), Hl. reflexivity.
  - unfold globals in Hk. injection Hk as Gs Ge _ _ _ _.
    match type of Hout with
    | _ = _ ++ flat_map (update_line ?x) _ =>
        assert (flat_map (update_line x) data = flat_map (update_line s) data)
          as El
          by (apply flat_map_ext; intros y; apply update_line_ext; simpl;
              assumption)
    end.
    rewrite El in Hout. cbn [sink] in Hout. rewrite Hsink1 in Hout.
    unfold done_output. cbn [sink with_sink start_seconds end_seconds
                             pressure_time pressure_log kill_sw_time
                             kill_sw_log].
    rewrite Hout. subst s0. cbn [sink with_sink].
    rewrite <- !app_assoc. reflexivity.
Qed.

Lemma main_transcript_witness :
  main plot_draws ragged_ulog module_globals
  = (Returns tt, snd (main plot_draws ragged_ulog module_globals)) /\
  exists data,
    fst (load_data ragged_ulog module_globals) = Returns data /\
    sink (snd (main plot_draws ragged_ulog module_globals))
    = sink module_globals ++ [Print [VStr "Loading data from the ulog file"]]
      ++ map (fun dat => PrintKeys (ULog.field_data dat))
             (filter known_batch ragged_ulog)
      ++ [Print [VStr "Run simulation"]; Print [VStr "Algorithm init"]]
      ++ flat_map (update_line module_globals) data
      ++ done_output (snd (main plot_draws ragged_ulog module_globals))
      ++ [Print [VStr "Simulation completed"]].
Proof.
  split; [vm_compute; reflexivity|].
  apply (main_transcript plot_draws ragged_ulog module_globals).
  vm_compute. reflexivity.
Defined.

(** The transcript of the witness, line by line. *)
Example ragged_transcript :
  sink (snd (main plot_draws ragged_ulog module_globals))
  = [Print [VStr "Loading data from the ulog file"];
     PrintKeys ["timestamp"; "baro_pressure_pa"];
     Print [VStr "Run simulation"]; Print [VStr "Algorithm init"];
     Print [VFloat Lit.f150_0; VStr "pressure"; VFloat Lit.f1013_2];
     Print [VFloat Lit.f160_0; VStr "pressure"; VFloat Lit.f1013_0];
     Print [VStr "Algorithm done"];
     PlotResult (VInt 100) (VInt 900)
       [VFloat Lit.f150_0; VFloat Lit.f160_0]
       [VFloat Lit.f1013_2; VFloat Lit.f1013_0] [] [];
     Print [VStr "Simulation completed"]].
Proof. vm_compute. reflexivity. Qed.

(** ** No configuration check *)

(** On a well-formed log [load_data] returns a stream. *)
Lemma load_data_returns (ulog : ULog.t) (s : state) :
  ulog_ok ulog = true -> exists data, fst (load_data ulog s) = Returns data.
Proof.
  intros Hok.
  destruct (normalize_from_spec ulog Hok [] s) as (chunks & s1 & Hn & _).
  destruct (load_data_run ulog s _ s1 Hn) as (data & Hl & _).
  exists data. now rewrite Hl.
Qed.

(** With integer bounds [start_seconds >= end_seconds] no event with a
    float timestamp passes the window test. *)
Lemma inside_b_inverted (s : state) (a b : Z) (t : float) :
  start_seconds s = VInt a -> end_seconds s = VInt b -> b <= a ->
  inside_b s (VFloat t) = false.
Proof.
  intros Ha Hb Hab. unfold inside_b.
  now rewrite (window_test_inverted s a b t Ha Hb Hab).
Qed.

Lemma event_ok_timestamp (d : dict) :
  event_ok d = true -> exists t, lookup "timestamp" d = Some (VFloat t).
Proof.
  unfold event_ok.
  destruct (lookup "timestamp" d) as [[a|t|a]|]; try discriminate. eauto.
Qed.

Lemma nothing_recorded_inverted (s : state) (a b : Z) (data : list dict) :
  start_seconds s = VInt a -> end_seconds s = VInt b -> b <= a ->
  forallb event_ok data = true ->
  (forall kind field, recorded s kind field data = []) /\
  flat_map (update_line s) data = [].
Proof.
  intros Ha Hb Hab Hok. rewrite forallb_forall in Hok.
  assert (forall x, In x data ->
            (forall kind field, sample_at s kind field x = []) /\
            update_line s x = []) as H.
  { intros x Hx. destruct (event_ok_timestamp x (Hok x Hx)) as (t & Ht).
    unfold sample_at, update_line. rewrite Ht.
    rewrite (inside_b_inverted s a b t Ha Hb Hab). split.
    - intros kind field.
      destruct (lookup "field" x); [|reflexivity].
      destruct (lookup field x); reflexivity.
    - destruct (lookup "field" x); reflexivity. }
  split.
  - intros kind field. unfold recorded.
    induction data as [|x data IH]; [reflexivity|]. simpl.
    rewrite (proj1 (H x (or_introl eq_refl))). simpl.
    apply IH; intros; [apply Hok|apply H]; now right.
  - induction data as [|x data IH]; [reflexivity|]. simpl.
    rewrite (proj2 (H x (or_introl eq_refl))). simpl.
    apply IH; intros; [apply Hok|apply H]; now right.
Qed.

(** C7 as the code has it. No configuration is rejected.  For any
    numbers as [start_seconds] and [end_seconds], in either order and
    finite or not, and a well-formed log, nothing raises before the
    program calls [plot_result]: [load_data] returns the stream, the
    sink receives the loading and 'Keys' lines, 'Run simulation',
    'Algorithm init', a line per event that passes the window test and
    'Algorithm done', and [plot_result] is called with the bounds
    unchanged; the program returns when that call returns and raises
    what that call raises.  With integer bounds
    [start_seconds >= end_seconds] no event passes the window test: no
    event line is printed and all six globals are as before the run. *)
Theorem no_config_check (plt : matplotlib) (ulog : ULog.t) (s : state) :
  is_num (start_seconds s) = true -> is_num (end_seconds s) = true ->
  ulog_ok ulog = true ->
  exists data s',
    fst (load_data ulog s) = Returns data /\
    main plt ulog s = (plot_returns plt s', s') /\
    start_seconds s' = start_seconds s /\
    end_seconds s' = end_seconds s /\
    sink s'
    = sink s ++ [Print [VStr "Loading data from the ulog file"]]
      ++ map (fun dat => PrintKeys (ULog.field_data dat))
             (filter known_batch ulog)
      ++ [Print [VStr "Run simulation"]; Print [VStr "Algorithm init"]]
      ++ flat_map (update_line s) data
      ++ Print [VStr "Algorithm done"]
         :: when_shown plt s'
              [plot_of s'; Print [VStr "Simulation completed"]] /\
    (forall a b,
       start_seconds s = VInt a -> end_seconds s = VInt b -> b <= a ->
       globals s' = globals s /\ flat_map (update_line s) data = []).
Proof.
  intros Hlo Hhi Hok.
  destruct (load_data_returns ulog s Hok) as (data & Hload).
  destruct (main_run plt ulog s data Hlo Hhi Hload)
    as (s' & Hm & Hev & _ & _ & Hs & He & Hpt & Hpl & Hkt & Hkl & Hsink).
  exists data, s'. repeat (split; [assumption|]).
  intros a b Ha Hb Hab.
  destruct (nothing_recorded_inverted s a b data Ha Hb Hab Hev) as [Hr Hl].
  split; [|exact Hl].
  rewrite !Hr in Hpt, Hpl, Hkt, Hkl. simpl in Hpt, Hpl, Hkt, Hkl.
  rewrite app_nil_r in Hpt, Hpl, Hkt, Hkl.
  unfold globals. congruence.
Qed.

Lemma no_config_check_witness :
  exists data s',
    fst (load_data sample_ulog inverted_window) = Returns data /\
    main plot_draws sample_ulog inverted_window
    = (plot_returns plot_draws s', s') /\
    start_seconds s' = start_seconds inverted_window /\
    end_seconds s' = end_seconds inverted_window /\
    sink s'
    = sink inverted_window
      ++ [Print [VStr "Loading data from the ulog file"]]
      ++ map (fun dat => PrintKeys (ULog.field_data dat))
             (filter known_batch sample_ulog)
      ++ [Print [VStr "Run simulation"]; Print [VStr "Algorithm init"]]
      ++ flat_map (update_line inverted_window) data
      ++ Print [VStr "Algorithm done"]
         :: when_shown plot_draws s'
              [plot_of s'; Print [VStr "Simulation completed"]] /\
    (forall a b,
       start_seconds inverted_window = VInt a ->
       end_seconds inverted_window = VInt b -> b <= a ->
       globals s' = globals inverted_window /\
       flat_map (update_line inverted_window) data = []).
Proof.
  apply (no_config_check plot_draws sample_ulog inverted_window); reflexivity.
Defined.

(** C7 as the claim has it, with the bounds exchanged (900 and 100) and
    every figure shown: [start_seconds < end_seconds] is false, yet the
    program is not stopped before the run; it loads the log, runs the
    whole simulation, in which no event passes the window test, plots
    two empty series and returns. *)
Lemma inverted_window_not_rejected :
  py_lt (start_seconds inverted_window) (end_seconds inverted_window)
  = Returns false /\
  fst (main plot_draws sample_ulog inverted_window) = Returns tt /\
  sink (snd (main plot_draws sample_ulog inverted_window))
  = [Print [VStr "Loading data from the ulog file"];
     PrintKeys ["timestamp"; "baro_pressure_pa"];
     PrintKeys ["timestamp"; "aux1"];
     Print [VStr "Run simulation"];
     Print [VStr "Algorithm init"];
     Print [VStr "Algorithm done"];
     PlotResult (VInt 900) (VInt 100) [] [] [] [];
     Print [VStr "Simulation completed"]].
Proof.
  split; [reflexivity|]. split; vm_compute; reflexivity.
Qed.
